(** * ForteAI Nexus backend: survey completion, analysis orchestration and
      the reset lifecycle

    A shallow embedding of the Express handlers of the backend that deal with
    survey submission, the completion check, the two-phase analysis, report
    retrieval and the reset operations, together with the properties the
    specification states about them.

    The relational store is a record of tables (lists of rows, in insertion
    order).  Every handler is a computation in a small state-and-exception
    monad over a [world]: the store, the open transaction (if any), the
    outcome of the SQL statements still to be issued, the behaviour of the
    external analysis service, and what the process has sent out so far
    (outbound HTTP requests and console lines). *)

From Stdlib Require Import List ZArith Bool Arith Lia String Ascii.
From Stdlib Require Import Sorted Permutation.
Import ListNotations.
Local Open Scope string_scope.
Local Open Scope Z_scope.
Local Open Scope list_scope.

Set Implicit Arguments.

(** ** Data model *)

(** [employees.role].  The code only ever compares it with ['HR'] and
    ['Admin']. *)
Inductive role : Type := Employee | Manager | HR | Admin.

Definition role_eqb (a b : role) : bool :=
  match a, b with
  | Employee, Employee | Manager, Manager | HR, HR | Admin, Admin => true
  | _, _ => false
  end.

(** A row of the [employees] table, restricted to the columns the handlers
    below read or write.  [company_id] and [is_filled] are nullable:
    rows are inserted without [is_filled], and the handlers read it through
    [COALESCE(is_filled, 0)] and write only 0 and 1. *)
Record employee : Type := mkEmployee {
  employeesID : string;
  emp_role : role;
  emp_company_id : option Z;
  is_filled : option bool
}.

(** A row of [Responses_Sentiment]: one answer of one employee. *)
Record response_row : Type := mkResponse {
  rs_employeesID : string;
  rs_form_id : Z;
  rs_form_question_id : Z;
  rs_answer_text : option string;
  rs_answer_choice : option string
}.

(** A row of [responses_langchain_sentiment]: a generated individual
    report.  The payload columns are collapsed into [lc_summary]. *)
Record langchain_row : Type := mkLangchain {
  lc_employeesID : string;
  lc_created_at : Z;
  lc_summary : string
}.

(** A row of [company_reports_sentiment]. *)
Record company_report_row : Type := mkCompanyReport {
  cr_company_id : Z;
  cr_is_filled : option bool;
  cr_created_at : Z;
  cr_summary : string
}.

Record company : Type := mkCompany {
  co_company_id : Z;
  co_company_name : string
}.

(** [FormQuestions_Sentiment] joined with [MasterQuestions_Sentiment]: the
    orchestrator reads answers through this join. *)
Record form_question : Type := mkFormQuestion {
  fq_form_question_id : Z;
  fq_question_text : string;
  fq_master_question_id : Z
}.

Record master_question : Type := mkMasterQuestion {
  mq_master_question_id : Z;
  mq_question_number : Z
}.

#[projections(primitive)]
Record database : Type := mkDatabase {
  employees : list employee;
  Responses_Sentiment : list response_row;
  responses_langchain_sentiment : list langchain_row;
  company_reports_sentiment : list company_report_row;
  companies : list company;
  FormQuestions_Sentiment : list form_question;
  MasterQuestions_Sentiment : list master_question;
  (** result of [SHOW COLUMNS FROM Responses_Sentiment LIKE 'employeesID'] *)
  has_employeesID_column : bool
}.

Definition with_employees (es : list employee) (d : database) : database :=
  mkDatabase es (Responses_Sentiment d) (responses_langchain_sentiment d)
    (company_reports_sentiment d) (companies d) (FormQuestions_Sentiment d)
    (MasterQuestions_Sentiment d) (has_employeesID_column d).

Definition with_responses (rs : list response_row) (d : database) : database :=
  mkDatabase (employees d) rs (responses_langchain_sentiment d)
    (company_reports_sentiment d) (companies d) (FormQuestions_Sentiment d)
    (MasterQuestions_Sentiment d) (has_employeesID_column d).

Definition with_langchain (ls : list langchain_row) (d : database) : database :=
  mkDatabase (employees d) (Responses_Sentiment d) ls
    (company_reports_sentiment d) (companies d) (FormQuestions_Sentiment d)
    (MasterQuestions_Sentiment d) (has_employeesID_column d).

Definition with_company_reports (cs : list company_report_row) (d : database)
  : database :=
  mkDatabase (employees d) (Responses_Sentiment d)
    (responses_langchain_sentiment d) cs (companies d)
    (FormQuestions_Sentiment d) (MasterQuestions_Sentiment d)
    (has_employeesID_column d).

(** ** SQL and JavaScript value conventions *)

(** [COALESCE(is_filled, 0)], read back in JavaScript through [!!]. *)
Definition coalesce_filled (f : option bool) : bool :=
  match f with Some b => b | None => false end.

(** SQL [col = ?] on a nullable integer column: NULL matches nothing. *)
Definition sql_eq (col param : option Z) : bool :=
  match col, param with
  | Some a, Some b => a =? b
  | _, _ => false
  end.

(** JavaScript [a !== b] on two values that are each a number or [null]. *)
Definition js_strict_eq (a b : option Z) : bool :=
  match a, b with
  | Some x, Some y => x =? y
  | None, None => true
  | _, _ => false
  end.

(** JavaScript truthiness of a value that is a number or [null]. *)
Definition truthy_num (a : option Z) : bool :=
  match a with Some x => negb (x =? 0) | None => false end.

(** JavaScript truthiness of a value that is a string or absent. *)
Definition truthy_str (a : option string) : bool :=
  match a with Some s => negb (String.eqb s "") | None => false end.

(** [a || b] on such values. *)
Definition or_else {A : Type} (truthy : option A -> bool) (a b : option A)
  : option A :=
  if truthy a then a else b.

(** [s || null]. *)
Definition or_null (s : option string) : option string :=
  if truthy_str s then s else None.

(** [role != 'HR'] *)
Definition non_hr (e : employee) : bool := negb (role_eqb (emp_role e) HR).

(** ** The world a handler runs in *)

(** The three ways a call to the analysis service fails, and success.  A
    reply with a status outside 2xx carries its body, [error.response.data]:
    [None] when the body is the JSON value null. *)
Inductive flask_failure : Type :=
| ECONNREFUSED
| ECONNABORTED
| BadStatus (status : nat) (data : option string).

Inductive flask_outcome : Type :=
| FlaskOk (data : string)
| FlaskFail (f : flask_failure).

(** The two requests the orchestrator sends. *)
Inductive flask_request : Type :=
| Analyze (employeeId : string) (companyName : option string)
    (answers : list (Z * (string * string)))
| AnalyzeCompany (companyId : option Z).

(** Lines the orchestrator prints. *)
Inductive console_line : Type :=
| LogStart (companyId : option Z)
| LogFound (n : nat)
| LogGenerating (employeeId : string)
| LogGenerated (employeeId : string)
| LogNoResponses (employeeId : string)
| LogEmployeeFailed (employeeId : string)
| LogStep1Complete
| LogSendingCompany
| LogStep2Complete
| LogCompanyAnalysisError.

(** What a rejected promise carries, or what a statement throws. *)
Inductive error : Type :=
| SqlError
| AxiosError (f : flask_failure)
| TypeError.

(** A call to the analysis service lasts minutes; the store is shared with
    every other request served meanwhile, and the service writes the report
    rows itself.  One entry of [service] therefore gives, for the next
    outbound call, its outcome and the store as it is when the call
    returns.  An exhausted plan answers 200 and leaves the store alone.

    [faults] is the outcome of the SQL statements still to be issued, in
    issue order: [true] means the statement is rejected.  An exhausted plan
    means no further statement fails.

    [calls] records every outbound request with the store as it was when the
    request was issued; nothing reads it back. *)
#[projections(primitive)]
Record world : Type := mkWorld {
  db : database;
  tx : option database;
  faults : list bool;
  service : list (flask_request -> database -> flask_outcome * database);
  calls : list (flask_request * database);
  console : list console_line
}.

Definition with_db (d : database) (w : world) : world :=
  mkWorld d (tx w) (faults w) (service w) (calls w) (console w).

Definition with_tx (t : option database) (w : world) : world :=
  mkWorld (db w) t (faults w) (service w) (calls w) (console w).

Definition with_faults (fs : list bool) (w : world) : world :=
  mkWorld (db w) (tx w) fs (service w) (calls w) (console w).

(** ** The handler monad *)

Module Handler.

Inductive outcome (A : Type) : Type :=
| Ok (a : A)
| Throw (e : error).
Arguments Throw {A} e.

Definition M (A : Type) : Type := world -> outcome A * world.

Definition ret {A : Type} (a : A) : M A := fun w => (Ok a, w).

Definition throw {A : Type} (e : error) : M A := fun w => (Throw e, w).

Definition bind {A B : Type} (m : M A) (k : A -> M B) : M B :=
  fun w =>
    match m w with
    | (Ok a, w1) => k a w1
    | (Throw e, w1) => (Throw e, w1)
    end.

(** [try { m } catch (e) { h e }] *)
Definition try_catch {A : Type} (m : M A) (h : error -> M A) : M A :=
  fun w =>
    match m w with
    | (Ok a, w1) => (Ok a, w1)
    | (Throw e, w1) => h e w1
    end.

(** [try { m } finally { f }] with a [finally] block that cannot throw. *)
Definition finally {A : Type} (m : M A) (f : world -> world) : M A :=
  fun w => let (r, w1) := m w in (r, f w1).

End Handler.
Import Handler.

Declare Scope handler_scope.
Delimit Scope handler_scope with handler.
Notation "x <- m ;; k" := (bind m (fun x => k))
  (at level 100, m at next level, right associativity) : handler_scope.
Notation "m ;;; k" := (bind m (fun _ => k))
  (at level 100, right associativity) : handler_scope.
Local Open Scope handler_scope.

(** Takes the outcome of the next SQL statement off the plan. *)
Definition next_fault (w : world) : bool * world :=
  (hd false (faults w), with_faults (tl (faults w)) w).

(** [await pool.execute(sql, params)] / [await connection.execute(...)]:
    the statement [q] either is rejected and leaves the store alone, or
    takes effect and yields its result. *)
Definition execute {A : Type} (q : database -> A * database) : M A :=
  fun w =>
    let (failed, w1) := next_fault w in
    if failed then (Throw SqlError, w1)
    else let (a, d) := q (db w1) in (Ok a, with_db d w1).

(** A [SELECT]. *)
Definition select {A : Type} (q : database -> A) : M A :=
  execute (fun d => (q d, d)).

(** [console.log] / [console.warn] / [console.error] *)
Definition log (l : console_line) : M unit :=
  fun w => (Ok tt,
            mkWorld (db w) (tx w) (faults w) (service w) (calls w)
              (console w ++ [l])).

(** [await axios.post(FLASK_BASE_URL + path, payload, {timeout})] *)
Definition axios_post (req : flask_request) : M string :=
  fun w =>
    let issued := calls w ++ [(req, db w)] in
    match service w with
    | [] => (Ok "", mkWorld (db w) (tx w) (faults w) [] issued (console w))
    | behave :: rest =>
        let (out, d) := behave req (db w) in
        let w1 := mkWorld d (tx w) (faults w) rest issued (console w) in
        match out with
        | FlaskOk data => (Ok data, w1)
        | FlaskFail f => (Throw (AxiosError f), w1)
        end
    end.

(** [connection.beginTransaction()], [commit()] and [rollback()] on a
    transactional engine.  A rollback always takes effect: when the
    connection is lost instead, the server discards the open transaction
    all the same. *)
Definition beginTransaction : M unit :=
  fun w =>
    let (failed, w1) := next_fault w in
    if failed then (Throw SqlError, w1)
    else (Ok tt, with_tx (Some (db w1)) w1).

Definition commit : M unit :=
  fun w =>
    let (failed, w1) := next_fault w in
    if failed then (Throw SqlError, w1)
    else (Ok tt, with_tx None w1).

Definition rollback : M unit :=
  fun w =>
    match tx w with
    | Some snapshot => (Ok tt, with_tx None (with_db snapshot w))
    | None => (Ok tt, w)
    end.

(** ** HTTP layer *)

(** The JSON bodies the handlers send, one constructor per shape. *)
Inductive body : Type :=
| Message (success : bool) (message : string)
| ErrorBody (error : string)
| ErrorCounts (error : string) (total filled : nat)
| NotAllSubmitted (filled total : nat)
| ErrorDetails (error : string) (details : string)
| ServiceFailure (error : string) (f : flask_failure)
| AdminReport (report : company_report_row)
| CompanyReport (companyId : option Z) (companyName : option string)
    (report : company_report_row)
| Counts (total filled : nat)
| CompanyStatus (companyId : option Z) (companyName : option string)
    (total filled : nat) (notFilled : list string)
| IsFilled (isFilled : bool)
| SentimentReport (report : langchain_row)
| NoSentimentReport (hasFilledForm : bool)
| RowFailed (i : nat)
| Cleared (responses reports : nat)
| AnalysisCompleted (companyId : option Z) (companyName : option string)
| NoEmployeesToReset
| ResetSummary (employees deletedResponses deletedLangchainReports
    deletedCompanyReports resetEmployees : nat).

Record response : Type := mkHttp {
  status : Z;
  json : body
}.

(** [res.json(b)] answers 200. *)
Definition res_json (b : body) : response := mkHttp 200 b.

(** The payload [generateToken] signs: [{ employeesID, role }].  Tokens
    issued for password links carry no role. *)
Record token_payload : Type := mkToken {
  tok_employeesID : string;
  tok_role : option role
}.

(** What [jwt.verify] makes of the [Authorization] header. *)
Inductive credentials : Type :=
| NoToken
| InvalidToken
| Verified (employee : token_payload).

Definition role_is (r : role) (o : option role) : bool :=
  match o with Some r' => role_eqb r' r | None => false end.

(** [authenticateToken] and [authenticateEmployee]: any verified token. *)
Definition authenticateToken (c : credentials)
    (next : token_payload -> M response) : M response :=
  match c with
  | NoToken => ret (mkHttp 401 (Message false "Access token required"))
  | InvalidToken => ret (mkHttp 403 (Message false "Invalid or expired token"))
  | Verified employee => next employee
  end.

Definition authenticateEmployee := authenticateToken.

(** [authenticateHR]: role HR or Admin. *)
Definition authenticateHR (c : credentials)
    (next : token_payload -> M response) : M response :=
  match c with
  | NoToken => ret (mkHttp 401 (Message false "Access token required"))
  | InvalidToken => ret (mkHttp 403 (Message false "Invalid or expired token"))
  | Verified employee =>
      if negb (role_is HR (tok_role employee))
         && negb (role_is Admin (tok_role employee))
      then ret (mkHttp 403 (Message false "HR access required"))
      else next employee
  end.

(** [authenticateAdmin]: role Admin. *)
Definition authenticateAdmin (c : credentials)
    (next : token_payload -> M response) : M response :=
  match c with
  | NoToken => ret (mkHttp 401 (Message false "Access token required"))
  | InvalidToken => ret (mkHttp 403 (Message false "Invalid or expired token"))
  | Verified employee =>
      if negb (role_is Admin (tok_role employee))
      then ret (mkHttp 403 (Message false "Admin access required"))
      else next employee
  end.

(** ** Queries *)

Definition has_id (id : string) (e : employee) : bool :=
  String.eqb (employeesID e) id.

(** [SELECT COALESCE(is_filled, 0) AS is_filled FROM employees
     WHERE company_id = ? AND role != 'HR'] *)
Definition in_company_non_hr (companyId : option Z) (e : employee) : bool :=
  sql_eq (emp_company_id e) companyId && non_hr e.

Definition select_non_hr (companyId : option Z) (d : database)
  : list employee :=
  filter (in_company_non_hr companyId) (employees d).

Definition select_is_filled (companyId : option Z) (d : database)
  : list bool :=
  map (fun e => coalesce_filled (is_filled e)) (select_non_hr companyId d).

(** [rows.filter(r => !!r.is_filled).length] *)
Definition count_filled (rows : list bool) : nat :=
  List.length (filter (fun b => b) rows).

(** [SELECT company_id FROM companies WHERE company_name = ? LIMIT 1] *)
Definition select_company_id (name : string) (d : database) : option Z :=
  option_map co_company_id
    (find (fun c => String.eqb (co_company_name c) name) (companies d)).

(** [... LEFT JOIN companies c ON e.company_id = c.company_id]: the joined
    [company_name], NULL when no company matches. *)
Definition joined_company_name (companyId : option Z) (d : database)
  : option string :=
  option_map co_company_name
    (find (fun c => sql_eq (Some (co_company_id c)) companyId) (companies d)).

(** [SELECT e.company_id, c.company_name FROM employees e LEFT JOIN companies
     c ON ... WHERE e.employeesID = ? LIMIT 1], and the first row of the same
    query without [LIMIT]. *)
Definition select_employee_company (id : string) (d : database)
  : option (option Z * option string) :=
  option_map
    (fun e => (emp_company_id e, joined_company_name (emp_company_id e) d))
    (find (has_id id) (employees d)).

(** [ORDER BY created_at DESC LIMIT 1]; among rows created at the same
    instant the earliest inserted is kept. *)
Fixpoint latest {A : Type} (created_at : A -> Z) (rows : list A) : option A :=
  match rows with
  | [] => None
  | r :: rest =>
      match latest created_at rest with
      | Some r' => if created_at r <? created_at r' then Some r' else Some r
      | None => Some r
      end
  end.

(** [SELECT * FROM company_reports_sentiment WHERE company_id = ?
     ORDER BY created_at DESC LIMIT 1] *)
Definition select_company_report (companyId : option Z) (d : database)
  : option company_report_row :=
  latest cr_created_at
    (filter (fun r => sql_eq (Some (cr_company_id r)) companyId)
       (company_reports_sentiment d)).

(** The same with [AND COALESCE(is_filled, 0) = 1]. *)
Definition select_filled_company_report (companyId : option Z) (d : database)
  : option company_report_row :=
  latest cr_created_at
    (filter (fun r => sql_eq (Some (cr_company_id r)) companyId
                      && coalesce_filled (cr_is_filled r))
       (company_reports_sentiment d)).

(** [SELECT * FROM responses_langchain_sentiment WHERE employeesID = ?
     ORDER BY created_at DESC LIMIT 1] *)
Definition select_sentiment_report (id : string) (d : database)
  : option langchain_row :=
  latest lc_created_at
    (filter (fun r => String.eqb (lc_employeesID r) id)
       (responses_langchain_sentiment d)).

(** [SELECT is_filled FROM employees WHERE employeesID = ? LIMIT 1] *)
Definition select_employee (id : string) (d : database) : option employee :=
  find (has_id id) (employees d).

(** ** Company parameter of the admin routes *)

(** [Number(req.params.company)] is either a number or [NaN]; in the second
    case the parameter is looked up as a company name. *)
Inductive company_param : Type :=
| CompanyNumber (n : Z)
| CompanyName (name : string).

Definition resolve_company (companyParam : company_param)
    (next : Z -> M response) : M response :=
  match companyParam with
  | CompanyNumber n => next n
  | CompanyName name =>
      rows <- select (select_company_id name) ;;
      match rows with
      | None => ret (mkHttp 404 (Message false "Company not found"))
      | Some companyId => next companyId
      end
  end.

(** ** Report retrieval and status endpoints *)

(** [GET /api/admin/company/:company/report/status] *)
Definition admin_report_status (companyParam : company_param) : M response :=
  try_catch
    (resolve_company companyParam (fun companyId =>
       rows <- select (select_is_filled (Some companyId)) ;;
       let total := List.length rows in
       let filled := count_filled rows in
       ret (res_json (Counts total filled))))
    (fun _ => ret (mkHttp 500 (Message false "Server error"))).

(** [GET /api/admin/company/:company/report] *)
Definition admin_company_report (companyParam : company_param) : M response :=
  try_catch
    (resolve_company companyParam (fun companyId =>
       rows <- select (select_is_filled (Some companyId)) ;;
       let total := List.length rows in
       let filled := count_filled rows in
       if negb (Nat.eqb filled total)
       then ret (mkHttp 409 (Message false "Not ready"))
       else
         reportRows <- select (select_company_report (Some companyId)) ;;
         match reportRows with
         | None => ret (mkHttp 404 (Message false "No report"))
         | Some report => ret (res_json (AdminReport report))
         end))
    (fun _ => ret (mkHttp 500 (Message false "Server error"))).

Section CompanyStatus.

(** [ORDER BY name]: the [name] column and its collation are not part of
    the model, so the order in which the query returns the rows it selects
    is left open. *)
Variable order_by_name : list employee -> list employee.

(** [GET /api/company/report/status] *)
Definition company_report_status (hrUser : token_payload) : M response :=
  try_catch
    (hrRow <- select (select_employee_company (tok_employeesID hrUser)) ;;
     match hrRow with
     | None => ret (mkHttp 404 (ErrorBody "HR user not found"))
     | Some (companyId, company_name) =>
         let companyName := or_null company_name in
         rows <- select (fun d => order_by_name (select_non_hr companyId d)) ;;
         let total := List.length rows in
         let filled :=
           List.length (filter (fun r => coalesce_filled (is_filled r)) rows) in
         let notFilled :=
           map employeesID
             (filter (fun r => negb (coalesce_filled (is_filled r))) rows) in
         ret (res_json
                (CompanyStatus companyId companyName total filled notFilled))
     end)
    (fun _ => ret (mkHttp 500 (ErrorBody "Failed to fetch company status"))).

End CompanyStatus.

(** [GET /api/company/report] *)
Definition company_report (hrUser : token_payload) : M response :=
  try_catch
    (hrRow <- select (select_employee_company (tok_employeesID hrUser)) ;;
     match hrRow with
     | None => ret (mkHttp 404 (ErrorBody "HR user not found"))
     | Some (companyId, company_name) =>
         let companyName := or_null company_name in
         rows <- select (select_is_filled companyId) ;;
         let total := List.length rows in
         let filled := count_filled rows in
         if Nat.eqb total 0
         then ret (mkHttp 404 (ErrorBody "No employees to report"))
         else if negb (Nat.eqb filled total)
         then ret (mkHttp 409
                     (ErrorCounts "Not all employees have submitted"
                        total filled))
         else
           try_catch
             (reportRows <- select (select_filled_company_report companyId) ;;
              match reportRows with
              | Some report =>
                  ret (res_json (CompanyReport companyId companyName report))
              | None =>
                  ret (mkHttp 404 (ErrorBody "Company report not ready"))
              end)
             (fun _ => ret (mkHttp 404 (ErrorBody "Company report not ready")))
     end)
    (fun _ => ret (mkHttp 500 (ErrorBody "Failed to fetch company report"))).

(** The code units [String.prototype.trim] removes: the white space and
    line terminator characters of ECMAScript (2016 and later, where U+180E
    is not one of them), that is TAB, LF, VT, FF, CR, SP, U+00A0, U+1680,
    U+2000 to U+200A, U+2028, U+2029, U+202F, U+205F, U+3000 and U+FEFF. *)
Definition is_white_space (unit : Z) : bool :=
  ((9 <=? unit) && (unit <=? 13)) || (unit =? 32) || (unit =? 160)
  || (unit =? 5760) || ((8192 <=? unit) && (unit <=? 8202))
  || (unit =? 8232) || (unit =? 8233) || (unit =? 8239) || (unit =? 8287)
  || (unit =? 12288) || (unit =? 65279).

(** The identifiers and names of the model are strings of code units below
    256, one [ascii] each; among those [trim] removes TAB, LF, VT, FF, CR,
    SP and U+00A0. *)
Definition is_space (c : ascii) : bool :=
  is_white_space (Z.of_nat (nat_of_ascii c)).

Fixpoint drop_spaces (l : list ascii) : list ascii :=
  match l with
  | [] => []
  | c :: rest => if is_space c then drop_spaces rest else l
  end.

Definition trim (s : string) : string :=
  string_of_list_ascii
    (rev (drop_spaces (rev (drop_spaces (list_ascii_of_string s))))).

(** [GET /api/employees/:employeesID/status], behind [authenticateToken].
    "Access allowed for: the employee themself, HRs, and Admins". *)
Definition employee_status (requester : token_payload) (param : string)
  : M response :=
  try_catch
    (let targetId := trim param in
     if String.eqb targetId ""
     then ret (mkHttp 400 (Message false "employeesID required"))
     else
       let requesterId := trim (tok_employeesID requester) in
       let requesterRole := tok_role requester in
       if negb (String.eqb requesterId targetId)
          && negb (role_is HR requesterRole)
          && negb (role_is Admin requesterRole)
       then ret (mkHttp 403 (Message false "Access denied"))
       else
         rows <- select (select_employee targetId) ;;
         match rows with
         | None => ret (mkHttp 404 (Message false "Employee not found"))
         | Some row =>
             ret (res_json (IsFilled (coalesce_filled (is_filled row))))
         end)
    (fun _ => ret (mkHttp 500 (Message false "Server error"))).

(** [GET /api/reports/sentiment/:employeeId], behind [authenticateHR]. *)
Definition sentiment_report (hrUser : token_payload) (employeeId : string)
  : M response :=
  try_catch
    (hrResult <- select (select_employee (tok_employeesID hrUser)) ;;
     match hrResult with
     | None => ret (mkHttp 404 (ErrorBody "HR user not found"))
     | Some hr =>
         let hrCompanyId := emp_company_id hr in
         empResult <- select (select_employee employeeId) ;;
         match empResult with
         | None => ret (mkHttp 404 (ErrorBody "Employee not found"))
         | Some emp =>
             if negb (js_strict_eq (emp_company_id emp) hrCompanyId)
             then ret (mkHttp 403
                         (ErrorBody
                            "Access denied: Employee not in your company"))
             else
               reportResult <- select (select_sentiment_report employeeId) ;;
               match reportResult with
               | None =>
                   empRow <- select (select_employee employeeId) ;;
                   let hasFilledForm :=
                     match empRow with
                     | Some e => coalesce_filled (is_filled e)
                     | None => false
                     end in
                   ret (res_json (NoSentimentReport hasFilledForm))
               | Some report => ret (res_json (SentimentReport report))
               end
         end
     end)
    (fun _ => ret (mkHttp 500 (ErrorBody "Failed to fetch sentiment report"))).

(** [POST /api/trigger-ai-analysis/:employeeId], behind [authenticateHR]. *)
Definition trigger_ai_analysis (hrUser : token_payload) (employeeId : string)
  : M response :=
  try_catch
    (hrResult <- select (select_employee_company (tok_employeesID hrUser)) ;;
     match hrResult with
     | None => ret (mkHttp 404 (ErrorBody "HR user not found"))
     | Some (hrCompanyId, _) =>
         empResult <- select (select_employee_company employeeId) ;;
         match empResult with
         | None => ret (mkHttp 404 (ErrorBody "Employee not found"))
         | Some (empCompanyId, _) =>
             if negb (js_strict_eq empCompanyId hrCompanyId)
             then ret (mkHttp 403
                         (ErrorBody
                            "Access denied: Employee not in your company"))
             else ret (res_json (Message true "AI trigger started"))
         end
     end)
    (fun _ => ret (mkHttp 500 (ErrorBody "Failed to trigger AI"))).

(** ** Resetting one employee *)

(** [DELETE FROM Responses_Sentiment WHERE employeesID = ?]; the result is
    [affectedRows]. *)
Definition delete_responses (keep : response_row -> bool) (d : database)
  : nat * database :=
  let kept := filter keep (Responses_Sentiment d) in
  ((List.length (Responses_Sentiment d) - List.length kept)%nat,
   with_responses kept d).

Definition delete_langchain (keep : langchain_row -> bool) (d : database)
  : nat * database :=
  let kept := filter keep (responses_langchain_sentiment d) in
  ((List.length (responses_langchain_sentiment d) - List.length kept)%nat,
   with_langchain kept d).

(** [DELETE FROM company_reports_sentiment WHERE company_id = ?] *)
Definition delete_company_reports (companyId : option Z) (d : database)
  : nat * database :=
  let kept :=
    filter (fun r => negb (sql_eq (Some (cr_company_id r)) companyId))
      (company_reports_sentiment d) in
  ((List.length (company_reports_sentiment d) - List.length kept)%nat,
   with_company_reports kept d).

Definition set_filled (v : bool) (e : employee) : employee :=
  mkEmployee (employeesID e) (emp_role e) (emp_company_id e) (Some v).

(** [UPDATE employees SET is_filled = v WHERE <sel>]; the result counts the
    rows the [WHERE] clause matches. *)
Definition update_filled (sel : employee -> bool) (v : bool) (d : database)
  : nat * database :=
  (List.length (filter sel (employees d)),
   with_employees
     (map (fun e => if sel e then set_filled v e else e) (employees d)) d).

(** [DELETE /api/hr/employee/:employeesID/responses], behind
    [authenticateHR]. *)
Definition reset_employee_responses (employeesID : string) : M response :=
  try_catch
    (if String.eqb employeesID ""
     then ret (mkHttp 400 (Message false "employeesID required"))
     else
       respCount <-
         execute (delete_responses
                    (fun r => negb (String.eqb (rs_employeesID r) employeesID))) ;;
       reportCount <-
         execute (delete_langchain
                    (fun r => negb (String.eqb (lc_employeesID r) employeesID))) ;;
       _ <- execute (update_filled (has_id employeesID) false) ;;
       empRow <- select (select_employee employeesID) ;;
       (match empRow with
        | Some row =>
            if truthy_num (emp_company_id row)
            then _ <- execute (delete_company_reports (emp_company_id row)) ;;
                 ret tt
            else ret tt
        | None => ret tt
        end) ;;;
       ret (res_json (Cleared respCount reportCount)))
    (fun _ => ret (mkHttp 500 (Message false "Server error"))).

Definition hr_reset_employee (c : credentials) (employeesID : string)
  : M response :=
  authenticateHR c (fun _ => reset_employee_responses employeesID).

(** ** The analysis orchestrator *)

(** [SELECT employeesID FROM employees WHERE company_id = ? AND role != 'HR'
     AND COALESCE(is_filled, 0) = 1] *)
Definition filled_non_hr (companyId : option Z) (e : employee) : bool :=
  in_company_non_hr companyId e && coalesce_filled (is_filled e).

Definition select_filled_ids (companyId : option Z) (d : database)
  : list string :=
  map employeesID (filter (filled_non_hr companyId) (employees d)).

(** One row of the answers query: [question_number], [question_text],
    [answer_text], [answer_choice]. *)
Record answer_row : Type := mkAnswerRow {
  question_number : Z;
  question_text : string;
  ar_answer_text : option string;
  ar_answer_choice : option string
}.

Fixpoint insert_sorted (r : answer_row) (l : list answer_row)
  : list answer_row :=
  match l with
  | [] => [r]
  | x :: rest =>
      if question_number r <? question_number x then r :: l
      else x :: insert_sorted r rest
  end.

(** [ORDER BY mq.question_number]; rows with the same number keep the
    order of the join. *)
Definition order_by_number (l : list answer_row) : list answer_row :=
  fold_left (fun acc r => insert_sorted r acc) l [].

(** [SELECT ... FROM Responses_Sentiment rs JOIN FormQuestions_Sentiment fq
     ON rs.form_question_id = fq.form_question_id JOIN
     MasterQuestions_Sentiment mq ON fq.master_question_id =
     mq.master_question_id WHERE rs.employeesID = ?
     ORDER BY mq.question_number] *)
Definition select_answers (id : string) (d : database) : list answer_row :=
  order_by_number
    (flat_map
       (fun rs =>
          flat_map
            (fun fq =>
               if fq_form_question_id fq =? rs_form_question_id rs then
                 flat_map
                   (fun mq =>
                      if mq_master_question_id mq =? fq_master_question_id fq
                      then [mkAnswerRow (mq_question_number mq)
                              (fq_question_text fq) (rs_answer_text rs)
                              (rs_answer_choice rs)]
                      else [])
                   (MasterQuestions_Sentiment d)
               else [])
            (FormQuestions_Sentiment d))
       (filter (fun rs => String.eqb (rs_employeesID rs) id)
          (Responses_Sentiment d))).

(** [formattedAnswers[`q${qNum}`] = { question, answer }] on an object whose
    keys keep their insertion order. *)
Fixpoint set_key (k : Z) (v : string * string)
    (o : list (Z * (string * string))) : list (Z * (string * string)) :=
  match o with
  | [] => [(k, v)]
  | (k', v') :: rest =>
      if k' =? k then (k, v) :: rest else (k', v') :: set_key k v rest
  end.

(** [response.answer_text || response.answer_choice || ""] *)
Definition answer_of (r : answer_row) : string :=
  match or_null (or_else truthy_str (ar_answer_text r) (ar_answer_choice r))
  with
  | Some s => s
  | None => ""
  end.

Definition format_answers (responses : list answer_row)
  : list (Z * (string * string)) :=
  fold_left
    (fun acc r => set_key (question_number r) (question_text r, answer_of r) acc)
    responses [].

(** The body of the per-employee [try] block. *)
Definition analyze_employee (employeeId : string) : M unit :=
  log (LogGenerating employeeId) ;;;
  empInfo <- select (select_employee_company employeeId) ;;
  let companyName :=
    match empInfo with Some (_, name) => name | None => None end in
  responses <- select (select_answers employeeId) ;;
  match responses with
  | _ :: _ =>
      let formattedAnswers := format_answers responses in
      _ <- axios_post (Analyze employeeId companyName formattedAnswers) ;;
      log (LogGenerated employeeId)
  | [] => log (LogNoResponses employeeId)
  end.

(** [for (const emp of employees) { try { ... } catch (empErr) { ... } }] *)
Fixpoint individual_reports (employees : list string) : M unit :=
  match employees with
  | [] => ret tt
  | employeeId :: rest =>
      try_catch (analyze_employee employeeId)
        (fun _ => log (LogEmployeeFailed employeeId)) ;;;
      individual_reports rest
  end.

(** [triggerCompanyAnalysis(companyId)] *)
Definition triggerCompanyAnalysis (companyId : option Z) : M string :=
  try_catch
    (log (LogStart companyId) ;;;
     employees <- select (select_filled_ids companyId) ;;
     log (LogFound (List.length employees)) ;;;
     individual_reports employees ;;;
     log LogStep1Complete ;;;
     log LogSendingCompany ;;;
     data <- axios_post (AnalyzeCompany companyId) ;;
     log LogStep2Complete ;;;
     ret data)
    (fun e => log LogCompanyAnalysisError ;;; throw e).

(** [POST /api/company/analyze], behind [authenticateHR]. *)
Definition company_analyze (hrUser : token_payload) : M response :=
  try_catch
    (hrRow <- select (select_employee_company (tok_employeesID hrUser)) ;;
     match hrRow with
     | None => ret (mkHttp 404 (ErrorBody "HR user company not found"))
     | Some (companyId, company_name) =>
         let companyName := or_null company_name in
         rows <- select (select_is_filled companyId) ;;
         let total := List.length rows in
         let filled := count_filled rows in
         if Nat.eqb total 0
         then ret (mkHttp 409 (ErrorBody "No employees in company to analyze"))
         else if negb (Nat.eqb filled total)
         then ret (mkHttp 409 (NotAllSubmitted filled total))
         else
           try_catch
             (_ <- triggerCompanyAnalysis companyId ;;
              ret (res_json (AnalysisCompleted companyId companyName)))
             (fun flaskError =>
                match flaskError with
                | AxiosError ECONNREFUSED =>
                    ret (mkHttp 503
                           (ServiceFailure "AI analysis service is unavailable"
                              ECONNREFUSED))
                | AxiosError (BadStatus s data) =>
                    (* [flaskError.response.data.error] throws on null *)
                    match data with
                    | Some _ =>
                        ret (mkHttp 500
                               (ServiceFailure "Company analysis failed"
                                  (BadStatus s data)))
                    | None => throw TypeError
                    end
                | _ =>
                    ret (mkHttp 500
                           (ErrorBody "Failed to connect to analysis service"))
                end)
     end)
    (fun _ =>
       ret (mkHttp 500
              (ErrorBody "Internal server error during company analysis"))).

(** ** Survey submission *)

Record answer : Type := mkAnswer {
  form_question_id : Z;
  answer_text : option string;
  answer_choice : option string
}.

(** The request body.  [answers] is [None] when the field is absent or is
    not an array. *)
Record submission : Type := mkSubmission {
  employee_id : option string;
  employeeId : option string;
  form_id : option Z;
  formId : option Z;
  answers : option (list answer)
}.

(** [INSERT INTO Responses_Sentiment (employeesID, form_id, form_question_id,
     answer_text, answer_choice) VALUES (?, ?, ?, ?, ?)] *)
Definition insert_response (employee : string) (form : Z) (a : answer)
    (d : database) : unit * database :=
  (tt,
   with_responses
     (Responses_Sentiment d
        ++ [mkResponse employee form (form_question_id a)
              (or_null (answer_text a)) (or_null (answer_choice a))])
     d).

(** A promise created without [await]: the statement is issued, and its
    outcome is kept for whoever awaits it. *)
Definition start {A : Type} (m : M A) : M (outcome A) :=
  fun w => let (r, w1) := m w in (Ok r, w1).

(** [answers.map((a) => pool.execute(...))]: every insert is issued here,
    before any of them is awaited, each on its own and committed on its
    own.  The statements are in flight together on the connections of the
    pool, and the code does not determine which of them the server
    completes first: the model appends the rows in array order, as one of
    the possible outcomes, and the properties of the submission read the
    added rows up to their order.  The store that results is the one
    reached once all of the statements have completed. *)
Fixpoint insertPromises (employee : string) (form : Z) (l : list answer)
  : M (list (outcome unit)) :=
  match l with
  | [] => ret []
  | a :: rest =>
      p <- start (execute (insert_response employee form a)) ;;
      ps <- insertPromises employee form rest ;;
      ret (p :: ps)
  end.

(** [for (let i = 0; ...) { try { await insertPromises[i] } catch (rowErr)
     { return res.status(500)... } }]: the answer sent at the first rejected
    promise, if any. *)
Fixpoint await_rows (i : nat) (ps : list (outcome unit)) : option response :=
  match ps with
  | [] => None
  | Ok _ :: rest => await_rows (S i) rest
  | Throw _ :: _ => Some (mkHttp 500 (RowFailed i))
  end.

(** The completeness test of the automatic trigger:
    [totalEmployees > 0 && filledEmployees === totalEmployees]. *)
Definition all_submitted (rows : list bool) : bool :=
  (Nat.ltb 0 (List.length rows) && Nat.eqb (count_filled rows) (List.length rows))%bool.

(** [POST /api/sentiment/response], behind [authenticateEmployee].  The
    second component is the company for which [triggerCompanyAnalysis] was
    started without being awaited, if any. *)
Definition submit_response (req : submission)
  : M (response * option (option Z)) :=
  try_catch
    (let resolvedFormId := or_else truthy_num (form_id req) (formId req) in
     let resolvedEmployee :=
       or_else truthy_str (employee_id req) (employeeId req) in
     match or_null resolvedEmployee, resolvedFormId, answers req with
     | Some employee, Some form, Some answers =>
         if negb (truthy_num (Some form)) then
           ret (mkHttp 400
                  (Message false
                     "employee identifier, form_id and answers[] required"),
                None)
         else
         hasPlainEmployeesID <- select (fun d => has_employeesID_column d) ;;
         if negb hasPlainEmployeesID then
           ret (mkHttp 500
                  (Message false "Database schema missing employeesID column"),
                None)
         else
           promises <- insertPromises employee form answers ;;
           match await_rows 0 promises with
           | Some failure => ret (failure, None)
           | None =>
               try_catch
                 (_ <- execute (update_filled (has_id employee) true) ;;
                  ret tt)
                 (fun _ => ret tt) ;;;
               spawned <-
                 try_catch
                   (empCompany <- select (select_employee employee) ;;
                    match empCompany with
                    | Some row =>
                        let companyId := emp_company_id row in
                        companyEmployees <-
                          select (select_is_filled companyId) ;;
                        if all_submitted companyEmployees
                        then ret (Some companyId)
                        else ret None
                    | None => ret None
                    end)
                   (fun _ => ret None) ;;
               ret (res_json (Message true "Responses saved successfully"),
                    spawned)
           end
     | _, _, _ =>
         ret (mkHttp 400
                (Message false
                   "employee identifier, form_id and answers[] required"),
              None)
     end)
    (fun _ => ret (mkHttp 500 (Message false "Server error"), None)).

(** The detached call of the automatic trigger:
    [triggerCompanyAnalysis(companyId).then(...).catch(...)]. *)
Definition detached_analysis (spawned : option (option Z)) : M unit :=
  match spawned with
  | Some companyId =>
      try_catch (_ <- triggerCompanyAnalysis companyId ;; ret tt)
        (fun _ => ret tt)
  | None => ret tt
  end.

(** A submission followed by the detached analysis it started. *)
Definition submit_and_analyze (req : submission) : M response :=
  r <- submit_response req ;;
  detached_analysis (snd r) ;;;
  ret (fst r).

(** ** Company-wide reset *)

(** [SELECT employeesID FROM employees WHERE company_id = ? AND role != ?]
    with ['HR'], optionally with [AND COALESCE(is_filled, 0) = 1]. *)
Definition select_reset_ids (onlyFilled : bool) (companyId : option Z)
    (d : database) : list string :=
  if onlyFilled then select_filled_ids companyId d
  else map employeesID (select_non_hr companyId d).

(** [employeesID IN (?, ..., ?)] *)
Definition id_in (ids : list string) (id : string) : bool :=
  existsb (String.eqb id) ids.

(** [await pool.getConnection()] *)
Definition getConnection : M unit :=
  fun w =>
    let (failed, w1) := next_fault w in
    if failed then (Throw SqlError, w1) else (Ok tt, w1).

(** [connection.release()] *)
Definition release (w : world) : world := w.

(** [POST /api/admin/company/:company/reset], behind [authenticateAdmin].
    The connection is obtained outside the [try]: when that fails the
    handler throws and no answer is sent. *)
Definition company_reset (companyParam : company_param) (onlyFilled : bool)
  : M response :=
  getConnection ;;;
  finally
    (try_catch
       (resolve_company companyParam (fun companyId =>
          beginTransaction ;;;
          employees <- select (select_reset_ids onlyFilled (Some companyId)) ;;
          match employees with
          | [] =>
              rollback ;;;
              ret (res_json NoEmployeesToReset)
          | _ :: _ =>
              let employeeIds := employees in
              respResult <-
                execute (delete_responses
                           (fun r => negb (id_in employeeIds
                                             (rs_employeesID r)))) ;;
              langchainResult <-
                execute (delete_langchain
                           (fun r => negb (id_in employeeIds
                                             (lc_employeesID r)))) ;;
              companyReportResult <-
                execute (delete_company_reports (Some companyId)) ;;
              updateResult <-
                execute (update_filled
                           (fun e => id_in employeeIds (employeesID e))
                           false) ;;
              commit ;;;
              ret (res_json
                     (ResetSummary (List.length employees) respResult
                        langchainResult companyReportResult updateResult))
          end))
       (fun _ =>
          rollback ;;;
          ret (mkHttp 500
                 (Message false "Server error resetting company data"))))
    release.

(** ** The specification's vocabulary *)

(** The non-HR employees of a company. *)
Definition company_non_hr (d : database) (c : Z) : list employee :=
  select_non_hr (Some c) d.

(** The completion predicate of the specification: the company has at least
    one non-HR employee and every one of them has [filled = true]. *)
Definition isComplete (d : database) (c : Z) : Prop :=
  company_non_hr d c <> [] /\
  Forall (fun e => coalesce_filled (is_filled e) = true) (company_non_hr d c).

(** No statement still to be issued is rejected. *)
Definition fault_free (w : world) : Prop :=
  Forall (fun b => b = false) (faults w).

(** A report was served. *)
Definition serves_report (r : response) : bool :=
  match json r with
  | AdminReport _ | CompanyReport _ _ _ => true
  | _ => false
  end.

(** The row one answer is stored as. *)
Definition row_of (employee : string) (form : Z) (a : answer) : response_row :=
  mkResponse employee form (form_question_id a)
    (or_null (answer_text a)) (or_null (answer_choice a)).

(** The rows a list of answers leaves in the store when [plan] gives the
    outcome of their inserts: the rows whose own insert is let through. *)
Fixpoint persisted (employee : string) (form : Z) (l : list answer)
    (plan : list bool) : list response_row :=
  match l with
  | [] => []
  | a :: rest =>
      if hd false plan then persisted employee form rest (tl plan)
      else row_of employee form a :: persisted employee form rest (tl plan)
  end.

(** The index of the first rejected statement among the next [n]. *)
Fixpoint first_rejected (n : nat) (plan : list bool) : option nat :=
  match n with
  | O => None
  | S n' =>
      if hd false plan then Some O
      else option_map S (first_rejected n' (tl plan))
  end.

(** The employees the per-employee phase has started on, in order. *)
Definition attempted (lines : list console_line) : list string :=
  flat_map (fun l => match l with LogGenerating e => [e] | _ => [] end) lines.

(** The employees the per-employee phase has finished with, one way or
    another, in order. *)
Definition settled (lines : list console_line) : list string :=
  flat_map
    (fun l =>
       match l with
       | LogGenerated e | LogNoResponses e | LogEmployeeFailed e => [e]
       | _ => []
       end)
    lines.

Definition is_analyze (call : flask_request * database) : bool :=
  match fst call with
  | Analyze _ _ _ => true
  | AnalyzeCompany _ => false
  end.

(** The company-level requests among [cs], each with what the completion
    check would have said on the store as it was when the request was
    issued. *)
Definition company_calls (cs : list (flask_request * database))
  : list (option Z * bool) :=
  flat_map
    (fun call =>
       match fst call with
       | AnalyzeCompany companyId =>
           [(companyId, all_submitted (select_is_filled companyId (snd call)))]
       | Analyze _ _ _ => []
       end)
    cs.

(** Both phases have run between [w] and [w']: after the two opening lines
    the console shows a start line for every eligible employee, in order,
    and an outcome line for each; then the lines that announce the company
    phase; and the last request sent out is the company-level one, preceded
    by individual requests only. *)
Definition both_phases_run (companyId : option Z) (w w' : world) : Prop :=
  let ids := select_filled_ids companyId (db w) in
  exists lines p1 d2 closing,
    console w'
    = console w ++ [LogStart companyId; LogFound (List.length ids)]
        ++ lines ++ [LogStep1Complete; LogSendingCompany; closing]
    /\ (closing = LogStep2Complete \/ closing = LogCompanyAnalysisError)
    /\ attempted lines = ids
    /\ settled lines = ids
    /\ calls w' = calls w ++ p1 ++ [(AnalyzeCompany companyId, d2)]
    /\ forallb is_analyze p1 = true.

(** The identifier, the form and the answers the handler resolves from a
    well-formed body. *)
Definition resolves (req : submission) (employee : string) (form : Z)
    (l : list answer) : Prop :=
  or_null (or_else truthy_str (employee_id req) (employeeId req))
    = Some employee
  /\ or_else truthy_num (form_id req) (formId req) = Some form
  /\ form <> 0
  /\ answers req = Some l.

(** The answer of the company guard of the report endpoints. *)
Definition forbidden : response :=
  mkHttp 403 (ErrorBody "Access denied: Employee not in your company").

(** The company a parameter of the admin routes stands for. *)
Definition resolved (companyParam : company_param) (d : database) : option Z :=
  match companyParam with
  | CompanyNumber n => Some n
  | CompanyName name => select_company_id name d
  end.

(** The reset answered with the summary of what it deleted. *)
Definition is_reset_summary (o : outcome response) : bool :=
  match o with
  | Ok (mkHttp 200 (ResetSummary _ _ _ _ _)) => true
  | _ => false
  end.

(** What the single-employee reset leaves in the store when every
    statement goes through. *)
Definition after_reset_one (id : string) (c : Z) (d : database) : database :=
  mkDatabase
    (map (fun e => if has_id id e then set_filled false e else e)
       (employees d))
    (filter (fun r => negb (String.eqb (rs_employeesID r) id))
       (Responses_Sentiment d))
    (filter (fun r => negb (String.eqb (lc_employeesID r) id))
       (responses_langchain_sentiment d))
    (filter (fun r => negb (cr_company_id r =? c))
       (company_reports_sentiment d))
    (companies d) (FormQuestions_Sentiment d) (MasterQuestions_Sentiment d)
    (has_employeesID_column d).

(** What one turn of the per-employee loop prints: the start line and one
    outcome line. *)
Definition employee_lines (e : string) (lines : list console_line) : Prop :=
  exists outcome,
    lines = [LogGenerating e; outcome]
    /\ (outcome = LogGenerated e \/ outcome = LogNoResponses e
        \/ outcome = LogEmployeeFailed e).

(** The world once the next statement's outcome has been consumed. *)
Definition pop (w : world) : world := with_faults (tl (faults w)) w.

(** ** Sample data

    Three companies.  Acme (1) has an HR user who has herself submitted the
    survey and two other employees, both filled; Globex (2) has an HR user and
    one employee who has not submitted; Initech (7) has an HR user only, and
    a company report left from an earlier cycle. *)

Definition stale_report : company_report_row :=
  mkCompanyReport 7 (Some true) 5 "cycle 0".

Definition acme_report : company_report_row :=
  mkCompanyReport 1 (Some true) 20 "cycle 1".

Definition sample_db : database :=
  mkDatabase
    [ mkEmployee "hrA" HR (Some 1) (Some true);
      mkEmployee "e1" Employee (Some 1) (Some true);
      mkEmployee "e2" Manager (Some 1) (Some true);
      mkEmployee "hrB" HR (Some 2) None;
      mkEmployee "b1" Employee (Some 2) None;
      mkEmployee "hr7" HR (Some 7) None ]
    [ mkResponse "hrA" 1 101 (Some "fine") None;
      mkResponse "e1" 1 101 (Some "good") None;
      mkResponse "e2" 1 102 None (Some "B") ]
    [ mkLangchain "e1" 10 "e1 cycle 1" ]
    [ acme_report; stale_report ]
    [ mkCompany 1 "Acme"; mkCompany 2 "Globex"; mkCompany 7 "Initech" ]
    [ mkFormQuestion 101 "How are you?" 1; mkFormQuestion 102 "Workload?" 2 ]
    [ mkMasterQuestion 1 1; mkMasterQuestion 2 2 ]
    true.

Definition sample_world (plan : list bool)
    (svc : list (flask_request -> database -> flask_outcome * database))
  : world :=
  mkWorld sample_db None plan svc [] [].

(** A submission of two answers by Globex's employee. *)
Definition two_answers : submission :=
  mkSubmission None (Some "b1") (Some 1) None
    (Some [mkAnswer 101 (Some "ok") None; mkAnswer 102 None (Some "A")]).

(** A submission without any answer, for an identifier no employee has. *)
Definition no_answers : submission :=
  mkSubmission None (Some "ghost") None (Some 1) (Some []).

(** The same for Globex's employee. *)
Definition no_answers_b1 : submission :=
  mkSubmission (Some "b1") None (Some 1) None (Some []).

(** A behaviour of the environment during one outbound call: the service
    answers 200, and meanwhile an HR user's request to reset employee [id]
    is served. *)
Definition concurrent_reset (id : string)
  : flask_request -> database -> flask_outcome * database :=
  fun _ d =>
    (FlaskOk "",
     db (snd (reset_employee_responses id (mkWorld d None [] [] [] [])))).

(** The service refuses the connection. *)
Definition refuse : flask_request -> database -> flask_outcome * database :=
  fun _ d => (FlaskFail ECONNREFUSED, d).

(** The last missing submission of Globex. *)
Definition b1_submits : submission :=
  mkSubmission None (Some "b1") (Some 1) None
    (Some [mkAnswer 101 (Some "ok") None]).

(** ** Further handlers, helpers and vocabulary *)

(** What the automatic trigger decides on a store, for the employee who
    has just submitted. *)
Definition trigger_decision (employee : string) (d : database)
  : option (option Z) :=
  match select_employee employee d with
  | Some row =>
      if all_submitted (select_is_filled (emp_company_id row) d)
      then Some (emp_company_id row)
      else None
  | None => None
  end.

(** The store a submission leaves when every statement goes through. *)
Definition after_submission (employee : string) (form : Z) (l : list answer)
    (d : database) : database :=
  with_employees
    (map (fun e => if has_id employee e then set_filled true e else e)
       (employees d))
    (with_responses
       (Responses_Sentiment d ++ map (row_of employee form) l) d).

(** The store a company-wide reset leaves when it commits. *)
Definition after_company_reset (ids : list string) (c : Z) (d : database)
  : database :=
  mkDatabase
    (map (fun e => if id_in ids (employeesID e) then set_filled false e else e)
       (employees d))
    (filter (fun r => negb (id_in ids (rs_employeesID r)))
       (Responses_Sentiment d))
    (filter (fun r => negb (id_in ids (lc_employeesID r)))
       (responses_langchain_sentiment d))
    (filter (fun r => negb (cr_company_id r =? c))
       (company_reports_sentiment d))
    (companies d) (FormQuestions_Sentiment d) (MasterQuestions_Sentiment d)
    (has_employeesID_column d).

(** [GET /api/employees/me/status], behind [authenticateEmployee]. *)
Definition my_status (requester : token_payload) : M response :=
  try_catch
    (rows <- select (select_employee (tok_employeesID requester)) ;;
     match rows with
     | None => ret (mkHttp 404 (Message false "Employee not found"))
     | Some row => ret (res_json (IsFilled (coalesce_filled (is_filled row))))
     end)
    (fun _ => ret (mkHttp 500 (Message false "Server error"))).

(** One turn of the per-employee loop, that is the body of the [for] with
    its [try] and its [catch]: the world it leaves. *)
Definition turn (e : string) (w : world) : world :=
  snd (try_catch (analyze_employee e) (fun _ => log (LogEmployeeFailed e)) w).

(** The world after one turn for each of [ids], in order. *)
Definition turns (ids : list string) (w : world) : world :=
  fold_left (fun w0 e => turn e w0) ids w.

(** The world in which the per-employee loop of [triggerCompanyAnalysis]
    starts. *)
Definition loop_start (companyId : option Z) (w : world) : world :=
  snd ((log (LogStart companyId) ;;;
        employees <- select (select_filled_ids companyId) ;;
        log (LogFound (List.length employees))) w).

(** The individual request sent for employee [e] on store [d]. *)
Definition individual_request (e : string) (d : database) : flask_request :=
  Analyze e
    match select_employee_company e d with
    | Some (_, name) => name
    | None => None
    end
    (format_answers (select_answers e d)).

(** Express tries the routes in the order of their registration and
    compares paths without regard to letter case: a path whose segment
    between [/api/employees/] and [/status] is the word me matches
    [/api/employees/me/status], which is registered first. *)
Definition is_me (segment : string) : bool :=
  match segment with
  | String m (String e EmptyString) =>
      (Ascii.eqb m "m" || Ascii.eqb m "M")
      && (Ascii.eqb e "e" || Ascii.eqb e "E")
  | _ => false
  end.

(** [GET /api/employees/<segment>/status]: [segment], not empty, is the path
    segment as it is sent, and [param] is what Express decodes from it into
    [req.params.employeesID]. *)
Definition employees_status_route (c : credentials) (segment param : string)
  : M response :=
  if is_me segment
  then authenticateEmployee c my_status
  else authenticateToken c (fun requester => employee_status requester param).

Definition by_number (a b : answer_row) : Prop :=
  question_number a <= question_number b.

(** [process.env.NAME || fallback] *)
Definition env_or (value : option string) (fallback : string) : string :=
  match or_null value with Some s => s | None => fallback end.

(** [s] without the prefix [p], when it starts with it. *)
Fixpoint drop_prefix (p s : string) : option string :=
  match p with
  | EmptyString => Some s
  | String a p' =>
      match s with
      | String b s' => if Ascii.eqb a b then drop_prefix p' s' else None
      | EmptyString => None
      end
  end.

(** [host.replace(/^https?:\/\//, '')] *)
Definition cleanHost (host : string) : string :=
  match drop_prefix "http://" host with
  | Some rest => rest
  | None =>
      match drop_prefix "https://" host with
      | Some rest => rest
      | None => host
      end
  end.

(** [s.includes(':')] *)
Fixpoint includes_colon (s : string) : bool :=
  match s with
  | EmptyString => false
  | String c s' => Ascii.eqb c ":"%char || includes_colon s'
  end.

(** [FLASK_BASE_URL], from the two environment variables. *)
Definition FLASK_BASE_URL (env_host env_port : option string) : string :=
  let FLASK_HOST := env_or env_host "localhost" in
  let FLASK_PORT := env_or env_port "5000" in
  let clean := cleanHost FLASK_HOST in
  if includes_colon clean
  then ("http://" ++ clean)%string
  else ("http://" ++ clean ++ ":" ++ FLASK_PORT)%string.

(** The host carries no protocol of its own. *)
Definition bare_host (h : string) : Prop :=
  h <> "" /\ drop_prefix "http://" h = None /\ drop_prefix "https://" h = None.

(** The byte swap of the import for a buffer that starts with the
    big-endian mark: [swapped] is a zero-filled buffer of the same length,
    and [for (i = 0; i + 1 < buf.length; i += 2)] writes the bytes of each
    pair in the other order.  Bytes are integers from 0 to 255. *)
Fixpoint swapped (buf : list Z) : list Z :=
  match buf with
  | a :: b :: rest => b :: a :: swapped rest
  | [_] => [0]
  | [] => []
  end.

(** The encodings [buf.toString] is called with. *)
Inductive encoding : Type := utf8 | utf16le.

(** The text decode of the import: which bytes are decoded, and how. *)
Definition text_decode (buf : list Z) : encoding * list Z :=
  match buf with
  | b0 :: b1 :: rest =>
      if match rest with
         | b2 :: _ => (b0 =? 239) && (b1 =? 187) && (b2 =? 191)
         | [] => false
         end
      then (utf8, buf)
      else if (b0 =? 255) && (b1 =? 254) then (utf16le, buf)
      else if (b0 =? 254) && (b1 =? 255) then (utf16le, swapped buf)
      else (utf8, buf)
  | _ => (utf8, buf)
  end.

(** The text of an uploaded file is a list of UTF-16 code units, as the
    import indexes it: the quote, the comma and the tabulator. *)
Definition quote : Z := 34.
Definition comma : Z := 44.
Definition tab : Z := 9.

Fixpoint drop_white_space (l : list Z) : list Z :=
  match l with
  | [] => []
  | c :: rest => if is_white_space c then drop_white_space rest else l
  end.

(** [s.trim()] *)
Definition trim_units (s : list Z) : list Z :=
  rev (drop_white_space (rev (drop_white_space s))).

Definition strip_leading_quote (s : list Z) : list Z :=
  match s with
  | c :: rest => if Z.eqb c quote then rest else s
  | [] => []
  end.

(** The replacement of the pattern "a quote at the start, or a quote at the
    end" by nothing, all matches: a quote at the start goes, and a quote at
    the end of what is left goes. *)
Definition strip_outer_quotes (s : list Z) : list Z :=
  rev (strip_leading_quote (rev (strip_leading_quote s))).

(** The delimiter the import detects on the first line: [','], ['\t'] or
    [null]. *)
Inductive delimiter : Type := Comma | Tab | SingleColumn.

(** [row.split('\t')], with [cur] the field being read. *)
Fixpoint split_tabs (cur row : list Z) : list (list Z) :=
  match row with
  | [] => [cur]
  | c :: rest =>
      if Z.eqb c tab then cur :: split_tabs [] rest
      else split_tabs (cur ++ [c]) rest
  end.

(** The character loop of [parseCsvRow] for a comma-delimited row: the
    parts pushed so far and the field being read. *)
Fixpoint scan_row (row cur : list Z) (inQuotes : bool)
    (parts : list (list Z)) : list (list Z) * list Z :=
  match row with
  | [] => (parts, cur)
  | ch :: rest =>
      if Z.eqb ch quote then
        match rest with
        | next :: after =>
            if inQuotes && Z.eqb next quote
            then scan_row after (cur ++ [quote]) inQuotes parts
            else scan_row rest cur (negb inQuotes) parts
        | [] => scan_row rest cur (negb inQuotes) parts
        end
      else if Z.eqb ch comma && negb inQuotes
      then scan_row rest [] inQuotes (parts ++ [trim_units cur])
      else scan_row rest (cur ++ [ch]) inQuotes parts
  end.

(** [parseCsvRow(row, delim)] of the import. *)
Definition parseCsvRow (row : list Z) (delim : delimiter)
  : list (list Z) :=
  match delim with
  | SingleColumn => [trim_units row]
  | Tab =>
      map (fun p => trim_units (strip_outer_quotes p)) (split_tabs [] row)
  | Comma =>
      let (parts, cur) := scan_row row [] false [] in
      let parts :=
        match cur with
        | [] => parts
        | _ :: _ => parts ++ [trim_units cur]
        end in
      map (fun p => trim_units (strip_outer_quotes p)) parts
  end.



(** No white space at the start, at the end. *)
Definition starts_clean (s : list Z) : Prop :=
  forall c rest, s = c :: rest -> is_white_space c = false.

Definition ends_clean (s : list Z) : Prop :=
  forall front c, s = front ++ [c] -> is_white_space c = false.

(** A field without quote and without comma. *)
Definition plain (f : list Z) : Prop :=
  forall c, In c f -> Z.eqb c quote = false /\ Z.eqb c comma = false.

(** [fields.join(',')] for a non-empty list of fields. *)
Fixpoint join_fields (f : list Z) (fs : list (list Z)) : list Z :=
  match fs with
  | [] => f
  | g :: gs => f ++ comma :: join_fields g gs
  end.

(** One entry of the listing.  The [name] and [email] columns are not part
    of the model. *)
Record listing_entry : Type := mkEntry {
  le_employeesID : string;
  le_role : role;
  hasReport : bool;
  hasFilledForm : bool
}.

(** What [GET /api/reports/employees] answers: [{ employees, company }], or
    a status with [{ error }]. *)
Inductive listing_reply : Type :=
| Listing (entries : list listing_entry) (company : option string)
| ListingError (code : Z) (error : string).

(** [SELECT 1 FROM responses_langchain_sentiment WHERE employeesID = ?
     LIMIT 1], read through [reportRows.length > 0]. *)
Definition has_langchain_row (id : string) (d : database) : bool :=
  existsb (fun r => String.eqb (lc_employeesID r) id)
    (responses_langchain_sentiment d).

Definition entry_of (d : database) (e : employee) : listing_entry :=
  mkEntry (employeesID e) (emp_role e) (has_langchain_row (employeesID e) d)
    (coalesce_filled (is_filled e)).

(** [(employees || []).map(async e => { ... await pool.execute(...) ... })]:
    every callback runs up to its query when [map] calls it, so the queries
    are issued in array order before any of them is awaited. *)
Fixpoint statusPromises (l : list employee)
  : M (list (outcome listing_entry)) :=
  match l with
  | [] => ret []
  | e :: rest =>
      p <- start
             (reportRows <- select (has_langchain_row (employeesID e)) ;;
              ret (mkEntry (employeesID e) (emp_role e) reportRows
                     (coalesce_filled (is_filled e)))) ;;
      ps <- statusPromises rest ;;
      ret (p :: ps)
  end.

(** [await Promise.all(promises)] *)
Fixpoint promise_all {A : Type} (ps : list (outcome A)) : M (list A) :=
  match ps with
  | [] => ret []
  | Ok a :: rest => others <- promise_all rest ;; ret (a :: others)
  | Throw e :: _ => throw e
  end.

(** [GET /api/reports/employees], behind [authenticateHR]. *)
Definition reports_employees (hrUser : token_payload) : M listing_reply :=
  try_catch
    (hrResult <- select (select_employee_company (tok_employeesID hrUser)) ;;
     match hrResult with
     | None => ret (ListingError 404 "HR user not found")
     | Some (companyId, company_name) =>
         let company := or_null company_name in
         rows <- select (select_non_hr companyId) ;;
         promises <- statusPromises rows ;;
         employeesWithStatus <- promise_all promises ;;
         ret (Listing employeesWithStatus company)
     end)
    (fun _ => ret (ListingError 500 "Failed to fetch employees")).

(** * Properties *)

Unset Implicit Arguments.

(** ** Running statements *)

Lemma execute_ok (A : Type) (q : database -> A * database) (w : world) :
  hd false (faults w) = false ->
  execute q w = (Ok (fst (q (db w))), with_db (snd (q (db w))) (pop w)).
Proof.
  intros H. unfold execute, next_fault. rewrite H.
  destruct (q _); reflexivity.
Qed.

Lemma execute_rejected (A : Type) (q : database -> A * database) (w : world) :
  hd false (faults w) = true ->
  execute q w = (Throw SqlError, pop w).
Proof. intros H. unfold execute, next_fault. rewrite H. reflexivity. Qed.

Lemma select_ok (A : Type) (q : database -> A) (w : world) :
  hd false (faults w) = false ->
  select q w = (Ok (q (db w)), pop w).
Proof. intros H. unfold select. rewrite execute_ok by assumption. reflexivity. Qed.

Lemma select_rejected (A : Type) (q : database -> A) (w : world) :
  hd false (faults w) = true ->
  select q w = (Throw SqlError, pop w).
Proof. intros H. unfold select. apply execute_rejected; assumption. Qed.

Lemma fault_free_hd (w : world) : fault_free w -> hd false (faults w) = false.
Proof.
  unfold fault_free. destruct (faults w) as [|b fs]; simpl; intros H.
  - reflexivity.
  - inversion H; assumption.
Qed.

Lemma fault_free_pop (w : world) : fault_free w -> fault_free (pop w).
Proof.
  unfold fault_free, pop. simpl. destruct (faults w) as [|b fs]; simpl; intros H.
  - constructor.
  - inversion H; assumption.
Qed.

Lemma fault_free_with_db (d : database) (w : world) :
  fault_free w -> fault_free (with_db d w).
Proof. intros H; exact H. Qed.

Lemma fault_free_with_tx (t : option database) (w : world) :
  fault_free w -> fault_free (with_tx t w).
Proof. intros H; exact H. Qed.

Create HintDb faults.
#[local] Hint Resolve fault_free_hd fault_free_pop fault_free_with_db
  fault_free_with_tx : faults.

(** Runs the next statement of a handler whose plan is known to let it
    through. *)
Ltac run_ok :=
  first [ rewrite select_ok by auto 12 with faults
        | rewrite execute_ok by auto 12 with faults ].

(** ** The completion check *)

Lemma count_filled_all (rows : list bool) :
  count_filled rows = List.length rows <-> Forall (fun b => b = true) rows.
Proof.
  unfold count_filled. induction rows as [|b rows IH]; simpl.
  - split; [constructor | reflexivity].
  - destruct b; simpl.
    + split.
      * intros H. injection H as H. constructor; [reflexivity | apply IH, H].
      * intros H. inversion H; subst. f_equal. apply IH; assumption.
    + split.
      * intros H.
        pose proof (filter_length_le (fun b => b) rows). lia.
      * intros H. inversion H; discriminate.
Qed.

(** The test of the automatic trigger is the specification's predicate. *)
Lemma all_submitted_isComplete (d : database) (c : Z) :
  all_submitted (select_is_filled (Some c) d) = true <-> isComplete d c.
Proof.
  unfold all_submitted, isComplete, select_is_filled, company_non_hr.
  rewrite andb_true_iff, Nat.ltb_lt, Nat.eqb_eq, count_filled_all.
  rewrite length_map, Forall_map.
  split; intros [H1 H2]; split; try assumption.
  - intros E. rewrite E in H1. simpl in H1. lia.
  - destruct (select_non_hr (Some c) d); [congruence | simpl; lia].
Qed.

(** A company whose identifier is NULL matches no row. *)
Lemma select_is_filled_null (d : database) : select_is_filled None d = [].
Proof.
  unfold select_is_filled, select_non_hr, in_company_non_hr.
  induction (employees d) as [|e es IH]; simpl.
  - reflexivity.
  - destruct (emp_company_id e); simpl; assumption.
Qed.

(** One step of a handler under an arbitrary plan: the next statement is
    either rejected or let through, and a branch on a query result is
    followed both ways. *)
Ltac step :=
  cbv beta iota;
  match goal with
  | |- context [let (_, _) := ?x in _] => is_var x; destruct x
  | |- context [select ?q ?w] =>
      let F := fresh "F" in
      destruct (hd false (faults w)) eqn:F;
      [ rewrite (select_rejected _ q w F) | rewrite (select_ok _ q w F) ]
  | |- context [execute ?q ?w] =>
      let F := fresh "F" in
      destruct (hd false (faults w)) eqn:F;
      [ rewrite (execute_rejected _ q w F) | rewrite (execute_ok _ q w F) ]
  | |- context [match ?x with Some _ => _ | None => _ end] => destruct x eqn:?
  | |- context [if ?b then _ else _] => destruct b eqn:?
  end.

(** The HR endpoint serves a report only for a complete company, and only a
    stored row flagged as filled. *)
Lemma company_report_gate (hrUser : token_payload) (w : world) (r : response) :
  fst (company_report hrUser w) = Ok r ->
  serves_report r = true ->
  exists c name report,
    select_employee_company (tok_employeesID hrUser) (db w)
      = Some (Some c, name)
    /\ isComplete (db w) c
    /\ select_filled_company_report (Some c) (db w) = Some report.
Proof.
  unfold company_report, try_catch, bind, ret.
  repeat step; cbv beta iota; simpl fst;
    try (intros [= <-]; discriminate).
  intros _ _.
  change (db (pop (pop w))) with (db w) in *.
  change (db (pop w)) with (db w) in *.
  match goal with
  | H : select_employee_company _ _ = Some (?o, _) |- _ => destruct o as [cid|]
  end.
  - match goal with
    | H : select_employee_company _ _ = Some (_, ?name),
      H' : select_filled_company_report _ _ = Some ?rep |- _ =>
        exists cid, name, rep
    end.
    split; [reflexivity | split; [ | assumption ]].
    apply all_submitted_isComplete. unfold all_submitted.
    match goal with
    | H : negb _ = false |- _ =>
        apply negb_false_iff in H; rewrite H, andb_true_r
    end.
    match goal with
    | H : Nat.eqb _ 0 = false |- _ => apply Nat.eqb_neq in H
    end.
    apply Nat.ltb_lt. lia.
  - match goal with
    | H : Nat.eqb _ 0 = false |- _ =>
        rewrite select_is_filled_null in H; discriminate
    end.
Qed.

(** The admin endpoint compares the two counts only. *)
Lemma admin_company_report_gate (c : Z) (w : world) (r : response) :
  fst (admin_company_report (CompanyNumber c) w) = Ok r ->
  serves_report r = true ->
  Forall (fun e => coalesce_filled (is_filled e) = true) (company_non_hr (db w) c)
  /\ exists report, select_company_report (Some c) (db w) = Some report.
Proof.
  unfold admin_company_report, resolve_company, try_catch, bind, ret.
  repeat step; cbv beta iota; simpl fst;
    try (intros [= <-]; discriminate).
  intros _ _.
  change (db (pop w)) with (db w) in *.
  split.
  - match goal with
    | H : negb _ = false |- _ =>
        apply negb_false_iff, Nat.eqb_eq, count_filled_all in H;
        unfold select_is_filled in H; rewrite Forall_map in H; exact H
    end.
  - eexists; eassumption.
Qed.

(** C1 (the completion check at its call sites).  Initech has no non-HR
    employee, hence is not complete.  The automatic trigger's test and the
    HR report and analyze endpoints say so; the admin report endpoint, which
    compares [filled] with [total] without testing [total], lets the request
    through and serves the report left from an earlier cycle. *)
Theorem admin_report_gate_passes_empty_company :
  company_non_hr sample_db 7 = []
  /\ ~ isComplete sample_db 7
  /\ all_submitted (select_is_filled (Some 7) sample_db) = false
  /\ fst (company_report (mkToken "hr7" (Some HR)) (sample_world [] []))
     = Ok (mkHttp 404 (ErrorBody "No employees to report"))
  /\ fst (company_analyze (mkToken "hr7" (Some HR)) (sample_world [] []))
     = Ok (mkHttp 409 (ErrorBody "No employees in company to analyze"))
  /\ fst (admin_company_report (CompanyNumber 7) (sample_world [] []))
     = Ok (res_json (AdminReport stale_report)).
Proof.
  split; [reflexivity|].
  split; [intros [H _]; apply H; reflexivity|].
  repeat split; vm_compute; reflexivity.
Qed.

(** C3 (no report while the company is not complete).  On the admin
    endpoint a company without any non-HR employee, which the completion
    check reports as not complete, gets whatever report row is stored for
    it. *)
Theorem admin_company_report_serves_stale_report
    (w : world) (c : Z) (report : company_report_row) :
  fault_free w ->
  company_non_hr (db w) c = [] ->
  select_company_report (Some c) (db w) = Some report ->
  ~ isComplete (db w) c
  /\ fst (admin_company_report (CompanyNumber c) w)
     = Ok (res_json (AdminReport report)).
Proof.
  intros FF Hnone Hrep. split.
  - intros [H _]. exact (H Hnone).
  - unfold admin_company_report, resolve_company, try_catch, bind, ret.
    run_ok. cbv beta iota.
    unfold select_is_filled. fold (company_non_hr (db w) c).
    rewrite Hnone. simpl.
    run_ok. cbv beta iota. simpl. rewrite Hrep. reflexivity.
Qed.

Lemma admin_company_report_serves_stale_report_witness :
  fault_free (sample_world [] [])
  /\ ~ isComplete (db (sample_world [] [])) 7
  /\ fst (admin_company_report (CompanyNumber 7) (sample_world [] []))
     = Ok (res_json (AdminReport stale_report)).
Proof.
  split; [constructor|].
  apply (@admin_company_report_serves_stale_report
           (sample_world [] []) 7 stale_report).
  - constructor.
  - reflexivity.
  - reflexivity.
Defined.

(** ** Submission *)

Lemma skipn_tl (A : Type) (n : nat) (l : list A) :
  skipn n (tl l) = skipn (S n) l.
Proof. destruct l; simpl; [apply skipn_nil | reflexivity]. Qed.

(** What the eager inserts do: every statement is issued, the rejected ones
    leave no row, and the awaiting loop answers at the first rejected one. *)
Lemma insertPromises_run (employee : string) (form : Z) (l : list answer) :
  forall w, exists ps,
    insertPromises employee form l w
    = (Ok ps,
       with_faults (skipn (List.length l) (faults w))
         (with_db
            (with_responses
               (Responses_Sentiment (db w)
                  ++ persisted employee form l (faults w))
               (db w))
            w))
    /\ forall i,
         await_rows i ps
         = option_map (fun k => mkHttp 500 (RowFailed (i + k)))
             (first_rejected (List.length l) (faults w)).
Proof.
  induction l as [|a rest IH]; intros w.
  - exists []. split.
    + simpl. unfold ret. rewrite app_nil_r. reflexivity.
    + reflexivity.
  - cbn [insertPromises List.length persisted first_rejected].
    unfold bind at 1. unfold start at 1.
    destruct (hd false (faults w)) eqn:F.
    + rewrite execute_rejected by assumption.
      destruct (IH (pop w)) as [ps [Hrun Hawait]].
      unfold bind at 1. rewrite Hrun. unfold ret.
      eexists. split.
      * unfold pop. cbn [faults db with_faults with_db].
        rewrite skipn_tl. reflexivity.
      * intros i. simpl. rewrite Nat.add_0_r. reflexivity.
    + rewrite execute_ok by assumption.
      destruct (IH (with_db (snd (insert_response employee form a (db w)))
                      (pop w))) as [ps [Hrun Hawait]].
      unfold bind at 1. rewrite Hrun. unfold ret.
      eexists. split.
      * unfold pop, insert_response, row_of.
        cbn [faults db with_faults with_db with_responses snd
             Responses_Sentiment].
        rewrite skipn_tl, <- app_assoc. reflexivity.
      * intros i. cbn [await_rows]. rewrite Hawait.
        unfold pop. cbn [faults with_faults with_db].
        destruct (first_rejected (List.length rest) (tl (faults w))); simpl.
        -- do 3 f_equal. lia.
        -- reflexivity.
Qed.

Lemma submit_response_resolved (req : submission) (employee : string)
    (form : Z) (l : list answer) (w : world) :
  resolves req employee form l ->
  has_employeesID_column (db w) = true ->
  hd false (faults w) = false ->
  submit_response req w
  = try_catch
      (promises <- insertPromises employee form l ;;
       match await_rows 0 promises with
       | Some failure => ret (failure, None)
       | None =>
           try_catch
             (_ <- execute (update_filled (has_id employee) true) ;; ret tt)
             (fun _ => ret tt) ;;;
           spawned <-
             try_catch
               (empCompany <- select (select_employee employee) ;;
                match empCompany with
                | Some row =>
                    let companyId := emp_company_id row in
                    companyEmployees <- select (select_is_filled companyId) ;;
                    if all_submitted companyEmployees
                    then ret (Some companyId)
                    else ret None
                | None => ret None
                end)
               (fun _ => ret None) ;;
           ret (res_json (Message true "Responses saved successfully"),
                spawned)
       end)
      (fun _ => ret (mkHttp 500 (Message false "Server error"), None))
      (pop w).
Proof.
  intros (He & Hf & Hnz & Ha) Hcol F.
  unfold submit_response. cbv zeta. rewrite He, Hf, Ha.
  assert (T : truthy_num (Some form) = true).
  { unfold truthy_num. apply negb_true_iff, Z.eqb_neq. assumption. }
  rewrite T. cbn [negb].
  unfold try_catch at 1, bind at 1.
  rewrite select_ok by assumption. cbv beta. rewrite Hcol. cbn [negb].
  reflexivity.
Qed.

(** What a submission does when the insert of some answer is rejected, in
    the model's order of the rows. *)
Lemma submit_response_row_rejected
    (req : submission) (employee : string) (form : Z) (l : list answer)
    (i : nat) (w : world) :
  resolves req employee form l ->
  has_employeesID_column (db w) = true ->
  hd false (faults w) = false ->
  first_rejected (List.length l) (tl (faults w)) = Some i ->
  submit_response req w
  = (Ok (mkHttp 500 (RowFailed i), None),
     with_faults (skipn (List.length l) (tl (faults w)))
       (with_db
          (with_responses
             (Responses_Sentiment (db w)
                ++ persisted employee form l (tl (faults w)))
             (db w))
          w)).
Proof.
  intros R Hcol F Hrej.
  rewrite (submit_response_resolved req employee form l w R Hcol F).
  destruct (insertPromises_run employee form l (pop w)) as [ps [Hrun Hawait]].
  unfold try_catch at 1, bind at 1. rewrite Hrun.
  rewrite Hawait. unfold pop. cbn [faults with_faults with_db].
  rewrite Hrej. reflexivity.
Qed.

(** The answers before the first rejected insert are all stored. *)
Lemma persisted_before_first_rejected
    (employee : string) (form : Z) (l : list answer) :
  forall plan i a,
    first_rejected (List.length l) plan = Some i ->
    In a (firstn i l) ->
    In (row_of employee form a) (persisted employee form l plan).
Proof.
  induction l as [|a0 rest IH]; intros plan i a.
  - discriminate.
  - cbn [List.length first_rejected persisted].
    destruct (hd false plan).
    + intros [= <-] [].
    + destruct (first_rejected (List.length rest) (tl plan)) as [k|] eqn:E;
        [|discriminate].
      intros [= <-] [<- | H].
      * left. reflexivity.
      * right. apply (IH (tl plan) k a E H).
Qed.

(** C2, as the code has it.  When the insert of some answer is rejected the
    submission fails: the answer is a 500 naming the first rejected row,
    [filled] is not set and no analysis is started.  Nothing is undone:
    the rows stored before the submission are all still there, and so is
    the row of every answer before the first rejected one. *)
Theorem submit_row_failure_keeps_earlier_rows
    (req : submission) (employee : string) (form : Z) (l : list answer)
    (i : nat) (w : world) :
  resolves req employee form l ->
  has_employeesID_column (db w) = true ->
  hd false (faults w) = false ->
  first_rejected (List.length l) (tl (faults w)) = Some i ->
  let w' := snd (submit_response req w) in
  fst (submit_response req w) = Ok (mkHttp 500 (RowFailed i), None)
  /\ (forall x, In x (Responses_Sentiment (db w)) ->
      In x (Responses_Sentiment (db w')))
  /\ (forall a, In a (firstn i l) ->
      In (row_of employee form a) (Responses_Sentiment (db w')))
  /\ employees (db w') = employees (db w).
Proof.
  intros R Hcol F Hrej. cbv zeta.
  rewrite (submit_response_row_rejected req employee form l i w R Hcol F Hrej).
  cbn [fst snd db with_faults with_db with_responses Responses_Sentiment
       employees].
  repeat split.
  - intros x Hx. apply in_or_app. left. exact Hx.
  - intros a Ha. apply in_or_app. right.
    apply (persisted_before_first_rejected employee form l _ i a Hrej Ha).
Qed.

Lemma submit_row_failure_keeps_earlier_rows_witness :
  let w := sample_world [false; false; true] [] in
  fst (submit_response two_answers w) = Ok (mkHttp 500 (RowFailed 1), None)
  /\ In (mkResponse "b1" 1 101 (Some "ok") None)
       (Responses_Sentiment (db (snd (submit_response two_answers w))))
  /\ employees (db (snd (submit_response two_answers w))) = employees sample_db.
Proof.
  cbv zeta.
  destruct (submit_row_failure_keeps_earlier_rows two_answers "b1" 1
              [mkAnswer 101 (Some "ok") None; mkAnswer 102 None (Some "A")]
              1 (sample_world [false; false; true] []))
    as (H1 & _ & H3 & H4).
  - repeat split; discriminate.
  - reflexivity.
  - reflexivity.
  - reflexivity.
  - split; [exact H1|]. split; [|exact H4].
    apply (H3 (mkAnswer 101 (Some "ok") None)). left. reflexivity.
Defined.

(** C2, as stated, fails: the second of two inserts is rejected, the
    submission is answered 500, and the first answer's row stays in the
    store. *)
Lemma submit_not_all_or_nothing :
  let w := sample_world [false; false; true] [] in
  fst (submit_response two_answers w) = Ok (mkHttp 500 (RowFailed 1), None)
  /\ Responses_Sentiment (db (snd (submit_response two_answers w)))
     = Responses_Sentiment (db w) ++ [mkResponse "b1" 1 101 (Some "ok") None]
  /\ Responses_Sentiment (db (snd (submit_response two_answers w)))
     <> Responses_Sentiment (db w).
Proof.
  cbv zeta. repeat split; try (vm_compute; reflexivity).
  vm_compute. discriminate.
Qed.

(** C9 (an empty list of answers is accepted).  For a body whose [answers]
    is an empty array, with an employee identifier and a form identifier
    that are present, and once the schema probe has been answered: the
    request is answered 200 "Responses saved successfully" whatever happens
    to the later statements, no row is added to [Responses_Sentiment], and
    the [UPDATE ... SET is_filled = 1] is issued for the identifier as it is:
    when it goes through, every row with that identifier (none, if no
    employee has it) is flagged as filled. *)
Theorem submit_empty_answers_accepted
    (req : submission) (employee : string) (form : Z) (w : world) :
  resolves req employee form [] ->
  has_employeesID_column (db w) = true ->
  hd false (faults w) = false ->
  exists spawned w',
    submit_response req w
    = (Ok (res_json (Message true "Responses saved successfully"), spawned),
       w')
    /\ Responses_Sentiment (db w') = Responses_Sentiment (db w)
    /\ employees (db w')
       = (if hd false (tl (faults w)) then employees (db w)
          else map (fun e => if has_id employee e then set_filled true e
                             else e)
                 (employees (db w))).
Proof.
  intros R Hcol F.
  rewrite (submit_response_resolved req employee form [] w R Hcol F).
  cbn [insertPromises].
  unfold try_catch, bind, ret. cbn [await_rows].
  change (tl (faults w)) with (faults (pop w)).
  repeat step; cbv beta iota;
    (do 2 eexists; split; [reflexivity | split; reflexivity]).
Qed.

Lemma submit_empty_answers_accepted_witness :
  (exists spawned w',
     submit_response no_answers (sample_world [] [])
     = (Ok (res_json (Message true "Responses saved successfully"), spawned),
        w')
     /\ Responses_Sentiment (db w') = Responses_Sentiment sample_db
     /\ employees (db w') = employees sample_db)
  /\ (exists spawned w',
        submit_response no_answers_b1 (sample_world [] [])
        = (Ok (res_json (Message true "Responses saved successfully"),
               spawned), w')
        /\ Responses_Sentiment (db w') = Responses_Sentiment sample_db
        /\ In (mkEmployee "b1" Employee (Some 2) (Some true))
             (employees (db w'))).
Proof.
  split.
  - destruct (submit_empty_answers_accepted no_answers "ghost" 1
                (sample_world [] []))
      as (spawned & w' & Hrun & Hresp & Hemp).
    + repeat split; discriminate.
    + reflexivity.
    + reflexivity.
    + exists spawned, w'. repeat split; assumption.
  - destruct (submit_empty_answers_accepted no_answers_b1 "b1" 1
                (sample_world [] []))
      as (spawned & w' & Hrun & Hresp & Hemp).
    + repeat split; discriminate.
    + reflexivity.
    + reflexivity.
    + exists spawned, w'. repeat split; try assumption.
      rewrite Hemp. simpl. auto 10.
Defined.

(** ** Access guard *)

Lemma js_strict_eq_iff (a b : option Z) : js_strict_eq a b = true <-> a = b.
Proof.
  destruct a as [x|], b as [y|]; simpl; split; intros H;
    try discriminate; try reflexivity.
  - apply Z.eqb_eq in H. congruence.
  - injection H as ->. apply Z.eqb_refl.
Qed.

Lemma js_strict_neq (a b : option Z) : a <> b -> js_strict_eq a b = false.
Proof.
  intros H. destruct (js_strict_eq a b) eqn:E; [|reflexivity].
  apply js_strict_eq_iff in E. contradiction.
Qed.

(** C4, as the code has it, for a caller with role HR or Admin.  On the
    report endpoints ([GET /api/reports/sentiment/:employeeId],
    [POST /api/trigger-ai-analysis/:employeeId]) a caller whose own employee
    row is in one company gets 403 for a target whose employee row is in
    another, whether or not any report is stored for the target, and 404
    for a target without an employee row; under a plan that rejects a
    statement the answer for a target of another company is 403 or 500,
    never a report.  The status endpoint
    ([GET /api/employees/:employeesID/status]) looks at the caller's role
    only: for a target that is not blank it answers with the target's
    status, or 404 when no employee has that identifier, whatever the
    companies and whether or not the caller has an employee row -- except
    for a path whose segment is the word me, which the route registered
    before it answers with the caller's own status. *)
Theorem report_guard_by_company_status_guard_by_role
    (caller : token_payload) (target segment : string) (w : world) :
  role_is HR (tok_role caller) || role_is Admin (tok_role caller) = true ->
  let report :=
    authenticateHR (Verified caller) (fun u => sentiment_report u target) in
  let trigger :=
    authenticateHR (Verified caller) (fun u => trigger_ai_analysis u target) in
  (forall hr emp,
     select_employee (tok_employeesID caller) (db w) = Some hr ->
     select_employee target (db w) = Some emp ->
     emp_company_id emp <> emp_company_id hr ->
     (fault_free w ->
      fst (report w) = Ok forbidden /\ fst (trigger w) = Ok forbidden)
     /\ (exists r, fst (report w) = Ok r
                   /\ (status r = 403 \/ status r = 500))
     /\ (exists r, fst (trigger w) = Ok r
                   /\ (status r = 403 \/ status r = 500)))
  /\ (forall hr,
        select_employee (tok_employeesID caller) (db w) = Some hr ->
        select_employee target (db w) = None ->
        fault_free w ->
        fst (report w) = Ok (mkHttp 404 (ErrorBody "Employee not found"))
        /\ fst (trigger w) = Ok (mkHttp 404 (ErrorBody "Employee not found")))
  /\ (fault_free w ->
      trim target <> "" ->
      fst (employees_status_route (Verified caller) segment target w)
      = Ok match
             select_employee
               (if is_me segment then tok_employeesID caller else trim target)
               (db w)
           with
           | Some row => res_json (IsFilled (coalesce_filled (is_filled row)))
           | None => mkHttp 404 (Message false "Employee not found")
           end).
Proof.
  intros Hrole. cbv zeta.
  assert (Hauth : forall next,
             authenticateHR (Verified caller) next = next caller).
  { intros next. unfold authenticateHR.
    apply orb_true_iff in Hrole. destruct Hrole as [-> | ->]; simpl.
    - reflexivity.
    - rewrite andb_false_r. reflexivity. }
  rewrite !Hauth.
  split; [|split].
  - intros hr emp Hhr Hemp Hneq.
    pose proof (js_strict_neq _ _ Hneq) as Hjs.
    assert (Hhr2 : select_employee_company (tok_employeesID caller) (db w)
                   = Some (emp_company_id hr,
                           joined_company_name (emp_company_id hr) (db w))).
    { unfold select_employee_company. unfold select_employee in Hhr.
      rewrite Hhr. reflexivity. }
    assert (Hemp2 : select_employee_company target (db w)
                    = Some (emp_company_id emp,
                            joined_company_name (emp_company_id emp) (db w))).
    { unfold select_employee_company. unfold select_employee in Hemp.
      rewrite Hemp. reflexivity. }
    split; [|split].
    + intros FF. split.
      * unfold sentiment_report, try_catch, bind, ret.
        run_ok. cbv beta iota. change (db (pop w)) with (db w). rewrite Hhr.
        cbv beta iota zeta. run_ok. cbv beta iota.
        change (db (pop w)) with (db w). rewrite Hemp, Hjs. reflexivity.
      * unfold trigger_ai_analysis, try_catch, bind, ret.
        run_ok. cbv beta iota. rewrite Hhr2.
        cbv beta iota zeta. run_ok. cbv beta iota.
        change (db (pop w)) with (db w). rewrite Hemp2, Hjs. reflexivity.
    + unfold sentiment_report, try_catch, bind, ret.
      destruct (hd false (faults w)) eqn:F;
        [rewrite select_rejected by assumption
        | rewrite select_ok by assumption]; cbv beta iota.
      * eexists. split; [reflexivity | right; reflexivity].
      * rewrite Hhr. cbv beta iota zeta.
        destruct (hd false (faults (pop w))) eqn:F0;
          [rewrite select_rejected by assumption
          | rewrite select_ok by assumption]; cbv beta iota.
        -- eexists. split; [reflexivity | right; reflexivity].
        -- change (db (pop w)) with (db w). rewrite Hemp, Hjs.
           eexists. split; [reflexivity | left; reflexivity].
    + unfold trigger_ai_analysis, try_catch, bind, ret.
      destruct (hd false (faults w)) eqn:F;
        [rewrite select_rejected by assumption
        | rewrite select_ok by assumption]; cbv beta iota.
      * eexists. split; [reflexivity | right; reflexivity].
      * rewrite Hhr2. cbv beta iota zeta.
        destruct (hd false (faults (pop w))) eqn:F0;
          [rewrite select_rejected by assumption
          | rewrite select_ok by assumption]; cbv beta iota.
        -- eexists. split; [reflexivity | right; reflexivity].
        -- change (db (pop w)) with (db w). rewrite Hemp2, Hjs.
           eexists. split; [reflexivity | left; reflexivity].
  - intros hr Hhr Hnone FF.
    assert (Hhr2 : select_employee_company (tok_employeesID caller) (db w)
                   = Some (emp_company_id hr,
                           joined_company_name (emp_company_id hr) (db w))).
    { unfold select_employee_company. unfold select_employee in Hhr.
      rewrite Hhr. reflexivity. }
    assert (Hnone2 : select_employee_company target (db w) = None).
    { unfold select_employee_company. unfold select_employee in Hnone.
      rewrite Hnone. reflexivity. }
    split.
    + unfold sentiment_report, try_catch, bind, ret.
      run_ok. cbv beta iota. change (db (pop w)) with (db w). rewrite Hhr.
      cbv beta iota zeta. run_ok. cbv beta iota.
      change (db (pop w)) with (db w). rewrite Hnone. reflexivity.
    + unfold trigger_ai_analysis, try_catch, bind, ret.
      run_ok. cbv beta iota. rewrite Hhr2.
      cbv beta iota zeta. run_ok. cbv beta iota.
      change (db (pop w)) with (db w). rewrite Hnone2. reflexivity.
  - intros FF Hne. unfold employees_status_route.
    destruct (is_me segment).
    + unfold authenticateEmployee, authenticateToken, my_status,
        try_catch, bind, ret.
      run_ok. cbv beta iota.
      destruct (select_employee (tok_employeesID caller) (db w));
        reflexivity.
    + unfold authenticateToken, employee_status, try_catch, bind, ret.
      cbv zeta.
      destruct (String.eqb (trim target) "") eqn:E.
      { apply String.eqb_eq in E. contradiction. }
      apply orb_true_iff in Hrole.
      assert (G : negb (String.eqb (trim (tok_employeesID caller))
                          (trim target))
                  && negb (role_is HR (tok_role caller))
                  && negb (role_is Admin (tok_role caller)) = false).
      { destruct Hrole as [-> | ->]; simpl.
        - rewrite andb_false_r. reflexivity.
        - rewrite andb_false_r. reflexivity. }
      rewrite G. run_ok. cbv beta iota.
      destruct (select_employee (trim target) (db w)); reflexivity.
Qed.

Lemma report_guard_by_company_status_guard_by_role_witness :
  let hrA := Verified (mkToken "hrA" (Some HR)) in
  let w := sample_world [] [] in
  fst (authenticateHR hrA (fun u => sentiment_report u "b1") w) = Ok forbidden
  /\ fst (authenticateHR hrA (fun u => trigger_ai_analysis u "b1") w)
     = Ok forbidden
  /\ fst (employees_status_route hrA "b1" "b1" w)
     = Ok (res_json (IsFilled false))
  /\ fst (employees_status_route hrA "me" "me" w)
     = Ok (res_json (IsFilled true))
  /\ fst (authenticateHR hrA (fun u => sentiment_report u "ghost") w)
     = Ok (mkHttp 404 (ErrorBody "Employee not found")).
Proof.
  cbv zeta.
  pose proof (report_guard_by_company_status_guard_by_role
                (mkToken "hrA" (Some HR)) "me" "me" (sample_world [] [])
                eq_refl) as (_ & _ & Hme).
  pose proof (report_guard_by_company_status_guard_by_role
                (mkToken "hrA" (Some HR)) "ghost" "ghost" (sample_world [] [])
                eq_refl) as (_ & Hghost & _).
  destruct (report_guard_by_company_status_guard_by_role
              (mkToken "hrA" (Some HR)) "b1" "b1" (sample_world [] []))
    as (H1 & _ & H3); [reflexivity|].
  destruct (H1 (mkEmployee "hrA" HR (Some 1) (Some true))
              (mkEmployee "b1" Employee (Some 2) None))
    as (H1a & _); [reflexivity | reflexivity | discriminate |].
  destruct H1a as [Hr Ht]; [constructor|].
  split; [exact Hr|]. split; [exact Ht|].
  split; [apply H3; [constructor | discriminate]|].
  split.
  - apply Hme; [constructor | discriminate].
  - apply (Hghost (mkEmployee "hrA" HR (Some 1) (Some true)));
      [reflexivity | reflexivity | constructor].
Defined.

(** C4, as stated, fails: Acme's HR user asks for the survey status of
    Globex's employee and gets it. *)
Lemma hr_reads_status_of_other_company :
  option_map emp_company_id (select_employee "hrA" sample_db) = Some (Some 1)
  /\ option_map emp_company_id (select_employee "b1" sample_db)
     = Some (Some 2)
  /\ fst (authenticateToken (Verified (mkToken "hrA" (Some HR)))
            (fun requester => employee_status requester "b1")
            (sample_world [] []))
     = Ok (res_json (IsFilled false)).
Proof. repeat split; vm_compute; reflexivity. Qed.

(** ** Company-wide reset *)

(** Who the reset selects: the non-HR employees of the company, and among
    them only the filled ones when [onlyFilled] is set. *)
Lemma select_reset_ids_spec (onlyFilled : bool) (c : Z) (d : database)
    (id : string) :
  In id (select_reset_ids onlyFilled (Some c) d) <->
  exists e, In e (employees d) /\ employeesID e = id
            /\ emp_company_id e = Some c /\ emp_role e <> HR
            /\ (onlyFilled = true -> coalesce_filled (is_filled e) = true).
Proof.
  assert (G : forall e, in_company_non_hr (Some c) e = true <->
                        emp_company_id e = Some c /\ emp_role e <> HR).
  { intros e. unfold in_company_non_hr, non_hr, sql_eq.
    rewrite andb_true_iff, negb_true_iff.
    destruct (emp_company_id e) as [x|]; destruct (emp_role e); simpl;
      rewrite ?Z.eqb_eq; split; intros [H1 H2]; split;
      try congruence; try discriminate. }
  unfold select_reset_ids, select_filled_ids, select_non_hr, filled_non_hr.
  destruct onlyFilled; rewrite in_map_iff; split.
  - intros (e & <- & He). apply filter_In in He as [Hin Hsel].
    apply andb_true_iff in Hsel as [H1 H2]. apply G in H1 as [Hc Hr].
    exists e. repeat split; auto.
  - intros (e & Hin & <- & Hc & Hr & Hf). exists e. split; [reflexivity|].
    apply filter_In. split; [assumption|].
    apply andb_true_iff. split; [apply G; auto | auto].
  - intros (e & <- & He). apply filter_In in He as [Hin Hsel].
    apply G in Hsel as [Hc Hr].
    exists e. repeat split; auto. discriminate.
  - intros (e & Hin & <- & Hc & Hr & _). exists e. split; [reflexivity|].
    apply filter_In. split; [assumption | apply G; auto].
Qed.

Ltac reset_step Htx :=
  cbn [tx db faults pop with_faults with_db with_tx fst snd release];
  rewrite ?Htx;
  step.

(** C6, as the code has it.  With [ids] the identifiers of the non-HR
    employees of the company (only the filled ones when [onlyFilled] is
    set): the reset answers with its summary only after it has deleted the
    [Responses_Sentiment] and [responses_langchain_sentiment] rows of [ids]
    and every [company_reports_sentiment] row of the company and has
    cleared [is_filled] on [ids], and [ids] is then not empty; in every
    other case -- a rejected statement at any step, an unknown company, an
    empty [ids] -- the store is exactly as it was. *)
Theorem company_reset_all_or_nothing
    (companyParam : company_param) (onlyFilled : bool) (w : world) :
  tx w = None ->
  let r := fst (company_reset companyParam onlyFilled w) in
  let d' := db (snd (company_reset companyParam onlyFilled w)) in
  (is_reset_summary r = false -> d' = db w)
  /\ (is_reset_summary r = true ->
      exists c ids,
        resolved companyParam (db w) = Some c
        /\ ids = select_reset_ids onlyFilled (Some c) (db w)
        /\ ids <> []
        /\ Responses_Sentiment d'
           = filter (fun x => negb (id_in ids (rs_employeesID x)))
               (Responses_Sentiment (db w))
        /\ responses_langchain_sentiment d'
           = filter (fun x => negb (id_in ids (lc_employeesID x)))
               (responses_langchain_sentiment (db w))
        /\ company_reports_sentiment d'
           = filter (fun x => negb (cr_company_id x =? c))
               (company_reports_sentiment (db w))
        /\ employees d'
           = map (fun e => if id_in ids (employeesID e)
                           then set_filled false e else e)
               (employees (db w))
        /\ companies d' = companies (db w)).
Proof.
  intros Htx. cbv zeta.
  unfold company_reset, finally, resolve_company, try_catch, bind, ret,
    getConnection, beginTransaction, commit, rollback, next_fault.
  destruct companyParam as [n | name]; repeat reset_step Htx.
  all: cbv beta iota; cbn [tx db faults pop with_faults with_db with_tx
                         fst snd release is_reset_summary res_json].
  all: rewrite ?Htx; cbv beta iota;
    cbn [tx db faults pop with_faults with_db with_tx
           fst snd release is_reset_summary res_json status json].
  all: try (split; [reflexivity | discriminate]).
  all: split; [discriminate | intros _].
  all: match goal with
       | H : select_reset_ids _ (Some ?c) _ = ?ids |- _ =>
           exists c, ids; cbn [resolved]
       end.
  all: repeat split; try assumption; try reflexivity; try discriminate.
  all: symmetry; assumption.
Qed.

Lemma company_reset_all_or_nothing_witness :
  db (snd (company_reset (CompanyName "Acme") false
             (sample_world [false; false; false; false; false; false; true]
                [])))
  = sample_db
  /\ employees
       (db (snd (company_reset (CompanyNumber 1) false (sample_world [] []))))
     = [ mkEmployee "hrA" HR (Some 1) (Some true);
         mkEmployee "e1" Employee (Some 1) (Some false);
         mkEmployee "e2" Manager (Some 1) (Some false);
         mkEmployee "hrB" HR (Some 2) None;
         mkEmployee "b1" Employee (Some 2) None;
         mkEmployee "hr7" HR (Some 7) None ].
Proof.
  split.
  - apply (proj1 (company_reset_all_or_nothing (CompanyName "Acme") false
                    (sample_world
                       [false; false; false; false; false; false; true] [])
                    eq_refl)).
    reflexivity.
  - destruct (proj2 (company_reset_all_or_nothing (CompanyNumber 1) false
                       (sample_world [] []) eq_refl) eq_refl)
      as (c & ids & Hc & Hids & _ & _ & _ & _ & Hemp & _).
    injection Hc as <-. subst ids. exact Hemp.
Defined.

(** C6, as stated, fails.  Acme's HR user is an employee of the company
    with [filled = true] and a stored answer; a reset of the whole company
    succeeds and leaves her flag and her answer in place.  And a reset of
    Initech, where the selection is empty, succeeds too and leaves the
    company's report row in the store. *)
Lemma company_reset_spares_hr :
  (let w := sample_world [] [] in
   let w' := snd (company_reset (CompanyNumber 1) false w) in
   fst (company_reset (CompanyNumber 1) false w)
   = Ok (res_json (ResetSummary 2 2 1 1 2))
   /\ In (mkEmployee "hrA" HR (Some 1) (Some true)) (employees (db w))
   /\ In (mkEmployee "hrA" HR (Some 1) (Some true)) (employees (db w'))
   /\ In (mkResponse "hrA" 1 101 (Some "fine") None)
        (Responses_Sentiment (db w')))
  /\ (let w := sample_world [] [] in
      let w' := snd (company_reset (CompanyNumber 7) false w) in
      fst (company_reset (CompanyNumber 7) false w)
      = Ok (res_json NoEmployeesToReset)
      /\ In stale_report (company_reports_sentiment (db w'))).
Proof.
  cbv zeta. split.
  - split; [vm_compute; reflexivity|].
    repeat split; vm_compute; auto.
  - split; [vm_compute; reflexivity|].
    vm_compute. auto.
Qed.

Lemma getConnection_ok (w : world) :
  hd false (faults w) = false -> getConnection w = (Ok tt, pop w).
Proof. intros H. unfold getConnection, next_fault. rewrite H. reflexivity. Qed.

Lemma beginTransaction_ok (w : world) :
  hd false (faults w) = false ->
  beginTransaction w = (Ok tt, with_tx (Some (db w)) (pop w)).
Proof.
  intros H. unfold beginTransaction, next_fault. rewrite H. reflexivity.
Qed.

Lemma filled_ids_none (c : Z) (d : database) :
  Forall (fun e => coalesce_filled (is_filled e) = false) (company_non_hr d c) ->
  select_filled_ids (Some c) d = [].
Proof.
  unfold company_non_hr, select_non_hr, select_filled_ids, filled_non_hr.
  induction (employees d) as [|e es IH]; simpl; intros H.
  - reflexivity.
  - destruct (in_company_non_hr (Some c) e) eqn:E; simpl.
    + inversion H as [|? ? He Hes]; subst. rewrite He. simpl. apply IH, Hes.
    + apply IH, H.
Qed.

(** C10 (a reset that selects nobody).  When a reset with [onlyFilled] set
    finds no non-HR employee of the company with [filled = true] -- or,
    with either setting, the company has no non-HR employee at all -- and
    no statement is rejected, the answer is the 200 "No employees to reset"
    with its three zero counts and the store is exactly as it was: the
    company's report rows included. *)
Theorem company_reset_empty_selection_changes_nothing
    (companyParam : company_param) (onlyFilled : bool) (c : Z) (w : world) :
  tx w = None ->
  fault_free w ->
  resolved companyParam (db w) = Some c ->
  (onlyFilled = true
   /\ Forall (fun e => coalesce_filled (is_filled e) = false)
        (company_non_hr (db w) c))
  \/ company_non_hr (db w) c = [] ->
  fst (company_reset companyParam onlyFilled w)
  = Ok (res_json NoEmployeesToReset)
  /\ db (snd (company_reset companyParam onlyFilled w)) = db w
  /\ company_reports_sentiment
       (db (snd (company_reset companyParam onlyFilled w)))
     = company_reports_sentiment (db w).
Proof.
  intros Htx FF Hres Hsel.
  assert (Hids : select_reset_ids onlyFilled (Some c) (db w) = []).
  { destruct Hsel as [[-> Hnone] | Hempty].
    - apply filled_ids_none. assumption.
    - unfold select_reset_ids. destruct onlyFilled.
      + apply filled_ids_none. rewrite Hempty. constructor.
      + fold (company_non_hr (db w) c). rewrite Hempty. reflexivity. }
  unfold company_reset, finally, resolve_company, try_catch, bind, ret.
  rewrite getConnection_ok by auto with faults. cbv beta iota.
  destruct companyParam as [n | name]; cbn [resolved] in Hres.
  - injection Hres as ->.
    rewrite beginTransaction_ok by auto with faults.
    cbv beta iota. run_ok. cbv beta iota.
    change (db (with_tx (Some (db (pop w))) (pop (pop w)))) with (db w).
    rewrite Hids. unfold rollback. simpl. auto.
  - run_ok. cbv beta iota. change (db (pop w)) with (db w). rewrite Hres.
    rewrite beginTransaction_ok by auto with faults.
    cbv beta iota. run_ok. cbv beta iota.
    change (db (with_tx (Some (db (pop (pop w)))) (pop (pop (pop w)))))
      with (db w).
    rewrite Hids. unfold rollback. simpl. auto.
Qed.

Lemma company_reset_empty_selection_changes_nothing_witness :
  (fst (company_reset (CompanyName "Initech") false (sample_world [] []))
   = Ok (res_json NoEmployeesToReset)
   /\ db (snd (company_reset (CompanyName "Initech") false
                 (sample_world [] [])))
      = sample_db
   /\ company_reports_sentiment
        (db (snd (company_reset (CompanyName "Initech") false
                    (sample_world [] []))))
      = [acme_report; stale_report])
  /\ (fst (company_reset (CompanyNumber 2) true (sample_world [] []))
      = Ok (res_json NoEmployeesToReset)
      /\ db (snd (company_reset (CompanyNumber 2) true (sample_world [] [])))
         = sample_db
      /\ company_reports_sentiment
           (db (snd (company_reset (CompanyNumber 2) true
                       (sample_world [] []))))
         = [acme_report; stale_report]).
Proof.
  split.
  - apply (company_reset_empty_selection_changes_nothing
             (CompanyName "Initech") false 7 (sample_world [] [])).
    + reflexivity.
    + constructor.
    + reflexivity.
    + right. reflexivity.
  - apply (company_reset_empty_selection_changes_nothing
             (CompanyNumber 2) true 2 (sample_world [] [])).
    + reflexivity.
    + constructor.
    + reflexivity.
    + left. split; [reflexivity|]. repeat constructor.
Defined.

(** ** Resetting one employee *)

Lemma has_id_set_filled (id : string) (v : bool) (e : employee) :
  has_id id (set_filled v e) = has_id id e.
Proof. reflexivity. Qed.

Lemma find_after_update (id : string) (v : bool) (l : list employee) :
  find (has_id id)
    (map (fun e => if has_id id e then set_filled v e else e) l)
  = option_map (set_filled v) (find (has_id id) l).
Proof.
  induction l as [|e l IH]; simpl.
  - reflexivity.
  - destruct (has_id id e) eqn:E.
    + rewrite has_id_set_filled, E. reflexivity.
    + rewrite E. exact IH.
Qed.

Lemma latest_none (A : Type) (created_at : A -> Z) (rows : list A) :
  latest created_at rows = None <-> rows = [].
Proof.
  destruct rows as [|r rest]; simpl.
  - split; reflexivity.
  - destruct (latest created_at rest) as [r'|].
    + destruct (created_at r <? created_at r'); split; discriminate.
    + split; discriminate.
Qed.

Lemma filter_none (A : Type) (f : A -> bool) (l : list A) :
  (forall x, In x l -> f x = false) -> filter f l = [].
Proof.
  induction l as [|x l IH]; simpl; intros H.
  - reflexivity.
  - rewrite (H x) by auto. apply IH. intros y Hy. apply H. auto.
Qed.

(** Without a stored row for the company neither endpoint has a report to
    serve. *)
Lemma no_row_no_report (c : Z) (d : database) :
  (forall x, In x (company_reports_sentiment d) -> cr_company_id x <> c) ->
  select_company_report (Some c) d = None
  /\ select_filled_company_report (Some c) d = None.
Proof.
  intros H. unfold select_company_report, select_filled_company_report.
  split; apply latest_none, filter_none; intros x Hx; simpl.
  - apply Z.eqb_neq. auto.
  - apply andb_false_iff. left. apply Z.eqb_neq. auto.
Qed.

Lemma reset_employee_responses_run
    (id : string) (row : employee) (c : Z) (w : world) :
  fault_free w ->
  id <> "" ->
  select_employee id (db w) = Some row ->
  emp_company_id row = Some c ->
  c <> 0 ->
  exists n m,
    fst (reset_employee_responses id w) = Ok (res_json (Cleared n m))
    /\ db (snd (reset_employee_responses id w)) = after_reset_one id c (db w).
Proof.
  intros FF Hid Hrow Hc Hnz.
  unfold reset_employee_responses, try_catch, bind, ret.
  destruct (String.eqb id "") eqn:E.
  { apply String.eqb_eq in E. contradiction. }
  do 4 (run_ok; cbv beta iota).
  unfold select_employee in *.
  cbn [db pop with_db with_faults update_filled delete_langchain
         delete_responses snd fst employees with_employees with_langchain
         with_responses].
  rewrite find_after_update, Hrow. cbn [option_map].
  change (emp_company_id (set_filled false row)) with (emp_company_id row).
  rewrite Hc.
  assert (T : truthy_num (Some c) = true).
  { unfold truthy_num. apply negb_true_iff, Z.eqb_neq. assumption. }
  rewrite T. run_ok. cbv beta iota.
  do 2 eexists. split; reflexivity.
Qed.

Lemma count_filled_with_unfilled (rows : list bool) :
  In false rows ->
  Nat.eqb (List.length rows) 0 = false
  /\ negb (Nat.eqb (count_filled rows) (List.length rows)) = true.
Proof.
  intros Hin. split.
  - destruct rows; [contradiction | reflexivity].
  - apply negb_true_iff, Nat.eqb_neq. intros E.
    apply count_filled_all in E. rewrite Forall_forall in E.
    specialize (E false Hin). discriminate.
Qed.

(** C7 (reset of one employee).  For an employee [E] with an employee row in
    company [c], when every statement of the request goes through: [E]'s
    [Responses_Sentiment] rows and [responses_langchain_sentiment] rows are
    deleted and nobody else's, [is_filled] is 0 on [E] and unchanged on
    everybody else, and no [company_reports_sentiment] row of [c] is left.
    From that store on, neither report endpoint serves a report for [c],
    under any plan; and when [E] is not an HR user the HR endpoint answers
    409 "Not all employees have submitted". *)
Theorem reset_employee_clears_employee_and_company_report
    (id : string) (row : employee) (c : Z) (w : world) :
  fault_free w ->
  id <> "" ->
  select_employee id (db w) = Some row ->
  emp_company_id row = Some c ->
  c <> 0 ->
  let r := fst (reset_employee_responses id w) in
  let d' := db (snd (reset_employee_responses id w)) in
  (exists n m, r = Ok (res_json (Cleared n m)))
  /\ Responses_Sentiment d'
     = filter (fun x => negb (String.eqb (rs_employeesID x) id))
         (Responses_Sentiment (db w))
  /\ (forall x, In x (Responses_Sentiment d') -> rs_employeesID x <> id)
  /\ responses_langchain_sentiment d'
     = filter (fun x => negb (String.eqb (lc_employeesID x) id))
         (responses_langchain_sentiment (db w))
  /\ (forall x, In x (responses_langchain_sentiment d') ->
      lc_employeesID x <> id)
  /\ employees d'
     = map (fun e => if has_id id e then set_filled false e else e)
         (employees (db w))
  /\ (forall e, In e (employees d') -> employeesID e = id ->
      is_filled e = Some false)
  /\ (forall x, In x (company_reports_sentiment d') -> cr_company_id x <> c)
  /\ (forall hrUser name w2 r2,
        db w2 = d' ->
        select_employee_company (tok_employeesID hrUser) d'
          = Some (Some c, name) ->
        fst (company_report hrUser w2) = Ok r2 ->
        serves_report r2 = false)
  /\ (forall w2 r2,
        db w2 = d' ->
        fst (admin_company_report (CompanyNumber c) w2) = Ok r2 ->
        serves_report r2 = false)
  /\ (emp_role row <> HR ->
      forall hrUser name w2,
        db w2 = d' -> fault_free w2 ->
        select_employee_company (tok_employeesID hrUser) d'
          = Some (Some c, name) ->
        exists total filled,
          fst (company_report hrUser w2)
          = Ok (mkHttp 409
                  (ErrorCounts "Not all employees have submitted"
                     total filled))).
Proof.
  intros FF Hid Hrow Hc Hnz. cbv zeta.
  destruct (reset_employee_responses_run id row c w FF Hid Hrow Hc Hnz)
    as (n & m & Hr & Hd).
  rewrite Hr, Hd. clear Hr Hd.
  assert (Hno : forall x,
             In x (company_reports_sentiment (after_reset_one id c (db w))) ->
             cr_company_id x <> c).
  { intros x Hx. cbn [after_reset_one company_reports_sentiment] in Hx.
    apply filter_In in Hx as [_ Hx].
    apply negb_true_iff, Z.eqb_neq in Hx. exact Hx. }
  split; [exists n, m; reflexivity|].
  split; [reflexivity|].
  split.
  { intros x Hx. cbn [after_reset_one Responses_Sentiment] in Hx.
    apply filter_In in Hx as [_ Hx].
    apply negb_true_iff, String.eqb_neq in Hx. exact Hx. }
  split; [reflexivity|].
  split.
  { intros x Hx. cbn [after_reset_one responses_langchain_sentiment] in Hx.
    apply filter_In in Hx as [_ Hx].
    apply negb_true_iff, String.eqb_neq in Hx. exact Hx. }
  split; [reflexivity|].
  split.
  { intros e He Heq. cbn [after_reset_one employees] in He.
    apply in_map_iff in He as (e0 & <- & _).
    destruct (has_id id e0) eqn:E.
    - reflexivity.
    - unfold has_id in E. simpl in Heq. rewrite Heq, String.eqb_refl in E.
      discriminate. }
  split; [exact Hno|].
  split.
  { intros hrUser name w2 r2 Hw2 Hhr Hrun.
    destruct (serves_report r2) eqn:S; [|reflexivity].
    destruct (company_report_gate hrUser w2 r2 Hrun S)
      as (c' & name' & report & Hhr' & _ & Hrep).
    rewrite Hw2, Hhr in Hhr'. injection Hhr' as <- <-.
    rewrite Hw2 in Hrep.
    rewrite (proj2 (no_row_no_report c _ Hno)) in Hrep. discriminate. }
  split.
  { intros w2 r2 Hw2 Hrun.
    destruct (serves_report r2) eqn:S; [|reflexivity].
    destruct (admin_company_report_gate c w2 r2 Hrun S) as (_ & report & Hrep).
    rewrite Hw2 in Hrep.
    rewrite (proj1 (no_row_no_report c _ Hno)) in Hrep. discriminate. }
  intros Hrole hrUser name w2 Hw2 FF2 Hhr.
  assert (Hin : In false
                  (select_is_filled (Some c) (after_reset_one id c (db w)))).
  { unfold select_is_filled, select_non_hr.
    apply in_map_iff. exists (set_filled false row). split; [reflexivity|].
    apply filter_In. split.
    - cbn [after_reset_one employees]. apply in_map_iff. exists row.
      unfold select_employee in Hrow. apply find_some in Hrow as [Hin Hhas].
      rewrite Hhas. auto.
    - unfold in_company_non_hr, non_hr. simpl. rewrite Hc. simpl.
      rewrite Z.eqb_refl. simpl.
      destruct (emp_role row); try reflexivity. contradiction. }
  destruct (count_filled_with_unfilled _ Hin) as [Htot Hfil].
  unfold company_report, try_catch, bind, ret.
  run_ok. cbv beta iota. rewrite Hw2, Hhr. cbv beta iota zeta.
  run_ok. cbv beta iota. change (db (pop w2)) with (db w2).
  rewrite Hw2, Htot, Hfil. do 2 eexists. reflexivity.
Qed.

Lemma reset_employee_clears_employee_and_company_report_witness :
  let w := sample_world [] [] in
  let d' := db (snd (reset_employee_responses "e1" w)) in
  (exists n m, fst (reset_employee_responses "e1" w)
               = Ok (res_json (Cleared n m)))
  /\ (forall x, In x (company_reports_sentiment d') -> cr_company_id x <> 1)
  /\ (exists total filled,
        fst (company_report (mkToken "hrA" (Some HR))
               (mkWorld d' None [] [] [] []))
        = Ok (mkHttp 409
                (ErrorCounts "Not all employees have submitted"
                   total filled))).
Proof.
  cbv zeta.
  destruct (reset_employee_clears_employee_and_company_report "e1"
              (mkEmployee "e1" Employee (Some 1) (Some true)) 1
              (sample_world [] []))
    as (H1 & _ & _ & _ & _ & _ & _ & H8 & _ & _ & H11).
  - constructor.
  - discriminate.
  - reflexivity.
  - reflexivity.
  - discriminate.
  - split; [exact H1|]. split; [exact H8|].
    apply (H11 ltac:(discriminate) (mkToken "hrA" (Some HR)) (Some "Acme")).
    + reflexivity.
    + constructor.
    + reflexivity.
Defined.

(** ** The orchestrator *)

(** One turn of the per-employee loop never throws: it prints the start
    line and exactly one outcome line, and sends at most one request, an
    individual one. *)
Lemma employee_turn (e : string) (w : world) :
  exists w1 lines p,
    try_catch (analyze_employee e) (fun _ => log (LogEmployeeFailed e)) w
    = (Ok tt, w1)
    /\ console w1 = console w ++ lines
    /\ employee_lines e lines
    /\ calls w1 = calls w ++ p
    /\ forallb is_analyze p = true
    /\ ((exists err, fst (analyze_employee e w) = Throw err) ->
        lines = [LogGenerating e; LogEmployeeFailed e]).
Proof.
  unfold analyze_employee, try_catch, bind, log, employee_lines.
  cbv beta iota.
  match goal with
  | |- context [select ?q ?w0] =>
      destruct (hd false (faults w0)) eqn:F;
      [ rewrite (select_rejected _ q w0 F) | rewrite (select_ok _ q w0 F) ]
  end; cbv beta iota.
  { do 3 eexists. split; [reflexivity|].
    cbn [console calls pop with_faults].
    rewrite <- app_assoc. split; [reflexivity|].
    split; [eexists; split; [reflexivity | auto]|].
    split; [symmetry; apply app_nil_r|].
    split; reflexivity. }
  match goal with
  | |- context [select ?q ?w0] =>
      destruct (hd false (faults w0)) eqn:F0;
      [ rewrite (select_rejected _ q w0 F0) | rewrite (select_ok _ q w0 F0) ]
  end; cbv beta iota.
  { do 3 eexists. split; [reflexivity|].
    cbn [console calls pop with_faults].
    rewrite <- app_assoc. split; [reflexivity|].
    split; [eexists; split; [reflexivity | auto]|].
    split; [symmetry; apply app_nil_r|].
    split; reflexivity. }
  match goal with
  | |- context [match ?x with [] => _ | _ :: _ => _ end] => destruct x eqn:R
  end.
  { do 3 eexists. split; [reflexivity|].
    cbn [console calls pop with_faults].
    rewrite <- app_assoc. split; [reflexivity|].
    split; [eexists; split; [reflexivity | auto]|].
    split; [symmetry; apply app_nil_r|].
    split; [reflexivity|].
    intros [err H]. discriminate H. }
  unfold axios_post. cbn [service calls db pop with_faults console tx faults].
  destruct (service w) as [|behave rest].
  { do 3 eexists. split; [reflexivity|].
    cbn [console calls].
    rewrite <- app_assoc. split; [reflexivity|].
    split; [eexists; split; [reflexivity | auto]|].
    split; [reflexivity|].
    split; [reflexivity|].
    intros [err H]. discriminate H. }
  match goal with
  | |- context [behave ?req ?d] => destruct (behave req d) as [out d1]
  end.
  destruct out as [data | f].
  - do 3 eexists. split; [reflexivity|].
    cbn [console calls].
    rewrite <- app_assoc. split; [reflexivity|].
    split; [eexists; split; [reflexivity | auto]|].
    split; [reflexivity|].
    split; [reflexivity|].
    intros [err H]. discriminate H.
  - do 3 eexists. split; [reflexivity|].
    cbn [console calls].
    rewrite <- app_assoc. split; [reflexivity|].
    split; [eexists; split; [reflexivity | auto]|].
    split; [reflexivity|].
    split; reflexivity.
Qed.

Lemma employee_lines_attempted (e : string) (lines : list console_line) :
  employee_lines e lines -> attempted lines = [e] /\ settled lines = [e].
Proof.
  intros (outcome & -> & [-> | [-> | ->]]); split; reflexivity.
Qed.

(** The per-employee loop never throws, starts on every employee it is
    given, in order, and finishes with each of them. *)
Lemma individual_reports_run (ids : list string) :
  forall w, exists w1 lines p,
    individual_reports ids w = (Ok tt, w1)
    /\ console w1 = console w ++ lines
    /\ attempted lines = ids
    /\ settled lines = ids
    /\ calls w1 = calls w ++ p
    /\ forallb is_analyze p = true.
Proof.
  induction ids as [|e rest IH]; intros w.
  - exists w, [], []. cbn [individual_reports]. unfold ret.
    rewrite !app_nil_r. repeat split; reflexivity.
  - cbn [individual_reports]. unfold bind at 1.
    destruct (employee_turn e w)
      as (w1 & lines1 & p1 & Hrun1 & Hcon1 & Hlines1 & Hcalls1 & Hp1 & _).
    rewrite Hrun1.
    destruct (IH w1) as (w2 & lines2 & p2 & Hrun2 & Hcon2 & Hatt & Hset
                         & Hcalls2 & Hp2).
    rewrite Hrun2.
    apply employee_lines_attempted in Hlines1 as [Ha1 Hs1].
    exists w2, (lines1 ++ lines2), (p1 ++ p2).
    split; [reflexivity|].
    split; [rewrite Hcon2, Hcon1, app_assoc; reflexivity|].
    split; [unfold attempted in *; rewrite flat_map_app, Ha1, Hatt;
            reflexivity|].
    split; [unfold settled in *; rewrite flat_map_app, Hs1, Hset;
            reflexivity|].
    split; [rewrite Hcalls2, Hcalls1, app_assoc; reflexivity|].
    rewrite forallb_app, Hp1, Hp2. reflexivity.
Qed.

(** Once the list of employees has been read, the orchestrator goes
    through both phases and issues the company-level request, without
    reading the employees' flags again. *)
Lemma triggerCompanyAnalysis_run (companyId : option Z) (w : world) :
  hd false (faults w) = false ->
  let ids := select_filled_ids companyId (db w) in
  exists out w' lines p1 d2 closing,
    triggerCompanyAnalysis companyId w = (out, w')
    /\ console w'
       = console w ++ [LogStart companyId; LogFound (List.length ids)]
           ++ lines ++ [LogStep1Complete; LogSendingCompany; closing]
    /\ (closing = LogStep2Complete \/ closing = LogCompanyAnalysisError)
    /\ attempted lines = ids
    /\ settled lines = ids
    /\ calls w' = calls w ++ p1 ++ [(AnalyzeCompany companyId, d2)]
    /\ forallb is_analyze p1 = true.
Proof.
  intros F. cbv zeta.
  unfold triggerCompanyAnalysis, try_catch.
  unfold bind at 1. unfold log at 1. cbv beta iota.
  unfold bind at 1. rewrite select_ok by exact F. cbv beta iota.
  unfold bind at 1. unfold log at 1. cbv beta iota.
  unfold bind at 1.
  match goal with
  | |- context [individual_reports ?ids ?w0] =>
      destruct (individual_reports_run ids w0)
        as (w1 & lines & p1 & Hrun & Hcon & Hatt & Hset & Hcalls & Hp1)
  end.
  rewrite Hrun. cbv beta iota. clear Hrun.
  cbn [console calls db pop with_faults] in Hcon, Hcalls, Hatt, Hset.
  unfold bind, log, axios_post, ret, throw. cbv beta iota.
  cbn [console calls db service tx faults].
  destruct (service w1) as [|behave rest].
  - do 2 eexists. exists lines, p1, (db w1), LogStep2Complete.
    split; [reflexivity|].
    cbn [console calls].
    rewrite Hcon, Hcalls, <- !app_assoc. cbn [app].
    repeat split; auto.
  - destruct (behave (AnalyzeCompany companyId) (db w1)) as [out d].
    destruct out as [data | f].
    + do 2 eexists. exists lines, p1, (db w1), LogStep2Complete.
      split; [reflexivity|].
      cbn [console calls].
      rewrite Hcon, Hcalls, <- !app_assoc. cbn [app].
      repeat split; auto.
    + do 2 eexists. exists lines, p1, (db w1), LogCompanyAnalysisError.
      split; [reflexivity|].
      cbn [console calls].
      rewrite Hcon, Hcalls, <- !app_assoc. cbn [app].
      repeat split; auto.
Qed.

(** The guarded body of the loop never throws. *)
Lemma turn_run (e : string) (w : world) :
  try_catch (analyze_employee e) (fun _ => log (LogEmployeeFailed e)) w
  = (Ok tt, turn e w).
Proof.
  unfold turn.
  destruct (employee_turn e w) as (w1 & _ & _ & Hrun & _).
  rewrite Hrun. reflexivity.
Qed.

(** The loop gives every employee of its list a turn, in order, each from
    the world the turn before has left, and never throws. *)
Lemma individual_reports_turns (ids : list string) :
  forall w, individual_reports ids w = (Ok tt, turns ids w).
Proof.
  induction ids as [|e rest IH]; intros w.
  - reflexivity.
  - cbn [individual_reports turns fold_left]. unfold bind at 1.
    rewrite turn_run. apply IH.
Qed.

Lemma turns_app (a b : list string) (w : world) :
  turns (a ++ b) w = turns b (turns a w).
Proof. unfold turns. apply fold_left_app. Qed.

Lemma turns_trace (ids : list string) (w : world) :
  exists lines p,
    console (turns ids w) = console w ++ lines
    /\ attempted lines = ids
    /\ settled lines = ids
    /\ calls (turns ids w) = calls w ++ p
    /\ forallb is_analyze p = true.
Proof.
  destruct (individual_reports_run ids w) as (w1 & lines & p & Hrun & H).
  rewrite individual_reports_turns in Hrun. injection Hrun as <-.
  exists lines, p. exact H.
Qed.

(** A turn whose processing fails records the failure. *)
Lemma turn_failed (e : string) (w : world) :
  (exists err, fst (analyze_employee e w) = Throw err) ->
  console (turn e w) = console w ++ [LogGenerating e; LogEmployeeFailed e]
  /\ exists p, calls (turn e w) = calls w ++ p /\ forallb is_analyze p = true.
Proof.
  intros Hfail. unfold turn.
  destruct (employee_turn e w)
    as (w1 & lines & p & Hrun & Hcon & _ & Hcalls & Hp & Hlines).
  rewrite Hrun. cbn [snd]. rewrite Hcon, (Hlines Hfail).
  split; [reflexivity|]. exists p. split; assumption.
Qed.

(** A turn whose two reads are answered, for an employee with answers,
    sends the individual request. *)
Lemma turn_sends (e : string) (w : world) :
  hd false (faults w) = false ->
  hd false (tl (faults w)) = false ->
  select_answers e (db w) <> [] ->
  exists outcome,
    console (turn e w) = console w ++ [LogGenerating e; outcome]
    /\ (outcome = LogGenerated e \/ outcome = LogEmployeeFailed e)
    /\ calls (turn e w) = calls w ++ [(individual_request e (db w), db w)].
Proof.
  intros F0 F1 Hans. unfold turn, individual_request.
  unfold analyze_employee, try_catch, bind, log. cbv beta iota.
  rewrite select_ok by exact F0. cbv beta iota.
  rewrite select_ok by exact F1. cbv beta iota.
  cbn [db pop with_faults].
  destruct (select_answers e (db w)) as [|r rs] eqn:R; [contradiction|].
  cbv beta iota.
  unfold axios_post. cbn [service calls db pop with_faults console tx faults].
  destruct (service w) as [|behave rest].
  { exists (LogGenerated e). cbn [snd console calls].
    rewrite <- app_assoc. repeat split. left; reflexivity. }
  match goal with
  | |- context [behave ?req ?d] => destruct (behave req d) as [out d1]
  end.
  destruct out as [data | f].
  - exists (LogGenerated e). cbn [snd console calls].
    rewrite <- app_assoc. repeat split. left; reflexivity.
  - exists (LogEmployeeFailed e). cbn [snd console calls].
    rewrite <- app_assoc. repeat split. right; reflexivity.
Qed.

(** Once the list of employees has been read, the orchestrator runs the
    loop from [loop_start] and then sends the company-level request. *)
Lemma triggerCompanyAnalysis_turns (companyId : option Z) (w : world) :
  hd false (faults w) = false ->
  let wl :=
    turns (select_filled_ids companyId (db w)) (loop_start companyId w) in
  exists closing,
    console (snd (triggerCompanyAnalysis companyId w))
    = console wl ++ [LogStep1Complete; LogSendingCompany; closing]
    /\ calls (snd (triggerCompanyAnalysis companyId w))
       = calls wl ++ [(AnalyzeCompany companyId, db wl)].
Proof.
  intros F. cbv zeta.
  assert (Hstart : loop_start companyId w
                   = mkWorld (db w) (tx w) (tl (faults w)) (service w)
                       (calls w)
                       ((console w ++ [LogStart companyId])
                          ++ [LogFound
                                (List.length
                                   (select_filled_ids companyId (db w)))])).
  { unfold loop_start. unfold bind at 1. unfold log at 1. cbv beta iota.
    unfold bind at 1. rewrite select_ok by exact F. cbv beta iota.
    unfold log. reflexivity. }
  destruct (triggerCompanyAnalysis companyId w) as [out w'] eqn:R.
  cbn [snd].
  unfold triggerCompanyAnalysis, try_catch in R.
  unfold bind at 1 in R. unfold log at 1 in R. cbv beta iota in R.
  unfold bind at 1 in R. rewrite select_ok in R by exact F.
  cbv beta iota in R.
  unfold bind at 1 in R. unfold log at 1 in R. cbv beta iota in R.
  unfold bind at 1 in R.
  rewrite individual_reports_turns in R. cbv beta iota in R.
  match type of R with
  | context [turns ?ids ?w0] =>
      change (turns ids w0)
        with (turns (select_filled_ids companyId (db w))
                (mkWorld (db w) (tx w) (tl (faults w)) (service w)
                   (calls w)
                   ((console w ++ [LogStart companyId])
                      ++ [LogFound
                            (List.length
                               (select_filled_ids companyId (db w)))])))
        in R
  end.
  rewrite <- Hstart in R.
  set (wl := turns _ (loop_start companyId w)) in *.
  unfold bind, log, axios_post, ret, throw in R. cbv beta iota in R.
  cbn [console calls db service tx faults] in R.
  destruct (service wl) as [|behave rest].
  - injection R as <- <-. exists LogStep2Complete. cbn [console calls].
    rewrite <- !app_assoc. split; reflexivity.
  - destruct (behave (AnalyzeCompany companyId) (db wl)) as [o d].
    destruct o as [data | f]; injection R as <- <-.
    + exists LogStep2Complete. cbn [console calls].
      rewrite <- !app_assoc. split; reflexivity.
    + exists LogCompanyAnalysisError. cbn [console calls].
      rewrite <- !app_assoc. split; reflexivity.
Qed.

(** C8 (a failing employee does not stop the analysis).  Once the
    orchestrator has read the list of eligible employees, whatever the
    later statements and service calls do, the loop goes through all
    eligible employees in order and the company-level request is sent after
    it, exactly once.  And when the processing of an employee [e] fails,
    the failure is recorded and every employee [e'] that comes after [e] in
    the list still gets its turn: in particular, if the two reads of that
    turn are answered and [e'] has answers, the individual request for [e']
    is sent, after the failure of [e] and before the company-level
    request. *)
Theorem employee_failure_does_not_abort_analysis
    (companyId : option Z) (w : world) :
  hd false (faults w) = false ->
  let w' := snd (triggerCompanyAnalysis companyId w) in
  both_phases_run companyId w w'
  /\ forall before e mid e' rest,
       select_filled_ids companyId (db w) = before ++ e :: mid ++ e' :: rest ->
       let we := turns before (loop_start companyId w) in
       let w2 := turns (before ++ e :: mid) (loop_start companyId w) in
       (exists err, fst (analyze_employee e we) = Throw err) ->
       hd false (faults w2) = false ->
       hd false (tl (faults w2)) = false ->
       select_answers e' (db w2) <> [] ->
       exists l1 outcome l2 closing p1 p2 d2,
         console w'
         = console we ++ [LogGenerating e; LogEmployeeFailed e] ++ l1
             ++ [LogGenerating e'; outcome] ++ l2
             ++ [LogStep1Complete; LogSendingCompany; closing]
         /\ (outcome = LogGenerated e' \/ outcome = LogEmployeeFailed e')
         /\ attempted l1 = mid
         /\ attempted l2 = rest
         /\ calls w'
            = calls we ++ p1 ++ [(individual_request e' (db w2), db w2)]
                ++ p2 ++ [(AnalyzeCompany companyId, d2)]
         /\ forallb is_analyze p1 = true
         /\ forallb is_analyze p2 = true.
Proof.
  intros F. cbv zeta. split.
  - destruct (triggerCompanyAnalysis_run companyId w F)
      as (out & w' & lines & p1 & d2 & closing & Hrun & H).
    rewrite Hrun. exists lines, p1, d2, closing. exact H.
  - intros before e mid e' rest Hids Hfail F0 F1 Hans.
    destruct (triggerCompanyAnalysis_turns companyId w F)
      as (closing & Hcon & Hcalls).
    rewrite Hcon, Hcalls. clear Hcon Hcalls.
    rewrite Hids.
    set (w0 := loop_start companyId w) in *.
    assert (Hsplit : turns (before ++ e :: mid ++ e' :: rest) w0
                     = turns rest
                         (turn e' (turns (before ++ e :: mid) w0))).
    { replace (before ++ e :: mid ++ e' :: rest)
        with ((before ++ e :: mid) ++ e' :: rest)
        by (rewrite <- app_assoc; reflexivity).
      rewrite turns_app. reflexivity. }
    rewrite Hsplit. clear Hsplit.
    assert (H2 : turns (before ++ e :: mid) w0
                 = turns mid (turn e (turns before w0))).
    { rewrite turns_app. reflexivity. }
    set (w2 := turns (before ++ e :: mid) w0) in *.
    set (we := turns before w0) in *.
    destruct (turn_failed e we Hfail) as (Hce & pe & Hpe & Hpe_ok).
    destruct (turns_trace mid (turn e we))
      as (l1 & pm & Hc1 & Ha1 & _ & Hp1 & Hp1_ok).
    rewrite <- H2 in Hc1, Hp1.
    destruct (turn_sends e' w2 F0 F1 Hans) as (outcome & Hc2 & Ho & Hp2).
    destruct (turns_trace rest (turn e' w2))
      as (l2 & pr & Hc3 & Ha3 & _ & Hp3 & Hp3_ok).
    exists l1, outcome, l2, closing, (pe ++ pm), pr.
    eexists.
    split.
    { rewrite Hc3, Hc2, Hc1, Hce. rewrite <- !app_assoc. reflexivity. }
    split; [exact Ho|].
    split; [exact Ha1|].
    split; [exact Ha3|].
    split.
    { rewrite Hp3, Hp2, Hp1, Hpe. rewrite <- !app_assoc. reflexivity. }
    split; [|exact Hp3_ok].
    rewrite forallb_app, Hpe_ok, Hp1_ok. reflexivity.
Qed.

Lemma employee_failure_does_not_abort_analysis_witness :
  let w := sample_world [false; true; false; false] [] in
  let w' := snd (triggerCompanyAnalysis (Some 1) w) in
  (exists l1 outcome l2 closing p1 p2 d2,
      console w'
      = console (loop_start (Some 1) w)
          ++ [LogGenerating "e1"; LogEmployeeFailed "e1"] ++ l1
          ++ [LogGenerating "e2"; outcome] ++ l2
          ++ [LogStep1Complete; LogSendingCompany; closing]
      /\ (outcome = LogGenerated "e2" \/ outcome = LogEmployeeFailed "e2")
      /\ attempted l1 = []
      /\ attempted l2 = []
      /\ calls w'
         = [] ++ p1 ++ [(individual_request "e2" sample_db, sample_db)]
             ++ p2 ++ [(AnalyzeCompany (Some 1), d2)]
      /\ forallb is_analyze p1 = true
      /\ forallb is_analyze p2 = true)
  /\ console w'
     = [ LogStart (Some 1); LogFound 2;
         LogGenerating "e1"; LogEmployeeFailed "e1";
         LogGenerating "e2"; LogGenerated "e2";
         LogStep1Complete; LogSendingCompany; LogStep2Complete ]
  /\ map fst (calls w')
     = [ Analyze "e2" (Some "Acme") [(2, ("Workload?", "B"))];
         AnalyzeCompany (Some 1) ].
Proof.
  cbv zeta. split.
  - destruct (employee_failure_does_not_abort_analysis (Some 1)
                (sample_world [false; true; false; false] []) eq_refl)
      as [_ H].
    apply (H [] "e1" [] "e2" [] eq_refl).
    + exists SqlError. reflexivity.
    + reflexivity.
    + reflexivity.
    + discriminate.
  - split; vm_compute; reflexivity.
Defined.

(** ** Who checks completeness, and when *)

Lemma all_submitted_some (companyId : option Z) (d : database) :
  all_submitted (select_is_filled companyId d) = true ->
  exists c, companyId = Some c /\ isComplete d c.
Proof.
  destruct companyId as [c|]; intros H.
  - exists c. split; [reflexivity | apply all_submitted_isComplete, H].
  - rewrite select_is_filled_null in H. discriminate.
Qed.

Lemma gate_passed (companyId : option Z) (d : database) :
  Nat.eqb (List.length (select_is_filled companyId d)) 0 = false ->
  negb (Nat.eqb (count_filled (select_is_filled companyId d))
          (List.length (select_is_filled companyId d))) = false ->
  exists c, companyId = Some c /\ isComplete d c.
Proof.
  intros H0 H1. apply all_submitted_some. unfold all_submitted.
  apply negb_false_iff in H1. rewrite H1, andb_true_r.
  apply Nat.eqb_neq in H0. apply Nat.ltb_lt. lia.
Qed.

(** The manual endpoint sends nothing out unless its own check has
    passed. *)
Lemma company_analyze_checks_first (hrUser : token_payload) (w : world) :
  calls (snd (company_analyze hrUser w)) <> calls w ->
  exists c name,
    select_employee_company (tok_employeesID hrUser) (db w)
      = Some (Some c, name)
    /\ isComplete (db w) c.
Proof.
  unfold company_analyze, try_catch, bind, ret.
  repeat step; cbv beta iota;
    try (intros H; exfalso; apply H; reflexivity).
  intros _.
  match goal with
  | H0 : Nat.eqb _ 0 = false, H1 : negb _ = false |- _ =>
      destruct (gate_passed _ _ H0 H1) as (c & -> & Hc)
  end.
  do 2 eexists. split; [reflexivity | exact Hc].
Qed.

(** The automatic trigger starts the orchestrator only when its own check,
    made on the store the submission leaves, has passed. *)
Lemma submit_response_checks_first
    (req : submission) (w w' : world) (r : response) (spawned : option Z) :
  submit_response req w = (Ok (r, Some spawned), w') ->
  exists c, spawned = Some c /\ isComplete (db w') c.
Proof.
  unfold submit_response, try_catch, bind, ret. cbv zeta.
  repeat step; cbv beta iota; try (intros [= <- <- <-]; fail);
    try discriminate.
  all: match goal with
       | |- context [insertPromises ?e ?f ?l ?w0] =>
           destruct (insertPromises_run e f l w0) as (ps & Hrun & _);
           rewrite Hrun; clear Hrun
       end.
  all: cbv beta iota; destruct (await_rows 0 ps); cbv beta iota.
  all: try discriminate.
  all: repeat step; cbv beta iota; try discriminate.
  all: intros [= <- <- <-].
  all: match goal with
       | H : all_submitted _ = true |- _ => apply all_submitted_some in H
       end.
  all: assumption.
Qed.

(** C5, as the code has it.  The completion check is made by the two
    callers, before [triggerCompanyAnalysis] is called, that is before the
    per-employee phase: the manual endpoint sends no request at all unless
    its check on the current store has passed, and a submission starts the
    detached analysis only for a company its check has found complete.
    [triggerCompanyAnalysis] itself, once it has read the list of
    employees, sends the company-level request after the per-employee phase
    without looking at the flags again. *)
Theorem completeness_checked_before_phase_one_only :
  (forall hrUser w,
     calls (snd (company_analyze hrUser w)) <> calls w ->
     exists c name,
       select_employee_company (tok_employeesID hrUser) (db w)
         = Some (Some c, name)
       /\ isComplete (db w) c)
  /\ (forall req w w' r spawned,
        submit_response req w = (Ok (r, Some spawned), w') ->
        exists c, spawned = Some c /\ isComplete (db w') c)
  /\ (forall companyId w,
        hd false (faults w) = false ->
        exists p1 d2,
          calls (snd (triggerCompanyAnalysis companyId w))
          = calls w ++ p1 ++ [(AnalyzeCompany companyId, d2)]
          /\ forallb is_analyze p1 = true).
Proof.
  split; [exact company_analyze_checks_first|].
  split; [exact submit_response_checks_first|].
  intros companyId w F.
  destruct (triggerCompanyAnalysis_run companyId w F)
    as (out & w' & lines & p1 & d2 & closing & Hrun & _ & _ & _ & _ & Hc & Hp).
  rewrite Hrun. exists p1, d2. split; assumption.
Qed.

Lemma completeness_checked_before_phase_one_only_witness :
  (exists c name,
     select_employee_company "hrA" sample_db = Some (Some c, name)
     /\ isComplete sample_db c)
  /\ (exists c,
        Some 2 = Some c
        /\ isComplete
             (db (snd (submit_response b1_submits (sample_world [] [])))) c)
  /\ (exists p1 d2,
        calls (snd (triggerCompanyAnalysis (Some 1) (sample_world [] [])))
        = [] ++ p1 ++ [(AnalyzeCompany (Some 1), d2)]
        /\ forallb is_analyze p1 = true).
Proof.
  destruct completeness_checked_before_phase_one_only as (H1 & H2 & H3).
  split.
  - apply (H1 (mkToken "hrA" (Some HR)) (sample_world [] [])).
    vm_compute. discriminate.
  - split.
    + apply (H2 b1_submits (sample_world [] [])
               (snd (submit_response b1_submits (sample_world [] [])))
               (res_json (Message true "Responses saved successfully"))
               (Some 2)).
      vm_compute. reflexivity.
    + apply (H3 (Some 1) (sample_world [] [])). reflexivity.
Defined.

(** C5, as stated, fails on both paths.  Acme is complete when its HR user
    asks for the analysis, and Globex is complete once its only employee
    has submitted; in both runs an employee is reset while the first
    individual report is awaited, and the company-level request is sent
    all the same, at a moment when the completion check would say no. *)
Lemma company_phase_runs_on_incomplete_company :
  (let w := sample_world [] [concurrent_reset "e1"] in
   all_submitted (select_is_filled (Some 1) (db w)) = true
   /\ fst (company_analyze (mkToken "hrA" (Some HR)) w)
      = Ok (res_json (AnalysisCompleted (Some 1) (Some "Acme")))
   /\ company_calls (calls (snd (company_analyze (mkToken "hrA" (Some HR)) w)))
      = [(Some 1, false)])
  /\ (let w := sample_world [] [concurrent_reset "b1"] in
      fst (submit_response b1_submits w)
      = Ok (res_json (Message true "Responses saved successfully"),
            Some (Some 2))
      /\ company_calls (calls (snd (submit_and_analyze b1_submits w)))
         = [(Some 2, false)]).
Proof. cbv zeta. repeat split; vm_compute; reflexivity. Qed.

(** * Further properties of the handlers *)

(** ** Reading never writes *)

Ltac explore :=
  repeat step; cbv beta iota; try reflexivity.

(** X1.  The endpoints that only read -- the two status endpoints, the two
    report endpoints, the employee status, the individual report and the
    analysis trigger check -- leave the store as it is, whatever they
    answer and whichever statements are rejected. *)
Theorem read_endpoints_leave_store_unchanged :
  (forall p w, db (snd (admin_report_status p w)) = db w)
  /\ (forall p w, db (snd (admin_company_report p w)) = db w)
  /\ (forall o u w, db (snd (company_report_status o u w)) = db w)
  /\ (forall u w, db (snd (company_report u w)) = db w)
  /\ (forall u id w, db (snd (employee_status u id w)) = db w)
  /\ (forall u id w, db (snd (sentiment_report u id w)) = db w)
  /\ (forall u id w, db (snd (trigger_ai_analysis u id w)) = db w).
Proof.
  repeat split.
  - intros [n | name] w;
      unfold admin_report_status, resolve_company, try_catch, bind, ret;
      explore.
  - intros [n | name] w;
      unfold admin_company_report, resolve_company, try_catch, bind, ret;
      explore.
  - intros o u w. unfold company_report_status, try_catch, bind, ret. explore.
  - intros u w. unfold company_report, try_catch, bind, ret. explore.
  - intros u id w. unfold employee_status, try_catch, bind, ret.
    cbv zeta. explore.
  - intros u id w. unfold sentiment_report, try_catch, bind, ret. explore.
  - intros u id w. unfold trigger_ai_analysis, try_catch, bind, ret. explore.
Qed.

(** ** The report that is served *)

Lemma latest_is_max (A : Type) (created_at : A -> Z) (rows : list A) (r : A) :
  latest created_at rows = Some r ->
  In r rows /\ forall x, In x rows -> created_at x <= created_at r.
Proof.
  revert r. induction rows as [|a rows IH]; intros r; simpl.
  - discriminate.
  - destruct (latest created_at rows) as [r'|] eqn:E.
    + destruct (IH r' eq_refl) as [Hin Hmax].
      destruct (Z.ltb_spec (created_at a) (created_at r')); intros [= <-].
      * split; [right; assumption|].
        intros x [<- | Hx]; [lia | auto].
      * split; [left; reflexivity|].
        intros x [<- | Hx]; [lia|]. specialize (Hmax x Hx). lia.
    + intros [= <-]. apply latest_none in E. subst rows.
      split; [left; reflexivity|].
      intros x [<- | []]. lia.
Qed.

(** X2.  A company report that an endpoint serves is a stored row of the
    company asked for -- on the HR endpoint, the caller's own company -- and
    no stored row of that company (on the HR endpoint: none flagged as
    filled) was created later.  This holds for every plan of rejected
    statements. *)
Theorem served_company_report_is_own_and_latest :
  (forall u w companyId companyName report,
     fst (company_report u w)
     = Ok (res_json (CompanyReport companyId companyName report)) ->
     (exists name,
        select_employee_company (tok_employeesID u) (db w)
        = Some (companyId, name))
     /\ companyId = Some (cr_company_id report)
     /\ coalesce_filled (cr_is_filled report) = true
     /\ In report (company_reports_sentiment (db w))
     /\ (forall x, In x (company_reports_sentiment (db w)) ->
         cr_company_id x = cr_company_id report ->
         coalesce_filled (cr_is_filled x) = true ->
         cr_created_at x <= cr_created_at report))
  /\ (forall c w report,
        fst (admin_company_report (CompanyNumber c) w)
        = Ok (res_json (AdminReport report)) ->
        cr_company_id report = c
        /\ In report (company_reports_sentiment (db w))
        /\ (forall x, In x (company_reports_sentiment (db w)) ->
            cr_company_id x = c ->
            cr_created_at x <= cr_created_at report)).
Proof.
  split.
  - intros u w companyId companyName report.
    unfold company_report, try_catch, bind, ret.
    repeat step; cbv beta iota; simpl fst; try discriminate.
    intros [= <- <- <-].
    match goal with
    | H : select_filled_company_report _ _ = Some _ |- _ =>
        unfold select_filled_company_report in H;
        apply latest_is_max in H; destruct H as [Hin Hmax]
    end.
    apply filter_In in Hin as [Hin Hsel].
    apply andb_true_iff in Hsel as [Hc Hf].
    match goal with
    | H : select_employee_company _ _ = Some (?o, _) |- _ =>
        destruct o as [cid|]; [|simpl in Hc; discriminate Hc]
    end.
    simpl in Hc. apply Z.eqb_eq in Hc.
    split; [eexists; reflexivity|].
    split; [congruence|].
    split; [assumption|].
    split; [assumption|].
    intros x Hx Hxc Hxf. apply Hmax. apply filter_In. split; [assumption|].
    simpl. rewrite Hxc, Hc, Z.eqb_refl, Hxf. reflexivity.
  - intros c w report.
    unfold admin_company_report, resolve_company, try_catch, bind, ret.
    repeat step; cbv beta iota; simpl fst; try discriminate.
    intros [= <-].
    match goal with
    | H : select_company_report _ _ = Some _ |- _ =>
        unfold select_company_report in H;
        apply latest_is_max in H; destruct H as [Hin Hmax]
    end.
    apply filter_In in Hin as [Hin Hc]. simpl in Hc. apply Z.eqb_eq in Hc.
    split; [assumption|]. split; [assumption|].
    intros x Hx Hxc. apply Hmax. apply filter_In. split; [assumption|].
    simpl. apply Z.eqb_eq. assumption.
Qed.

Lemma served_company_report_is_own_and_latest_witness :
  cr_company_id acme_report = 1
  /\ In acme_report (company_reports_sentiment sample_db).
Proof.
  destruct (proj2 served_company_report_is_own_and_latest 1
              (sample_world [] []) acme_report eq_refl) as (H1 & H2 & _).
  split; assumption.
Defined.

(** X3.  An individual report that the HR endpoint serves is a stored
    report of the employee asked for, none of that employee's reports was
    created later, and the employee's row is in the same company as the
    caller's row; and when the endpoint answers that there is no report,
    the employee is in the caller's company and has no stored report.
    This holds for every plan of rejected statements. *)
Theorem served_sentiment_report_is_own_company :
  forall u id w r,
    fst (sentiment_report u id w) = Ok r ->
    match json r with
    | SentimentReport report =>
        lc_employeesID report = id
        /\ In report (responses_langchain_sentiment (db w))
        /\ (forall x, In x (responses_langchain_sentiment (db w)) ->
            lc_employeesID x = id ->
            lc_created_at x <= lc_created_at report)
        /\ option_map emp_company_id (select_employee id (db w))
           = option_map emp_company_id
               (select_employee (tok_employeesID u) (db w))
    | NoSentimentReport hasFilledForm =>
        (forall x, In x (responses_langchain_sentiment (db w)) ->
         lc_employeesID x <> id)
        /\ option_map emp_company_id (select_employee id (db w))
           = option_map emp_company_id
               (select_employee (tok_employeesID u) (db w))
        /\ option_map (fun e => coalesce_filled (is_filled e))
             (select_employee id (db w)) = Some hasFilledForm
    | _ => True
    end.
Proof.
  intros u id w r.
  unfold sentiment_report, try_catch, bind, ret.
  repeat step; cbv beta iota; simpl fst; intros [= <-]; simpl json;
    try exact I.
  all: change (db (pop (pop (pop w)))) with (db w) in *.
  all: change (db (pop (pop w))) with (db w) in *.
  all: change (db (pop w)) with (db w) in *.
  all: repeat match goal with
         | H : select_employee _ _ = Some _ |- _ => rewrite H in *
         end.
  all: try match goal with
           | H : Some _ = None |- _ => discriminate H
           end.
  all: match goal with
       | H : negb (js_strict_eq _ _) = false |- _ =>
           apply negb_false_iff, js_strict_eq_iff in H
       end.
  all: simpl option_map.
  - match goal with
    | H : select_sentiment_report _ _ = Some _ |- _ =>
        unfold select_sentiment_report in H;
        apply latest_is_max in H; destruct H as [Hin Hmax]
    end.
    apply filter_In in Hin as [Hin Hid]. apply String.eqb_eq in Hid.
    split; [assumption|]. split; [assumption|].
    split; [|congruence].
    intros x Hx Hxid. apply Hmax. apply filter_In. split; [assumption|].
    apply String.eqb_eq. assumption.
  - match goal with
    | H : select_sentiment_report _ _ = None |- _ =>
        unfold select_sentiment_report in H; apply latest_none in H;
        rename H into Hnone
    end.
    split; [|split; [congruence|]].
    + intros x Hx Hxid.
      assert (Hin : In x (filter (fun r => String.eqb (lc_employeesID r) id)
                            (responses_langchain_sentiment (db w)))).
      { apply filter_In. split; [assumption | apply String.eqb_eq; assumption]. }
      rewrite Hnone in Hin. exact Hin.
    + match goal with
      | H : Some _ = Some _ |- _ => injection H as <-
      end.
      reflexivity.
Qed.

Lemma served_sentiment_report_is_own_company_witness :
  In (mkLangchain "e1" 10 "e1 cycle 1")
    (responses_langchain_sentiment sample_db)
  /\ option_map emp_company_id (select_employee "e1" sample_db)
     = option_map emp_company_id (select_employee "hrA" sample_db).
Proof.
  destruct (served_sentiment_report_is_own_company
              (mkToken "hrA" (Some HR)) "e1" (sample_world [] [])
              (res_json (SentimentReport (mkLangchain "e1" 10 "e1 cycle 1")))
              eq_refl) as (_ & H2 & _ & H4).
  split; assumption.
Defined.

(** ** A submission that goes through *)

Lemma all_false_tl (plan : list bool) :
  Forall (fun b => b = false) plan -> Forall (fun b => b = false) (tl plan).
Proof. intros H. destruct plan; [constructor | inversion H; assumption]. Qed.

Lemma all_false_hd (plan : list bool) :
  Forall (fun b => b = false) plan -> hd false plan = false.
Proof. intros H. destruct plan; [reflexivity | inversion H; assumption]. Qed.

Lemma persisted_all (employee : string) (form : Z) (l : list answer) :
  forall plan,
    Forall (fun b => b = false) plan ->
    persisted employee form l plan = map (row_of employee form) l
    /\ first_rejected (List.length l) plan = None.
Proof.
  induction l as [|a l IH]; intros plan H; simpl.
  - split; reflexivity.
  - rewrite (all_false_hd plan H).
    destruct (IH (tl plan) (all_false_tl plan H)) as [-> ->].
    split; reflexivity.
Qed.

Lemma all_false_skipn (n : nat) (plan : list bool) :
  Forall (fun b => b = false) plan ->
  Forall (fun b => b = false) (skipn n plan).
Proof.
  revert n. induction plan as [|b fs IH]; intros n H.
  - rewrite skipn_nil. constructor.
  - destruct n; simpl; [assumption|]. apply IH. inversion H; assumption.
Qed.

Lemma submit_response_run
    (req : submission) (employee : string) (form : Z) (l : list answer)
    (w : world) :
  resolves req employee form l ->
  has_employeesID_column (db w) = true ->
  fault_free w ->
  exists w',
    submit_response req w
    = (Ok (res_json (Message true "Responses saved successfully"),
           trigger_decision employee (after_submission employee form l (db w))),
       w')
    /\ db w' = after_submission employee form l (db w)
    /\ fault_free w'.
Proof.
  intros R Hcol FF.
  rewrite (submit_response_resolved req employee form l w R Hcol
             (fault_free_hd w FF)).
  destruct (insertPromises_run employee form l (pop w)) as [ps [Hrun Hawait]].
  unfold try_catch at 1, bind at 1. rewrite Hrun. clear Hrun.
  rewrite Hawait. clear Hawait.
  assert (FFp : Forall (fun b => b = false) (faults (pop w))).
  { apply fault_free_pop. assumption. }
  destruct (persisted_all employee form l (faults (pop w)) FFp) as [-> ->].
  cbn [option_map].
  set (w1 := with_faults _ _).
  assert (FF1 : fault_free w1).
  { unfold w1, fault_free. cbn [faults with_faults].
    apply all_false_skipn. assumption. }
  unfold try_catch, bind, ret.
  run_ok. cbv beta iota.
  set (w2 := with_db _ (pop w1)).
  assert (FF2 : fault_free w2) by (unfold w2; auto with faults).
  assert (Hdb : db w2 = after_submission employee form l (db w)).
  { reflexivity. }
  run_ok. cbv beta iota.
  change (db w2) with (after_submission employee form l (db w)).
  unfold trigger_decision.
  destruct (select_employee employee (after_submission employee form l (db w)))
    as [row|]; cbv beta iota zeta.
  - run_ok. cbv beta iota.
    change (db (pop w2)) with (after_submission employee form l (db w)).
    destruct (all_submitted _); cbv beta iota;
      eexists; (split; [reflexivity | split; [reflexivity|]]);
      auto 12 with faults.
  - eexists. split; [reflexivity | split; [reflexivity|]].
    auto 12 with faults.
Qed.

(** X4.  A submission whose statements all go through is answered 200 and
    stores one row per answer, after the rows already there (an empty text
    or choice is stored as NULL): the rows added are those of the answers,
    each as often as its answer occurs, in some order.  It flags as filled
    every employee row with the submitted identifier and changes nothing
    else. *)
Theorem submit_saves_every_answer
    (req : submission) (employee : string) (form : Z) (l : list answer)
    (w : world) :
  resolves req employee form l ->
  has_employeesID_column (db w) = true ->
  fault_free w ->
  exists spawned w' added,
    submit_response req w
    = (Ok (res_json (Message true "Responses saved successfully"), spawned),
       w')
    /\ Responses_Sentiment (db w') = Responses_Sentiment (db w) ++ added
    /\ Permutation added (map (row_of employee form) l)
    /\ employees (db w')
       = map (fun e => if has_id employee e then set_filled true e else e)
           (employees (db w))
    /\ responses_langchain_sentiment (db w')
       = responses_langchain_sentiment (db w)
    /\ company_reports_sentiment (db w') = company_reports_sentiment (db w)
    /\ companies (db w') = companies (db w).
Proof.
  intros R Hcol FF.
  destruct (submit_response_run req employee form l w R Hcol FF)
    as (w' & Hrun & Hdb & _).
  exists (trigger_decision employee (after_submission employee form l (db w))),
    w', (map (row_of employee form) l).
  split; [exact Hrun|].
  rewrite Hdb. repeat split; reflexivity.
Qed.

Lemma submit_saves_every_answer_witness :
  exists spawned w' added,
    submit_response two_answers (sample_world [] [])
    = (Ok (res_json (Message true "Responses saved successfully"), spawned),
       w')
    /\ Responses_Sentiment (db w') = Responses_Sentiment sample_db ++ added
    /\ Permutation added
         [mkResponse "b1" 1 101 (Some "ok") None;
          mkResponse "b1" 1 102 None (Some "A")].
Proof.
  destruct (submit_saves_every_answer two_answers "b1" 1
              [mkAnswer 101 (Some "ok") None; mkAnswer 102 None (Some "A")]
              (sample_world [] []))
    as (spawned & w' & added & Hrun & Hresp & Hperm & _).
  - repeat split; discriminate.
  - reflexivity.
  - constructor.
  - exists spawned, w', added. repeat split; assumption.
Defined.

Lemma flag_keeps_selection (who : string) (companyId : option Z)
    (es : list employee) :
  filter (in_company_non_hr companyId)
    (map (fun e => if has_id who e then set_filled true e else e) es)
  = map (fun e => if has_id who e then set_filled true e else e)
      (filter (in_company_non_hr companyId) es).
Proof.
  induction es as [|e es IH]; simpl.
  - reflexivity.
  - assert (E : in_company_non_hr companyId
                  (if has_id who e then set_filled true e else e)
                = in_company_non_hr companyId e).
    { destruct (has_id who e); reflexivity. }
    rewrite E. destruct (in_company_non_hr companyId e); simpl;
      rewrite IH; reflexivity.
Qed.

(** The company is complete after the submission exactly when it has a
    non-HR employee and each of them either is the one submitting or was
    filled already. *)
Lemma complete_after_submission
    (who : string) (form : Z) (l : list answer) (c : Z) (d : database) :
  isComplete (after_submission who form l d) c <->
  company_non_hr d c <> []
  /\ Forall (fun e => employeesID e = who
                      \/ coalesce_filled (is_filled e) = true)
       (company_non_hr d c).
Proof.
  unfold isComplete, company_non_hr, select_non_hr, after_submission.
  cbn [employees with_employees with_responses].
  rewrite flag_keeps_selection.
  set (es := filter (in_company_non_hr (Some c)) (employees d)).
  rewrite Forall_map.
  split; intros [Hne Hall]; split.
  - intros E. apply Hne. rewrite E. reflexivity.
  - eapply Forall_impl; [|exact Hall]. intros e He. cbv beta in He.
    destruct (has_id who e) eqn:Hid.
    + left. apply String.eqb_eq. exact Hid.
    + right. exact He.
  - intros E. apply Hne. destruct es; [reflexivity | discriminate].
  - eapply Forall_impl; [|exact Hall]. intros e [He | He]; cbv beta.
    + unfold has_id. rewrite He, String.eqb_refl. reflexivity.
    + destruct (has_id who e); [reflexivity | exact He].
Qed.

(** X5.  When every statement of a submission goes through and the
    submitting identifier has an employee row in company [c], the detached
    analysis is started, for [c], exactly when [c] has a non-HR employee and
    every non-HR employee of [c] other than the one submitting was filled
    already; otherwise nothing is started. *)
Theorem analysis_started_exactly_by_last_submission
    (req : submission) (who : string) (form : Z) (l : list answer)
    (row : employee) (c : Z) (w : world) :
  resolves req who form l ->
  has_employeesID_column (db w) = true ->
  fault_free w ->
  select_employee who (db w) = Some row ->
  emp_company_id row = Some c ->
  let others_filled :=
    company_non_hr (db w) c <> []
    /\ Forall (fun e => employeesID e = who
                        \/ coalesce_filled (is_filled e) = true)
         (company_non_hr (db w) c) in
  (others_filled ->
   fst (submit_response req w)
   = Ok (res_json (Message true "Responses saved successfully"),
         Some (Some c)))
  /\ (~ others_filled ->
      fst (submit_response req w)
      = Ok (res_json (Message true "Responses saved successfully"), None)).
Proof.
  intros R Hcol FF Hrow Hc. cbv zeta.
  destruct (submit_response_run req who form l w R Hcol FF)
    as (w' & Hrun & _ & _).
  rewrite Hrun. cbn [fst].
  unfold trigger_decision.
  assert (Hsel : select_employee who (after_submission who form l (db w))
                 = Some (set_filled true row)).
  { unfold select_employee, after_submission in *.
    cbn [employees with_employees with_responses].
    rewrite find_after_update, Hrow. reflexivity. }
  rewrite Hsel.
  change (emp_company_id (set_filled true row)) with (emp_company_id row).
  rewrite Hc.
  pose proof (all_submitted_isComplete
                (after_submission who form l (db w)) c) as Hiff.
  pose proof (complete_after_submission who form l c (db w)) as Hafter.
  destruct (all_submitted
              (select_is_filled (Some c) (after_submission who form l (db w)))).
  - split; [reflexivity|].
    intros Hnot. exfalso. apply Hnot, Hafter, Hiff. reflexivity.
  - split; [|reflexivity].
    intros Hyes. apply Hafter, Hiff in Hyes. discriminate.
Qed.

Lemma analysis_started_exactly_by_last_submission_witness :
  fst (submit_response b1_submits (sample_world [] []))
  = Ok (res_json (Message true "Responses saved successfully"),
        Some (Some 2)).
Proof.
  apply (analysis_started_exactly_by_last_submission b1_submits "b1" 1
           [mkAnswer 101 (Some "ok") None]
           (mkEmployee "b1" Employee (Some 2) None) 2 (sample_world [] [])).
  - repeat split; discriminate.
  - reflexivity.
  - constructor.
  - reflexivity.
  - reflexivity.
  - split; [discriminate|]. repeat constructor.
Defined.

(** ** After a reset *)

Lemma commit_ok (w : world) :
  hd false (faults w) = false -> commit w = (Ok tt, with_tx None (pop w)).
Proof. intros H. unfold commit, next_fault. rewrite H. reflexivity. Qed.

Lemma id_in_iff (ids : list string) (id : string) :
  id_in ids id = true <-> In id ids.
Proof.
  unfold id_in. rewrite existsb_exists. split.
  - intros (x & Hx & E). apply String.eqb_eq in E. subst. assumption.
  - intros H. exists id. split; [assumption | apply String.eqb_refl].
Qed.

Ltac run_through :=
  first [ rewrite select_ok by auto 40 with faults
        | rewrite execute_ok by auto 40 with faults ].

Lemma company_reset_run
    (companyParam : company_param) (onlyFilled : bool) (c : Z) (w : world) :
  tx w = None ->
  fault_free w ->
  resolved companyParam (db w) = Some c ->
  select_reset_ids onlyFilled (Some c) (db w) <> [] ->
  exists n a b k u w',
    company_reset companyParam onlyFilled w
    = (Ok (res_json (ResetSummary n a b k u)), w')
    /\ db w'
       = after_company_reset (select_reset_ids onlyFilled (Some c) (db w)) c
           (db w)
    /\ tx w' = None.
Proof.
  intros Htx FF Hres Hids.
  unfold company_reset, finally, resolve_company, try_catch, bind, ret.
  rewrite getConnection_ok by auto with faults. cbv beta iota.
  destruct companyParam as [n | name]; cbn [resolved] in Hres.
  - injection Hres as ->.
    rewrite beginTransaction_ok by auto with faults. cbv beta iota.
    run_ok. cbv beta iota.
    match goal with
    | |- context [select_reset_ids onlyFilled (Some c) ?d] =>
        change d with (db w)
    end.
    destruct (select_reset_ids onlyFilled (Some c) (db w)) as [|id0 ids] eqn:E;
      [exfalso; apply Hids; reflexivity|].
    do 4 (run_through; cbv beta iota).
    rewrite commit_ok by auto 40 with faults. cbv beta iota.
    do 6 eexists. split; [reflexivity|]. split; reflexivity.
  - run_ok. cbv beta iota. change (db (pop w)) with (db w). rewrite Hres.
    rewrite beginTransaction_ok by auto with faults. cbv beta iota.
    run_ok. cbv beta iota.
    match goal with
    | |- context [select_reset_ids onlyFilled (Some c) ?d] =>
        change d with (db w)
    end.
    destruct (select_reset_ids onlyFilled (Some c) (db w)) as [|id0 ids] eqn:E;
      [exfalso; apply Hids; reflexivity|].
    do 4 (run_through; cbv beta iota).
    rewrite commit_ok by auto 40 with faults. cbv beta iota.
    do 6 eexists. split; [reflexivity|]. split; reflexivity.
Qed.

(** X6.  After a company-wide reset that selects somebody and whose
    statements all go through, the company is not complete, every employee
    row with a selected identifier has [is_filled] 0, and no answer and no
    individual report of a selected identifier is left. *)
Theorem company_reset_leaves_company_incomplete
    (companyParam : company_param) (onlyFilled : bool) (c : Z) (w : world) :
  tx w = None ->
  fault_free w ->
  resolved companyParam (db w) = Some c ->
  select_reset_ids onlyFilled (Some c) (db w) <> [] ->
  let ids := select_reset_ids onlyFilled (Some c) (db w) in
  let d' := db (snd (company_reset companyParam onlyFilled w)) in
  ~ isComplete d' c
  /\ (forall e, In e (employees d') -> In (employeesID e) ids ->
      is_filled e = Some false)
  /\ (forall x, In x (Responses_Sentiment d') -> ~ In (rs_employeesID x) ids)
  /\ (forall x, In x (responses_langchain_sentiment d') ->
      ~ In (lc_employeesID x) ids).
Proof.
  intros Htx FF Hres Hids. cbv zeta.
  destruct (company_reset_run companyParam onlyFilled c w Htx FF Hres Hids)
    as (n & a & b & k & u & w' & Hrun & Hdb & _).
  rewrite Hrun. cbn [snd]. rewrite Hdb. clear Hrun Hdb.
  set (ids := select_reset_ids onlyFilled (Some c) (db w)) in *.
  repeat split.
  - intros [_ Hall].
    destruct ids as [|id0 rest] eqn:E; [apply Hids; reflexivity|].
    assert (Hin : In id0 (select_reset_ids onlyFilled (Some c) (db w))).
    { fold ids. rewrite E. left. reflexivity. }
    apply select_reset_ids_spec in Hin
      as (e & He & Hid & Hc & Hrole & _).
    rewrite Forall_forall in Hall.
    specialize (Hall (set_filled false e)).
    assert (Hmem : In (set_filled false e)
                     (company_non_hr
                        (after_company_reset (id0 :: rest) c (db w)) c)).
    { unfold company_non_hr, select_non_hr. apply filter_In. split.
      - cbn [after_company_reset employees]. apply in_map_iff.
        exists e. split; [|assumption].
        assert (T : id_in (id0 :: rest) (employeesID e) = true).
        { apply id_in_iff. rewrite Hid. left. reflexivity. }
        rewrite T. reflexivity.
      - unfold in_company_non_hr, non_hr. simpl. rewrite Hc. simpl.
        rewrite Z.eqb_refl. simpl.
        destruct (emp_role e); try reflexivity. contradiction. }
    specialize (Hall Hmem). discriminate Hall.
  - intros e He Hin. cbn [after_company_reset employees] in He.
    apply in_map_iff in He as (e0 & <- & _).
    destruct (id_in ids (employeesID e0)) eqn:T; [reflexivity|].
    apply id_in_iff in Hin. simpl in Hin. congruence.
  - intros x Hx Hin. cbn [after_company_reset Responses_Sentiment] in Hx.
    apply filter_In in Hx as [_ Hx]. apply negb_true_iff in Hx.
    apply id_in_iff in Hin. congruence.
  - intros x Hx Hin.
    cbn [after_company_reset responses_langchain_sentiment] in Hx.
    apply filter_In in Hx as [_ Hx]. apply negb_true_iff in Hx.
    apply id_in_iff in Hin. congruence.
Qed.

Lemma company_reset_leaves_company_incomplete_witness :
  isComplete sample_db 1
  /\ ~ isComplete
         (db (snd (company_reset (CompanyName "Acme") true
                     (sample_world [] [])))) 1.
Proof.
  split.
  - apply all_submitted_isComplete. reflexivity.
  - apply (company_reset_leaves_company_incomplete (CompanyName "Acme") true 1
             (sample_world [] [])).
    + reflexivity.
    + constructor.
    + reflexivity.
    + discriminate.
Defined.

(** ** The filled flag, from submission to reset *)

Lemma filter_all (A : Type) (f : A -> bool) (l : list A) :
  (forall x, In x l -> f x = true) -> filter f l = l.
Proof.
  induction l as [|x l IH]; simpl; intros H.
  - reflexivity.
  - rewrite (H x) by auto. f_equal. apply IH. intros y Hy. apply H. auto.
Qed.

(** X7.  An employee with an employee row who submits, every statement
    going through, is then reported as filled by the own-status endpoint;
    when an HR user then resets that employee, the endpoint reports not
    filled, and if the employee had no stored answer before submitting the
    answers table is back to what it was before the submission. *)
Theorem filled_flag_round_trip
    (req : submission) (who : string) (form : Z) (l : list answer)
    (row : employee) (c : Z) (w : world) :
  resolves req who form l ->
  has_employeesID_column (db w) = true ->
  fault_free w ->
  select_employee who (db w) = Some row ->
  emp_company_id row = Some c ->
  c <> 0 ->
  let w1 := snd (submit_response req w) in
  let w2 := snd (reset_employee_responses who w1) in
  (forall role w', db w' = db w1 -> fault_free w' ->
     fst (my_status (mkToken who role) w') = Ok (res_json (IsFilled true)))
  /\ (forall role w', db w' = db w2 -> fault_free w' ->
        fst (my_status (mkToken who role) w') = Ok (res_json (IsFilled false)))
  /\ ((forall x, In x (Responses_Sentiment (db w)) -> rs_employeesID x <> who) ->
      Responses_Sentiment (db w2) = Responses_Sentiment (db w)).
Proof.
  intros R Hcol FF Hrow Hc Hnz. cbv zeta.
  destruct (submit_response_run req who form l w R Hcol FF)
    as (w1 & Hrun & Hdb1 & FF1).
  rewrite Hrun. cbn [snd].
  assert (Hrow1 : select_employee who (db w1) = Some (set_filled true row)).
  { rewrite Hdb1. unfold select_employee, after_submission in *.
    cbn [employees with_employees with_responses].
    rewrite find_after_update, Hrow. reflexivity. }
  assert (Hne : who <> "").
  { destruct R as (He & _). unfold or_null in He.
    destruct (or_else truthy_str (employee_id req) (employeeId req))
      as [s|]; simpl in He.
    - destruct (String.eqb s "") eqn:E; simpl in He; [discriminate|].
      injection He as <-. apply String.eqb_neq. assumption.
    - discriminate. }
  destruct (reset_employee_responses_run who (set_filled true row) c w1
              FF1 Hne Hrow1 Hc Hnz) as (n & m & _ & Hdb2).
  rewrite Hdb2.
  split; [|split].
  - intros role w' Hdb FFw.
    unfold my_status, try_catch, bind, ret. run_ok. cbv beta iota.
    cbn [tok_employeesID]. rewrite Hdb, Hrow1. reflexivity.
  - intros role w' Hdb FFw.
    unfold my_status, try_catch, bind, ret. run_ok. cbv beta iota.
    cbn [tok_employeesID]. rewrite Hdb.
    unfold select_employee in *.
    cbn [after_reset_one employees].
    rewrite find_after_update, Hrow1. reflexivity.
  - intros Hnone. cbn [after_reset_one Responses_Sentiment].
    rewrite Hdb1. unfold after_submission.
    cbn [Responses_Sentiment with_employees with_responses].
    rewrite filter_app.
    rewrite (filter_all _ _ (Responses_Sentiment (db w))).
    + rewrite filter_none; [apply app_nil_r|].
      intros x Hx. apply in_map_iff in Hx as (a & <- & _).
      unfold row_of. simpl. rewrite String.eqb_refl. reflexivity.
    + intros x Hx. apply negb_true_iff, String.eqb_neq. auto.
Qed.

Lemma filled_flag_round_trip_witness :
  let w1 := snd (submit_response b1_submits (sample_world [] [])) in
  let w2 := snd (reset_employee_responses "b1" w1) in
  fst (my_status (mkToken "b1" (Some Employee)) (mkWorld (db w1) None [] [] [] []))
  = Ok (res_json (IsFilled true))
  /\ fst (my_status (mkToken "b1" (Some Employee))
            (mkWorld (db w2) None [] [] [] []))
     = Ok (res_json (IsFilled false))
  /\ Responses_Sentiment (db w2) = Responses_Sentiment sample_db.
Proof.
  cbv zeta.
  destruct (filled_flag_round_trip b1_submits "b1" 1
              [mkAnswer 101 (Some "ok") None]
              (mkEmployee "b1" Employee (Some 2) None) 2 (sample_world [] []))
    as (H1 & H2 & H3).
  - repeat split; discriminate.
  - reflexivity.
  - constructor.
  - reflexivity.
  - reflexivity.
  - discriminate.
  - split; [apply H1; [reflexivity | constructor]|].
    split; [apply H2; [reflexivity | constructor]|].
    apply H3. intros x Hx.
    simpl in Hx. destruct Hx as [<- | [<- | [<- | []]]]; discriminate.
Defined.

(** ** What the single-employee reset never touches *)

Ltac reset_one_explore :=
  unfold reset_employee_responses, try_catch, bind, ret;
  repeat step; cbv beta iota;
  cbn [db snd fst pop with_db with_faults delete_responses delete_langchain
         update_filled delete_company_reports with_responses with_langchain
         with_employees with_company_reports Responses_Sentiment
         responses_langchain_sentiment employees company_reports_sentiment].

(** X8.  Whatever statements are rejected, the single-employee reset
    deletes no answer and no individual report of another identifier,
    leaves every employee row of another identifier as it is, adds no
    answer, and deletes no report of a company other than the one of the
    employee's row. *)
Theorem reset_employee_touches_nobody_else (id : string) (w : world) :
  let d' := db (snd (reset_employee_responses id w)) in
  (forall x, In x (Responses_Sentiment (db w)) -> rs_employeesID x <> id ->
     In x (Responses_Sentiment d'))
  /\ (forall x, In x (Responses_Sentiment d') ->
      In x (Responses_Sentiment (db w)))
  /\ (forall x, In x (responses_langchain_sentiment (db w)) ->
      lc_employeesID x <> id -> In x (responses_langchain_sentiment d'))
  /\ (forall e, In e (employees (db w)) -> employeesID e <> id ->
      In e (employees d'))
  /\ (forall x, In x (company_reports_sentiment (db w)) ->
      option_map emp_company_id (select_employee id (db w))
        <> Some (Some (cr_company_id x)) ->
      In x (company_reports_sentiment d')).
Proof.
  cbv zeta. split; [|split; [|split; [|split]]].
  - intros x Hx Hne. revert Hx. reset_one_explore; intros Hx;
      try assumption;
      (apply filter_In; split;
       [assumption | apply negb_true_iff, String.eqb_neq; assumption]).
  - intros x. reset_one_explore; intros Hx; try assumption;
      apply filter_In in Hx; tauto.
  - intros x Hx Hne. revert Hx. reset_one_explore; intros Hx;
      try assumption;
      (apply filter_In; split;
       [assumption | apply negb_true_iff, String.eqb_neq; assumption]).
  - intros e He Hne. revert He. reset_one_explore; intros He;
      try assumption;
      (apply in_map_iff; exists e; split; [|assumption];
       unfold has_id;
       destruct (String.eqb (employeesID e) id) eqn:E;
       [apply String.eqb_eq in E; contradiction | reflexivity]).
  - intros x Hx Hne. revert Hx Hne. reset_one_explore; intros Hx Hne;
      try assumption.
    all: match goal with
         | H : select_employee _ _ = Some ?row |- _ =>
             unfold select_employee in H;
             cbn [db snd fst pop with_db with_faults delete_responses
                    delete_langchain update_filled with_responses
                    with_langchain with_employees employees] in H;
             rewrite find_after_update in H;
             fold (select_employee id (db w)) in H;
             revert Hne;
             destruct (select_employee id (db w)) as [row0|];
             intros Hne;
             [injection H as <- | discriminate H]
         end.
    all: apply filter_In; split; [assumption|].
    all: change (emp_company_id (set_filled false row0))
           with (emp_company_id row0).
    all: apply negb_true_iff.
    all: destruct (emp_company_id row0) as [c0|] eqn:Ec; simpl;
      [|reflexivity].
    all: apply Z.eqb_neq; intros E; apply Hne; simpl; congruence.
Qed.

Lemma reset_employee_touches_nobody_else_witness :
  In (mkResponse "e2" 1 102 None (Some "B"))
    (Responses_Sentiment
       (db (snd (reset_employee_responses "e1" (sample_world [] []))))).
Proof.
  apply (proj1 (reset_employee_touches_nobody_else "e1" (sample_world [] []))).
  - right. right. left. reflexivity.
  - discriminate.
Defined.

(** X9.  The single-employee reset runs outside any transaction: when its
    two deletions go through and the [UPDATE] that clears the flag is
    rejected, the request is answered 500 and the deletions stay, so that
    the employees keep their flags -- a filled employee stays filled --
    while the answers and individual reports of the identifier are gone
    and the company's report is still there. *)
Theorem reset_employee_rejected_update_keeps_deletions
    (id : string) (w : world) :
  id <> "" ->
  hd false (faults w) = false ->
  hd false (tl (faults w)) = false ->
  hd false (tl (tl (faults w))) = true ->
  let d' := db (snd (reset_employee_responses id w)) in
  fst (reset_employee_responses id w)
  = Ok (mkHttp 500 (Message false "Server error"))
  /\ Responses_Sentiment d'
     = filter (fun x => negb (String.eqb (rs_employeesID x) id))
         (Responses_Sentiment (db w))
  /\ responses_langchain_sentiment d'
     = filter (fun x => negb (String.eqb (lc_employeesID x) id))
         (responses_langchain_sentiment (db w))
  /\ employees d' = employees (db w)
  /\ company_reports_sentiment d' = company_reports_sentiment (db w).
Proof.
  intros Hid F0 F1 F2. cbv zeta.
  unfold reset_employee_responses, try_catch, bind, ret.
  destruct (String.eqb id "") eqn:E.
  { apply String.eqb_eq in E. contradiction. }
  rewrite execute_ok by exact F0. cbv beta iota.
  rewrite execute_ok by exact F1. cbv beta iota.
  rewrite execute_rejected by exact F2. cbv beta iota.
  repeat split; reflexivity.
Qed.

Lemma reset_employee_rejected_update_keeps_deletions_witness :
  let w := sample_world [false; false; true] [] in
  let d' := db (snd (reset_employee_responses "e1" w)) in
  fst (reset_employee_responses "e1" w)
  = Ok (mkHttp 500 (Message false "Server error"))
  /\ In (mkEmployee "e1" Employee (Some 1) (Some true)) (employees d')
  /\ Responses_Sentiment d'
     = [mkResponse "hrA" 1 101 (Some "fine") None;
        mkResponse "e2" 1 102 None (Some "B")].
Proof.
  cbv zeta.
  destruct (reset_employee_rejected_update_keeps_deletions "e1"
              (sample_world [false; false; true] []))
    as (H1 & H2 & _ & H4 & _); try reflexivity; try discriminate.
  split; [exact H1|]. split.
  - rewrite H4. simpl. auto.
  - rewrite H2. reflexivity.
Defined.

Lemma filter_twice (A : Type) (f : A -> bool) (l : list A) :
  filter f (filter f l) = filter f l.
Proof.
  apply filter_all. intros x Hx. apply filter_In in Hx. tauto.
Qed.

(** X10.  Resetting the same employee again, every statement going through
    both times, changes nothing more: the store after the second reset is
    the store after the first. *)
Theorem reset_employee_twice_is_once
    (id : string) (row : employee) (c : Z) (w : world) :
  fault_free w ->
  id <> "" ->
  select_employee id (db w) = Some row ->
  emp_company_id row = Some c ->
  c <> 0 ->
  forall w1,
    db w1 = db (snd (reset_employee_responses id w)) ->
    fault_free w1 ->
    db (snd (reset_employee_responses id w1)) = db w1.
Proof.
  intros FF Hid Hrow Hc Hnz w1 Hdb FF1.
  destruct (reset_employee_responses_run id row c w FF Hid Hrow Hc Hnz)
    as (n & m & _ & Hd).
  rewrite Hd in Hdb.
  assert (Hrow1 : select_employee id (db w1) = Some (set_filled false row)).
  { rewrite Hdb. unfold select_employee in *.
    cbn [after_reset_one employees].
    rewrite find_after_update, Hrow. reflexivity. }
  destruct (reset_employee_responses_run id (set_filled false row) c w1
              FF1 Hid Hrow1 Hc Hnz) as (n1 & m1 & _ & Hd1).
  rewrite Hd1, Hdb. unfold after_reset_one.
  cbn [employees Responses_Sentiment responses_langchain_sentiment
         company_reports_sentiment companies FormQuestions_Sentiment
         MasterQuestions_Sentiment has_employeesID_column].
  rewrite !filter_twice, map_map.
  f_equal. apply map_ext. intros e.
  destruct (has_id id e) eqn:E.
  - rewrite has_id_set_filled, E. reflexivity.
  - rewrite E. reflexivity.
Qed.

Lemma reset_employee_twice_is_once_witness :
  let d1 := db (snd (reset_employee_responses "e1" (sample_world [] []))) in
  db (snd (reset_employee_responses "e1" (mkWorld d1 None [] [] [] []))) = d1.
Proof.
  cbv zeta.
  apply (reset_employee_twice_is_once "e1"
           (mkEmployee "e1" Employee (Some 1) (Some true)) 1
           (sample_world [] [])).
  - constructor.
  - discriminate.
  - reflexivity.
  - reflexivity.
  - discriminate.
  - reflexivity.
  - constructor.
Defined.

(** ** More on the orchestrator *)

(** X11.  An employee selected for the per-employee phase whose stored
    answers join with no known question -- in particular one flagged as
    filled without any stored answer -- is skipped: once the two reads have
    answered, the turn prints the warning, sends no request and leaves the
    store alone. *)
Theorem employee_without_answers_is_skipped (e : string) (w : world) :
  hd false (faults w) = false ->
  hd false (tl (faults w)) = false ->
  select_answers e (db w) = [] ->
  let w1 :=
    snd (try_catch (analyze_employee e)
           (fun _ => log (LogEmployeeFailed e)) w) in
  console w1 = console w ++ [LogGenerating e; LogNoResponses e]
  /\ calls w1 = calls w
  /\ db w1 = db w
  /\ service w1 = service w.
Proof.
  intros F0 F1 Hnone. cbv zeta.
  unfold analyze_employee, try_catch, bind, log. cbv beta iota.
  rewrite select_ok by exact F0. cbv beta iota.
  rewrite select_ok by exact F1. cbv beta iota.
  cbn [db pop with_faults]. rewrite Hnone. cbv beta iota.
  cbn [snd console calls db service pop with_faults].
  rewrite <- app_assoc. repeat split; reflexivity.
Qed.

Lemma no_rows_no_answers (e : string) (d : database) :
  (forall x, In x (Responses_Sentiment d) -> rs_employeesID x <> e) ->
  select_answers e d = [].
Proof.
  intros H. unfold select_answers.
  rewrite filter_none; [reflexivity|].
  intros x Hx. apply String.eqb_neq. auto.
Qed.

Lemma employee_without_answers_is_skipped_witness :
  let w := sample_world [] [] in
  let w1 :=
    snd (try_catch (analyze_employee "b1")
           (fun _ => log (LogEmployeeFailed "b1")) w) in
  console w1 = [LogGenerating "b1"; LogNoResponses "b1"]
  /\ calls w1 = [].
Proof.
  cbv zeta.
  destruct (employee_without_answers_is_skipped "b1" (sample_world [] []))
    as (H1 & H2 & _).
  - reflexivity.
  - reflexivity.
  - apply no_rows_no_answers. intros x Hx.
    simpl in Hx. destruct Hx as [<- | [<- | [<- | []]]]; discriminate.
  - split; assumption.
Defined.

(** With a service that answers every call, one turn of the loop leaves it
    so. *)
Lemma employee_turn_healthy (e : string) (w : world) :
  service w = [] ->
  service (snd (try_catch (analyze_employee e)
                  (fun _ => log (LogEmployeeFailed e)) w)) = [].
Proof.
  intros H.
  unfold analyze_employee, try_catch, bind, log. cbv beta iota.
  repeat step; cbv beta iota; cbn [snd service pop with_faults];
    try exact H.
  all: unfold axios_post; cbn [service pop with_faults]; rewrite H;
    cbn [snd service]; reflexivity.
Qed.

Lemma individual_reports_healthy (ids : list string) :
  forall w,
    service w = [] ->
    exists w1, individual_reports ids w = (Ok tt, w1) /\ service w1 = [].
Proof.
  induction ids as [|e rest IH]; intros w H.
  - exists w. split; [reflexivity | exact H].
  - cbn [individual_reports]. unfold bind at 1.
    pose proof (employee_turn_healthy e w H) as Hs.
    destruct (employee_turn e w) as (w1 & _ & _ & Hrun & _).
    rewrite Hrun in *. cbn [snd] in Hs.
    apply IH. exact Hs.
Qed.

(** X12.  On the manual endpoint, for a caller whose company is complete,
    once the caller's row, the flags and the list of employees have been
    read, and with an analysis service that answers every call: the answer
    is 200, whatever statements are rejected while the individual reports
    are prepared. *)
Theorem manual_analysis_survives_rejected_statements
    (hrUser : token_payload) (c : Z) (name : option string) (w : world) :
  select_employee_company (tok_employeesID hrUser) (db w)
    = Some (Some c, name) ->
  isComplete (db w) c ->
  service w = [] ->
  hd false (faults w) = false ->
  hd false (tl (faults w)) = false ->
  hd false (tl (tl (faults w))) = false ->
  fst (company_analyze hrUser w)
  = Ok (res_json (AnalysisCompleted (Some c) (or_null name))).
Proof.
  intros Hhr Hcomplete Hsvc F0 F1 F2.
  apply all_submitted_isComplete in Hcomplete.
  unfold all_submitted in Hcomplete.
  apply andb_true_iff in Hcomplete as [Hpos Heq].
  apply Nat.ltb_lt in Hpos.
  unfold company_analyze, try_catch at 1, bind at 1.
  rewrite select_ok by exact F0. cbv beta iota. rewrite Hhr.
  cbv beta iota zeta.
  unfold bind at 1. rewrite select_ok by exact F1. cbv beta iota.
  change (db (pop w)) with (db w).
  destruct (Nat.eqb_spec
              (List.length (select_is_filled (Some c) (db w))) 0) as [E|_];
    [lia|].
  rewrite Heq. cbn [negb].
  unfold try_catch at 1, bind at 1.
  unfold triggerCompanyAnalysis, try_catch at 1.
  unfold bind at 1. unfold log at 1. cbv beta iota.
  unfold bind at 1. rewrite select_ok by exact F2. cbv beta iota.
  unfold bind at 1. unfold log at 1. cbv beta iota.
  unfold bind at 1.
  match goal with
  | |- context [individual_reports ?ids ?w0] =>
      destruct (individual_reports_healthy ids w0 Hsvc) as (w1 & Hrun & Hs1)
  end.
  rewrite Hrun. cbv beta iota.
  unfold bind, log, axios_post, ret. cbv beta iota.
  cbn [service]. rewrite Hs1. reflexivity.
Qed.

Lemma manual_analysis_survives_rejected_statements_witness :
  fst (company_analyze (mkToken "hrA" (Some HR))
         (sample_world [false; false; false; true; true; true; true] []))
  = Ok (res_json (AnalysisCompleted (Some 1) (Some "Acme"))).
Proof.
  apply (manual_analysis_survives_rejected_statements
           (mkToken "hrA" (Some HR)) 1 (Some "Acme")); try reflexivity.
  apply all_submitted_isComplete. reflexivity.
Defined.

(** ** The answers sent for an employee *)

Lemma insert_sorted_perm (r : answer_row) (l : list answer_row) :
  Permutation (r :: l) (insert_sorted r l).
Proof.
  induction l as [|x l IH]; simpl.
  - apply Permutation_refl.
  - destruct (question_number r <? question_number x).
    + apply Permutation_refl.
    + eapply Permutation_trans; [apply perm_swap|].
      apply perm_skip. exact IH.
Qed.

Lemma insert_sorted_hd (r x : answer_row) (l : list answer_row) :
  by_number x r -> HdRel by_number x l -> HdRel by_number x (insert_sorted r l).
Proof.
  intros Hxr Hhd. destruct l as [|y l]; simpl.
  - constructor. exact Hxr.
  - destruct (question_number r <? question_number y); constructor.
    + exact Hxr.
    + inversion Hhd; assumption.
Qed.

Lemma insert_sorted_sorted (r : answer_row) (l : list answer_row) :
  Sorted by_number l -> Sorted by_number (insert_sorted r l).
Proof.
  induction l as [|x l IH]; simpl; intros H.
  - repeat constructor.
  - destruct (Z.ltb_spec (question_number r) (question_number x)).
    + constructor; [exact H|]. constructor. unfold by_number. lia.
    + inversion H as [|? ? Hs Hhd]; subst.
      constructor; [apply IH; exact Hs|].
      apply insert_sorted_hd; [unfold by_number; lia | exact Hhd].
Qed.

Lemma order_by_number_spec (l : list answer_row) :
  Sorted by_number (order_by_number l)
  /\ Permutation l (order_by_number l).
Proof.
  unfold order_by_number.
  assert (G : forall acc,
             Sorted by_number acc ->
             Sorted by_number
               (fold_left (fun acc r => insert_sorted r acc) l acc)
             /\ Permutation (l ++ acc)
                  (fold_left (fun acc r => insert_sorted r acc) l acc)).
  { induction l as [|r l IH]; intros acc Hacc; simpl.
    - split; [exact Hacc | apply Permutation_refl].
    - destruct (IH (insert_sorted r acc) (insert_sorted_sorted r acc Hacc))
        as [Hs Hp].
      split; [exact Hs|].
      eapply Permutation_trans; [|exact Hp].
      eapply Permutation_trans; [apply Permutation_middle|].
      apply Permutation_app_head. apply insert_sorted_perm. }
  destruct (G [] (Sorted_nil _)) as [Hs Hp].
  rewrite app_nil_r in Hp. split; assumption.
Qed.

(** X13.  The answers read for an employee come in ascending order of
    question number, and they are exactly the joins of a stored answer of
    that employee with the form question it refers to and with that
    question's master question: an answer that refers to no known question
    is left out. *)
Theorem answers_are_ordered_joins (id : string) (d : database) :
  Sorted by_number (select_answers id d)
  /\ forall r,
       In r (select_answers id d) <->
       exists rs fq mq,
         In rs (Responses_Sentiment d)
         /\ rs_employeesID rs = id
         /\ In fq (FormQuestions_Sentiment d)
         /\ fq_form_question_id fq = rs_form_question_id rs
         /\ In mq (MasterQuestions_Sentiment d)
         /\ mq_master_question_id mq = fq_master_question_id fq
         /\ r = mkAnswerRow (mq_question_number mq) (fq_question_text fq)
                  (rs_answer_text rs) (rs_answer_choice rs).
Proof.
  unfold select_answers.
  match goal with
  | |- context [order_by_number ?j] =>
      destruct (order_by_number_spec j) as [Hs Hp]; set (joined := j) in *
  end.
  split; [exact Hs|].
  intros r. split.
  - intros Hr. apply (Permutation_in _ (Permutation_sym Hp)) in Hr.
    unfold joined in Hr.
    apply in_flat_map in Hr as (rs & Hrs & Hr).
    apply filter_In in Hrs as [Hrs Hid]. apply String.eqb_eq in Hid.
    apply in_flat_map in Hr as (fq & Hfq & Hr).
    destruct (Z.eqb_spec (fq_form_question_id fq) (rs_form_question_id rs))
      as [Efq|]; [|contradiction].
    apply in_flat_map in Hr as (mq & Hmq & Hr).
    destruct (Z.eqb_spec (mq_master_question_id mq)
                (fq_master_question_id fq)) as [Emq|]; [|contradiction].
    destruct Hr as [<- | []].
    exists rs, fq, mq. repeat split; assumption.
  - intros (rs & fq & mq & Hrs & Hid & Hfq & Efq & Hmq & Emq & ->).
    apply (Permutation_in _ Hp). unfold joined.
    apply in_flat_map. exists rs. split.
    { apply filter_In. split; [assumption | apply String.eqb_eq; assumption]. }
    apply in_flat_map. exists fq. split; [assumption|].
    rewrite Efq, Z.eqb_refl.
    apply in_flat_map. exists mq. split; [assumption|].
    rewrite Emq, Z.eqb_refl. left. reflexivity.
Qed.

Lemma answers_are_ordered_joins_witness :
  In (mkAnswerRow 1 "How are you?" (Some "good") None)
    (select_answers "e1" sample_db).
Proof.
  apply (proj2 (answers_are_ordered_joins "e1" sample_db)).
  exists (mkResponse "e1" 1 101 (Some "good") None),
    (mkFormQuestion 101 "How are you?" 1), (mkMasterQuestion 1 1).
  repeat split.
  - right. left. reflexivity.
  - left. reflexivity.
  - left. reflexivity.
Defined.

Lemma set_key_keys (k : Z) (v : string * string) (o : list (Z * (string * string))) :
  forall k', In k' (map fst (set_key k v o)) <-> k' = k \/ In k' (map fst o).
Proof.
  induction o as [|[k0 v0] o IH]; intros k'; simpl.
  - intuition.
  - destruct (Z.eqb_spec k0 k) as [->|Hne]; simpl.
    + intuition.
    + rewrite IH. intuition.
Qed.

Lemma set_key_nodup (k : Z) (v : string * string) (o : list (Z * (string * string))) :
  NoDup (map fst o) -> NoDup (map fst (set_key k v o)).
Proof.
  induction o as [|[k0 v0] o IH]; simpl; intros H.
  - constructor; [intros [] | constructor].
  - inversion H as [|? ? Hnotin Hnd]; subst.
    destruct (Z.eqb_spec k0 k) as [->|Hne]; simpl.
    + constructor; assumption.
    + constructor; [|apply IH; assumption].
      rewrite set_key_keys. intros [E | Hin]; [congruence | contradiction].
Qed.

Lemma set_key_entries (k : Z) (v : string * string)
    (o : list (Z * (string * string))) (e : Z * (string * string)) :
  In e (set_key k v o) -> e = (k, v) \/ In e o.
Proof.
  induction o as [|[k0 v0] o IH]; simpl.
  - intuition.
  - destruct (Z.eqb_spec k0 k) as [->|Hne]; simpl.
    + intuition.
    + intros [<- | H]; [auto|]. apply IH in H. intuition.
Qed.

(** X14.  In the payload built for an employee no question number occurs
    twice, the numbers are those of the answers read, and every entry
    carries the question text and the answer of one of those answers. *)
Theorem formatted_answers_have_unique_keys (responses : list answer_row) :
  NoDup (map fst (format_answers responses))
  /\ (forall k, In k (map fst (format_answers responses)) <->
                In k (map question_number responses))
  /\ (forall k q a, In (k, (q, a)) (format_answers responses) ->
      exists r, In r responses /\ question_number r = k
                /\ question_text r = q /\ answer_of r = a).
Proof.
  unfold format_answers.
  assert (G : forall acc,
             NoDup (map fst acc) ->
             let out :=
               fold_left
                 (fun acc r =>
                    set_key (question_number r) (question_text r, answer_of r)
                      acc)
                 responses acc in
             NoDup (map fst out)
             /\ (forall k, In k (map fst out) <->
                           In k (map question_number responses)
                           \/ In k (map fst acc))
             /\ (forall e, In e out ->
                 (exists r, In r responses
                            /\ e = (question_number r,
                                    (question_text r, answer_of r)))
                 \/ In e acc)).
  { induction responses as [|r rest IH]; intros acc Hacc; cbv zeta; simpl.
    - split; [exact Hacc|]. split; [intuition | intuition].
    - destruct (IH (set_key (question_number r)
                      (question_text r, answer_of r) acc)
                  (set_key_nodup _ _ _ Hacc)) as (Hnd & Hkeys & Hent).
      split; [exact Hnd|]. split.
      + intros k. rewrite Hkeys, set_key_keys. intuition.
      + intros e He. apply Hent in He as [(r0 & Hr0 & ->) | He].
        * left. exists r0. split; [right; assumption | reflexivity].
        * apply set_key_entries in He as [-> | He]; [|right; assumption].
          left. exists r. split; [left; reflexivity | reflexivity]. }
  destruct (G [] (NoDup_nil _)) as (Hnd & Hkeys & Hent).
  split; [exact Hnd|]. split.
  - intros k. rewrite Hkeys. simpl. intuition.
  - intros k q a Hin. apply Hent in Hin as [(r & Hr & E) | []].
    injection E as -> -> ->. exists r. repeat split; assumption.
Qed.

Lemma formatted_answers_have_unique_keys_witness :
  exists r,
    In r [mkAnswerRow 1 "How are you?" (Some "good") None;
          mkAnswerRow 1 "How are you?" None (Some "B")]
    /\ question_number r = 1
    /\ question_text r = "How are you?"
    /\ answer_of r = "B".
Proof.
  apply (proj2 (proj2 (formatted_answers_have_unique_keys
                         [mkAnswerRow 1 "How are you?" (Some "good") None;
                          mkAnswerRow 1 "How are you?" None (Some "B")]))).
  left. reflexivity.
Defined.

(** * Helpers outside the request handlers *)

(** ** The address of the analysis service *)

(** X15.  For a host name without protocol, the address of the analysis
    service is the same whether the variable holds the bare host, the host
    after [http://] or the host after [https://] -- the service is always
    addressed over [http] -- and the port variable is used exactly when the
    host carries no port of its own. *)
Theorem service_address_ignores_protocol (h : string) (port : option string) :
  bare_host h ->
  FLASK_BASE_URL (Some ("http://" ++ h)%string) port
  = FLASK_BASE_URL (Some h) port
  /\ FLASK_BASE_URL (Some ("https://" ++ h)%string) port
     = FLASK_BASE_URL (Some h) port
  /\ FLASK_BASE_URL (Some h) port
     = (if includes_colon h then ("http://" ++ h)%string
        else ("http://" ++ h ++ ":" ++ env_or port "5000")%string).
Proof.
  intros (Hne & Hhttp & Hhttps).
  assert (E : env_or (Some h) "localhost" = h).
  { unfold env_or, or_null, truthy_str.
    destruct (String.eqb h "") eqn:E0; simpl.
    - apply String.eqb_eq in E0. contradiction.
    - reflexivity. }
  unfold FLASK_BASE_URL. cbv zeta. rewrite E.
  assert (C : cleanHost h = h).
  { unfold cleanHost. rewrite Hhttp, Hhttps. reflexivity. }
  repeat split.
  - rewrite C. reflexivity.
  - rewrite C. reflexivity.
  - rewrite C. reflexivity.
Qed.

Lemma service_address_ignores_protocol_witness :
  FLASK_BASE_URL (Some "https://ai.internal") (Some "8000")
  = "http://ai.internal:8000"
  /\ FLASK_BASE_URL (Some "http://ai.internal:9") (Some "8000")
     = "http://ai.internal:9".
Proof.
  split.
  - destruct (service_address_ignores_protocol "ai.internal" (Some "8000"))
      as (_ & H2 & H3).
    + repeat split; discriminate.
    + exact (eq_trans H2 H3).
  - destruct (service_address_ignores_protocol "ai.internal:9" (Some "8000"))
      as (H1 & _ & H3).
    + repeat split; discriminate.
    + exact (eq_trans H1 H3).
Defined.

(** ** Decoding an uploaded file *)

Lemma swapped_length (buf : list Z) :
  List.length (swapped buf) = List.length buf.
Proof.
  induction buf as [buf IH] using (well_founded_induction
                                     (Wf_nat.well_founded_ltof _ (@List.length Z))).
  destruct buf as [|a [|b rest]]; simpl; try reflexivity.
  rewrite IH; [reflexivity|]. unfold Wf_nat.ltof. simpl. lia.
Qed.

Lemma swapped_twice_pairs (pairs : list (Z * Z)) :
  let buf := flat_map (fun p => [fst p; snd p]) pairs in
  swapped (swapped buf) = buf.
Proof.
  cbv zeta. induction pairs as [|[a b] pairs IH]; simpl.
  - reflexivity.
  - rewrite IH. reflexivity.
Qed.

(** X16.  The byte swap keeps the length of the buffer; applied twice to a
    buffer made of whole pairs it gives the buffer back, while the last
    byte of a buffer of odd length is replaced by zero; and whenever the
    import decodes a buffer as UTF-16LE, the bytes it decodes start with
    the little-endian mark FF FE. *)
Theorem byte_swap_round_trip :
  (forall buf, List.length (swapped buf) = List.length buf)
  /\ (forall pairs,
        let buf := flat_map (fun p : Z * Z => [fst p; snd p]) pairs in
        swapped (swapped buf) = buf)
  /\ (forall pairs last,
        let buf := flat_map (fun p : Z * Z => [fst p; snd p]) pairs in
        swapped (buf ++ [last]) = swapped buf ++ [0])
  /\ (forall buf bytes,
        text_decode buf = (utf16le, bytes) ->
        exists rest, bytes = 255 :: 254 :: rest
                     /\ List.length bytes = List.length buf).
Proof.
  split; [exact swapped_length|].
  split; [exact swapped_twice_pairs|].
  split.
  - intros pairs last. cbv zeta.
    induction pairs as [|[a b] pairs IH]; simpl.
    + reflexivity.
    + rewrite IH. reflexivity.
  - intros buf bytes. unfold text_decode.
    destruct buf as [|b0 [|b1 rest]]; try discriminate.
    destruct (match rest with
              | b2 :: _ => (b0 =? 239) && (b1 =? 187) && (b2 =? 191)
              | [] => false
              end); [discriminate|].
    destruct ((b0 =? 255) && (b1 =? 254)) eqn:LE.
    + intros [= <-]. apply andb_true_iff in LE as [E0 E1].
      apply Z.eqb_eq in E0, E1. subst. exists rest. split; reflexivity.
    + destruct ((b0 =? 254) && (b1 =? 255)) eqn:BE; [|discriminate].
      intros [= <-]. apply andb_true_iff in BE as [E0 E1].
      apply Z.eqb_eq in E0, E1. subst.
      exists (swapped rest). split; [reflexivity|].
      apply (swapped_length (254 :: 255 :: rest)).
Qed.

Lemma byte_swap_round_trip_witness :
  exists rest,
    snd (text_decode [254; 255; 0; 65; 0; 66]) = 255 :: 254 :: rest
    /\ List.length (snd (text_decode [254; 255; 0; 65; 0; 66])) = 6%nat.
Proof.
  destruct (proj2 (proj2 (proj2 byte_swap_round_trip))
              [254; 255; 0; 65; 0; 66] [255; 254; 65; 0; 66; 0] eq_refl)
    as (rest & H1 & H2).
  exists rest. split; assumption.
Defined.

(** ** Rows of an imported file, fields of an exported one

    Text is a list of code units here. *)





Lemma drop_white_space_suffix (s : list Z) :
  exists front, s = front ++ drop_white_space s.
Proof.
  induction s as [|c s [front IH]]; simpl.
  - exists []. reflexivity.
  - destruct (is_white_space c).
    + exists (c :: front). simpl. f_equal. exact IH.
    + exists []. reflexivity.
Qed.

Lemma drop_white_space_starts_clean (s : list Z) : starts_clean (drop_white_space s).
Proof.
  induction s as [|c s IH]; simpl.
  - intros c' rest H. discriminate.
  - destruct (is_white_space c) eqn:E; [exact IH|].
    intros c' rest [= <- <-]. exact E.
Qed.

Lemma drop_white_space_fixed (s : list Z) :
  starts_clean s -> drop_white_space s = s.
Proof.
  intros H. destruct s as [|c s]; [reflexivity|].
  simpl. rewrite (H c s eq_refl). reflexivity.
Qed.

Lemma drop_white_space_ends_clean (s : list Z) :
  ends_clean s -> ends_clean (drop_white_space s).
Proof.
  intros H front c E. destruct (drop_white_space_suffix s) as [p Hp].
  apply (H (p ++ front) c). rewrite Hp at 1. rewrite E, app_assoc. reflexivity.
Qed.

Lemma rev_starts_clean (s : list Z) : ends_clean s -> starts_clean (rev s).
Proof.
  intros H c rest E. apply (H (rev rest) c).
  rewrite <- (rev_involutive s), E. reflexivity.
Qed.

Lemma rev_ends_clean (s : list Z) : starts_clean s -> ends_clean (rev s).
Proof.
  intros H front c E. apply (H c (rev front)).
  rewrite <- (rev_involutive s), E, rev_app_distr. reflexivity.
Qed.

Lemma trim_units_clean (s : list Z) :
  starts_clean (trim_units s) /\ ends_clean (trim_units s).
Proof.
  unfold trim_units. split.
  - apply rev_starts_clean, drop_white_space_ends_clean, rev_ends_clean,
      drop_white_space_starts_clean.
  - apply rev_ends_clean, drop_white_space_starts_clean.
Qed.

Lemma trim_units_fixed (s : list Z) :
  starts_clean s -> ends_clean s -> trim_units s = s.
Proof.
  intros Hs He. unfold trim_units.
  rewrite (drop_white_space_fixed s Hs).
  rewrite (drop_white_space_fixed (rev s) (rev_starts_clean s He)).
  apply rev_involutive.
Qed.

Lemma trim_units_twice (s : list Z) :
  trim_units (trim_units s) = trim_units s.
Proof.
  destruct (trim_units_clean s). apply trim_units_fixed; assumption.
Qed.

Lemma drop_white_space_incl (s : list Z) (c : Z) :
  In c (drop_white_space s) -> In c s.
Proof.
  destruct (drop_white_space_suffix s) as [p Hp]. intros H.
  rewrite Hp. apply in_or_app. right. exact H.
Qed.

Lemma trim_units_incl (s : list Z) (c : Z) :
  In c (trim_units s) -> In c s.
Proof.
  unfold trim_units. intros H.
  apply in_rev, drop_white_space_incl, in_rev, drop_white_space_incl in H. exact H.
Qed.

Lemma strip_outer_quotes_plain (f : list Z) :
  plain f -> strip_outer_quotes f = f.
Proof.
  intros H. unfold strip_outer_quotes.
  assert (L : forall s, plain s -> strip_leading_quote s = s).
  { intros s Hs. destruct s as [|c s]; [reflexivity|]. simpl.
    destruct (Hs c (or_introl eq_refl)) as [-> _]. reflexivity. }
  rewrite (L f H). rewrite L; [apply rev_involutive|].
  intros c Hc. apply H. apply in_rev. exact Hc.
Qed.

Lemma plain_field_kept (f : list Z) :
  plain f -> trim_units (strip_outer_quotes (trim_units f)) = trim_units f.
Proof.
  intros H. rewrite strip_outer_quotes_plain; [apply trim_units_twice|].
  intros c Hc. apply H, trim_units_incl, Hc.
Qed.

Lemma scan_row_plain (f : list Z) :
  forall rest cur parts,
    plain f ->
    scan_row (f ++ rest) cur false parts
    = scan_row rest (cur ++ f) false parts.
Proof.
  induction f as [|c f IH]; intros rest cur parts H.
  - simpl. rewrite app_nil_r. reflexivity.
  - destruct (H c (or_introl eq_refl)) as [Hq Hc].
    change ((c :: f) ++ rest) with (c :: (f ++ rest)).
    cbn [scan_row]. rewrite Hq, Hc. cbn [andb].
    rewrite IH.
    + rewrite <- app_assoc. reflexivity.
    + intros c' Hc'. apply H. right. exact Hc'.
Qed.

Lemma last_cons (A : Type) (l : list A) :
  forall a d, last (a :: l) d = last l a.
Proof.
  induction l as [|b l IH]; intros a d; [reflexivity|].
  change (last (a :: b :: l) d) with (last (b :: l) d).
  rewrite (IH b d), (IH b a). reflexivity.
Qed.

Lemma scan_row_joined (fs : list (list Z)) :
  forall f parts,
    plain f -> Forall plain fs ->
    scan_row (join_fields f fs) [] false parts
    = (parts ++ map trim_units (removelast (f :: fs)), last fs f).
Proof.
  induction fs as [|g gs IH]; intros f parts Hf Hfs.
  - cbn [join_fields]. rewrite <- (app_nil_r f) at 1.
    rewrite scan_row_plain by exact Hf.
    simpl. rewrite app_nil_r. reflexivity.
  - inversion Hfs as [|? ? Hg Hgs]; subst.
    cbn [join_fields]. rewrite scan_row_plain by exact Hf.
    change (scan_row (comma :: join_fields g gs) ([] ++ f) false parts)
      with (scan_row (join_fields g gs) [] false (parts ++ [trim_units f])).
    rewrite (IH g _ Hg Hgs), <- app_assoc.
    change (removelast (f :: g :: gs)) with (f :: removelast (g :: gs)).
    rewrite last_cons. reflexivity.
Qed.

(** X18.  A comma-delimited row whose fields contain neither quote nor
    comma is read as its fields, each one trimmed, in order -- except for
    an empty last field, which is dropped: a row that ends with a comma has
    one field less than it has commas plus one. *)
Theorem plain_row_is_split_at_commas
    (f : list Z) (fs : list (list Z)) :
  plain f ->
  Forall plain fs ->
  parseCsvRow (join_fields f fs) Comma
  = map trim_units
      (match last fs f with
       | [] => removelast (f :: fs)
       | _ :: _ => f :: fs
       end).
Proof.
  intros Hf Hfs. unfold parseCsvRow.
  rewrite (scan_row_joined fs f [] Hf Hfs). cbn [app].
  assert (Hall : Forall plain (f :: fs)) by (constructor; assumption).
  assert (Hfront : Forall plain (removelast (f :: fs))).
  { rewrite Forall_forall in *. intros x Hx. apply Hall.
    revert Hx. generalize (f :: fs). intros l.
    induction l as [|a l IH]; [intros []|].
    destruct l as [|b l]; [intros []|].
    intros [<- | Hx]; [left; reflexivity | right; apply IH, Hx]. }
  assert (Hlast : plain (last fs f)).
  { rewrite Forall_forall in Hall. apply Hall.
    clear. revert f. induction fs as [|g gs IH]; intros f.
    - left. reflexivity.
    - right. rewrite last_cons. apply (IH g). }
  assert (Hrem : f :: fs = removelast (f :: fs) ++ [last fs f]).
  { rewrite (app_removelast_last f) at 1 by discriminate.
    rewrite last_cons. reflexivity. }
  assert (Hmap : forall l, Forall plain l ->
                           map (fun p => trim_units (strip_outer_quotes p))
                             (map trim_units l)
                           = map trim_units l).
  { intros l Hl. rewrite map_map. apply map_ext_in.
    intros x Hx. rewrite Forall_forall in Hl.
    apply plain_field_kept, Hl, Hx. }
  destruct (last fs f) as [|c rest] eqn:E.
  - apply Hmap. exact Hfront.
  - rewrite map_app, (Hmap _ Hfront). cbn [map].
    rewrite plain_field_kept by exact Hlast.
    change [trim_units (c :: rest)] with (map trim_units [c :: rest]).
    rewrite <- map_app, <- Hrem. reflexivity.
Qed.

Lemma plain_row_is_split_at_commas_witness :
  parseCsvRow (join_fields [160; 101; 55] [[32; 65; 8195]; []]) Comma
  = [[101; 55]; [65]].
Proof.
  apply (plain_row_is_split_at_commas [160; 101; 55] [[32; 65; 8195]; []]).
  - intros c [<- | [<- | [<- | []]]]; split; reflexivity.
  - apply Forall_cons; [|apply Forall_cons; [|apply Forall_nil]].
    + intros c [<- | [<- | [<- | []]]]; split; reflexivity.
    + intros c [].
Defined.

(** * The employee listing of the HR dashboard *)

Lemma rejected_not_fault_free (w : world) :
  hd false (faults w) = true -> ~ fault_free w.
Proof. intros H F. apply fault_free_hd in F. congruence. Qed.

Lemma statusPromises_run (l : list employee) :
  forall w, exists ps w',
    statusPromises l w = (Ok ps, w')
    /\ db w' = db w
    /\ (forall w2,
          promise_all ps w2 = (Ok (map (entry_of (db w)) l), w2)
          \/ (~ fault_free w /\ exists e, promise_all ps w2 = (Throw e, w2))).
Proof.
  induction l as [|e rest IH]; intros w.
  - exists [], w. repeat split. intros w2. left. reflexivity.
  - cbn [statusPromises]. unfold bind at 1. unfold start at 1.
    unfold bind at 1.
    destruct (hd false (faults w)) eqn:F.
    + rewrite select_rejected by assumption.
      destruct (IH (pop w)) as (ps & w' & Hrun & Hdb & _).
      unfold bind at 1. rewrite Hrun. unfold ret.
      eexists _, _. split; [reflexivity|]. split; [exact Hdb|].
      intros w2. right. split; [apply rejected_not_fault_free, F|].
      exists SqlError. reflexivity.
    + rewrite select_ok by assumption.
      destruct (IH (pop w)) as (ps & w' & Hrun & Hdb & Hall).
      unfold bind at 1. unfold ret at 1. rewrite Hrun. unfold ret.
      eexists _, _. split; [reflexivity|]. split; [exact Hdb|].
      intros w2. cbn [promise_all map]. unfold bind.
      destruct (Hall w2) as [H | [Hf [err H]]]; rewrite H.
      * left. reflexivity.
      * right. split.
        -- intros G. apply Hf, fault_free_pop, G.
        -- exists err. reflexivity.
Qed.

(** What the listing endpoint does under any plan of rejected statements. *)
Lemma reports_employees_run (hrUser : token_payload) (w : world) :
  db (snd (reports_employees hrUser w)) = db w
  /\ ((~ fault_free w
       /\ fst (reports_employees hrUser w)
          = Ok (ListingError 500 "Failed to fetch employees"))
      \/ (select_employee_company (tok_employeesID hrUser) (db w) = None
          /\ fst (reports_employees hrUser w)
             = Ok (ListingError 404 "HR user not found"))
      \/ (exists companyId company_name,
             select_employee_company (tok_employeesID hrUser) (db w)
             = Some (companyId, company_name)
             /\ fst (reports_employees hrUser w)
                = Ok (Listing
                        (map (entry_of (db w))
                           (select_non_hr companyId (db w)))
                        (or_null company_name)))).
Proof.
  destruct (reports_employees hrUser w) as [r wf] eqn:R. cbn [fst snd].
  unfold reports_employees, try_catch in R. unfold bind at 1 in R.
  destruct (hd false (faults w)) eqn:F1.
  { rewrite select_rejected in R by assumption. cbn [ret] in R.
    injection R as <- <-.
    split; [reflexivity|]. left. split; [|reflexivity].
    apply rejected_not_fault_free, F1. }
  rewrite select_ok in R by assumption.
  destruct (select_employee_company (tok_employeesID hrUser) (db w))
    as [[companyId company_name]|] eqn:E.
  2:{ cbn [ret] in R. injection R as <- <-.
      split; [reflexivity|]. right. left. split; reflexivity. }
  unfold bind at 1 in R.
  destruct (hd false (faults (pop w))) eqn:F2.
  { rewrite select_rejected in R by assumption. cbn [ret] in R.
    injection R as <- <-.
    split; [reflexivity|]. left. split; [|reflexivity].
    intros G. apply (rejected_not_fault_free _ F2), fault_free_pop, G. }
  rewrite select_ok in R by assumption.
  destruct (statusPromises_run (select_non_hr companyId (db (pop w)))
              (pop (pop w))) as (ps & w' & Hrun & Hdb & Hall).
  unfold bind at 1 in R. rewrite Hrun in R. unfold bind at 1 in R.
  destruct (Hall w') as [H | [Hf [err H]]]; rewrite H in R; cbn [ret] in R;
    injection R as <- <-.
  - split; [exact Hdb|]. right. right.
    exists companyId, company_name. split; reflexivity.
  - split; [exact Hdb|]. left. split; [|reflexivity].
    intros G. apply Hf. apply fault_free_pop, fault_free_pop, G.
Qed.

(** X19.  Whatever statements are rejected, the listing endpoint leaves the
    store as it is and never answers with a part of the list: it answers
    404 or 500, or it lists every non-HR employee of the caller's company,
    in table order, each with the flags the store holds. *)
Theorem employee_listing_is_whole_or_refused
    (hrUser : token_payload) (w : world) :
  db (snd (reports_employees hrUser w)) = db w
  /\ match fst (reports_employees hrUser w) with
     | Ok (Listing entries company) =>
         exists companyId company_name,
           select_employee_company (tok_employeesID hrUser) (db w)
           = Some (companyId, company_name)
           /\ entries
              = map (entry_of (db w)) (select_non_hr companyId (db w))
           /\ company = or_null company_name
     | Ok (ListingError code _) => code = 404 \/ code = 500
     | Throw _ => False
     end.
Proof.
  destruct (reports_employees_run hrUser w)
    as [Hdb [[_ H] | [[_ H] | (c & n & E & H)]]];
    (split; [exact Hdb|]); rewrite H.
  - right. reflexivity.
  - left. reflexivity.
  - exists c, n. repeat split. exact E.
Qed.

Lemma filter_map_entries (f : listing_entry -> bool) (d : database)
    (l : list employee) :
  filter f (map (entry_of d) l)
  = map (entry_of d) (filter (fun e => f (entry_of d e)) l).
Proof.
  induction l as [|e l IH]; [reflexivity|].
  simpl. destruct (f (entry_of d e)); simpl; rewrite IH; reflexivity.
Qed.

Lemma filter_permutation (A : Type) (f : A -> bool) (l l' : list A) :
  Permutation l l' -> Permutation (filter f l) (filter f l').
Proof.
  induction 1 as [|x l l' _ IH|x y l|l l' l'' _ IH1 _ IH2]; simpl.
  - constructor.
  - destruct (f x); [constructor|]; exact IH.
  - destruct (f x), (f y); try apply Permutation_refl. constructor.
  - eapply Permutation_trans; eassumption.
Qed.

(** X20.  When no statement is rejected, the listing and the company status
    endpoint tell the same story to the same caller, whatever order the
    status query sorts its rows in: both answer 404 for a caller without an
    employee row, and otherwise the status endpoint's total is the number
    of listed employees, its filled count is the number of entries flagged
    as having filled the form, and its list of missing employees holds the
    identifiers of the entries not so flagged, each as often, in some
    order. *)
Theorem employee_listing_agrees_with_company_status
    (order_by_name : list employee -> list employee)
    (hrUser : token_payload) (w : world) :
  (forall l, Permutation (order_by_name l) l) ->
  fault_free w ->
  (fst (reports_employees hrUser w)
   = Ok (ListingError 404 "HR user not found")
   /\ fst (company_report_status order_by_name hrUser w)
      = Ok (mkHttp 404 (ErrorBody "HR user not found")))
  \/ (exists entries companyId company notFilled,
         fst (reports_employees hrUser w) = Ok (Listing entries company)
         /\ fst (company_report_status order_by_name hrUser w)
            = Ok (res_json
                    (CompanyStatus companyId company
                       (List.length entries)
                       (List.length (filter hasFilledForm entries))
                       notFilled))
         /\ Permutation notFilled
              (map le_employeesID
                 (filter (fun e => negb (hasFilledForm e)) entries))).
Proof.
  intros Hperm F.
  destruct (reports_employees_run hrUser w)
    as [_ [[N _] | [[E H] | (c & n & E & H)]]].
  - contradiction.
  - left. split; [exact H|].
    unfold company_report_status, try_catch. unfold bind at 1.
    run_ok. rewrite E. reflexivity.
  - right.
    exists (map (entry_of (db w)) (select_non_hr c (db w))), c, (or_null n).
    eexists. split; [exact H|].
    unfold company_report_status, try_catch. unfold bind at 1.
    run_ok. rewrite E. unfold bind at 1. run_ok.
    cbn [fst ret]. change (db (pop w)) with (db w).
    pose proof (Hperm (select_non_hr c (db w))) as P.
    rewrite !filter_map_entries, !length_map, !map_map.
    cbn [entry_of hasFilledForm le_employeesID].
    rewrite (Permutation_length P).
    rewrite (Permutation_length
               (filter_permutation _
                  (fun r => coalesce_filled (is_filled r)) _ _ P)).
    split; [reflexivity|].
    apply Permutation_map, filter_permutation, P.
Qed.

Lemma employee_listing_agrees_with_company_status_witness :
  let w :=
    mkWorld
      (with_employees
         [ mkEmployee "hrA" HR (Some 1) None;
           mkEmployee "zoe" Employee (Some 1) None;
           mkEmployee "amy" Employee (Some 1) None ]
         sample_db)
      None [] [] [] [] in
  exists entries notFilled,
    fst (reports_employees (mkToken "hrA" (Some HR)) w)
    = Ok (Listing entries (Some "Acme"))
    /\ map le_employeesID entries = ["zoe"; "amy"]
    /\ fst (company_report_status (@rev employee) (mkToken "hrA" (Some HR)) w)
       = Ok (res_json (CompanyStatus (Some 1) (Some "Acme") 2 0 notFilled))
    /\ notFilled = ["amy"; "zoe"]
    /\ Permutation notFilled
         (map le_employeesID
            (filter (fun e => negb (hasFilledForm e)) entries)).
Proof.
  cbv zeta.
  destruct (employee_listing_agrees_with_company_status
              (@rev employee) (mkToken "hrA" (Some HR))
              (mkWorld
                 (with_employees
                    [ mkEmployee "hrA" HR (Some 1) None;
                      mkEmployee "zoe" Employee (Some 1) None;
                      mkEmployee "amy" Employee (Some 1) None ]
                    sample_db)
                 None [] [] [] []))
    as [[H _] | (entries & c & n & notFilled & H1 & H2 & H3)].
  - intros l. apply Permutation_sym, Permutation_rev.
  - constructor.
  - vm_compute in H. discriminate H.
  - exists entries, notFilled.
    assert (E1 := H1). vm_compute in E1. injection E1 as <- <-.
    assert (E2 := H2). vm_compute in E2. injection E2 as <- <-.
    repeat split; try reflexivity. exact H3.
Defined.

Lemma find_by_id (l : list employee) (e : employee) :
  NoDup (map employeesID l) -> In e l ->
  find (has_id (employeesID e)) l = Some e.
Proof.
  induction l as [|a l IH]; intros N H; [destruct H|].
  inversion N as [|? ? Ha Nl]; subst.
  simpl. unfold has_id at 1.
  destruct H as [-> | H].
  - rewrite String.eqb_refl. reflexivity.
  - destruct (String.eqb_spec (employeesID a) (employeesID e)) as [Eq|_].
    + exfalso. apply Ha. rewrite Eq. apply in_map, H.
    + apply IH; assumption.
Qed.

Lemma existsb_filter (A : Type) (f : A -> bool) (l : list A) :
  existsb f l = false <-> filter f l = [].
Proof.
  induction l as [|a l IH]; simpl; [split; reflexivity|].
  destruct (f a); simpl; [split; discriminate | exact IH].
Qed.

(** X21.  With employee identifiers that are unique and no statement
    rejected, the listing and the individual report endpoint agree for the
    same caller: an entry flagged as having a report is an employee whose
    report the endpoint serves, and for an entry not so flagged the endpoint
    answers that there is no report, with the same filled flag as the
    entry. *)
Theorem listed_report_flag_matches_report_endpoint
    (hrUser : token_payload) (w : world)
    (entries : list listing_entry) (company : option string)
    (entry : listing_entry) :
  fault_free w ->
  NoDup (map employeesID (employees (db w))) ->
  fst (reports_employees hrUser w) = Ok (Listing entries company) ->
  In entry entries ->
  if hasReport entry
  then exists report,
         fst (sentiment_report hrUser (le_employeesID entry) w)
         = Ok (res_json (SentimentReport report))
         /\ lc_employeesID report = le_employeesID entry
  else fst (sentiment_report hrUser (le_employeesID entry) w)
       = Ok (res_json (NoSentimentReport (hasFilledForm entry))).
Proof.
  intros F N L Hin.
  destruct (reports_employees_run hrUser w)
    as [_ [[NF _] | [[_ H] | (c & n & E & H)]]];
    [contradiction | congruence |].
  rewrite H in L. injection L as <- <-.
  apply in_map_iff in Hin. destruct Hin as (e & <- & He).
  unfold select_non_hr in He. apply filter_In in He. destruct He as [He Hc].
  unfold in_company_non_hr in Hc. apply andb_true_iff in Hc.
  destruct Hc as [Hc _].
  unfold select_employee_company in E.
  destruct (find (has_id (tok_employeesID hrUser)) (employees (db w)))
    as [hr|] eqn:Ehr; [|discriminate E].
  cbn [option_map] in E. injection E as Ec _.
  assert (Hsame : js_strict_eq (emp_company_id e) (emp_company_id hr) = true).
  { rewrite Ec. destruct (emp_company_id e), c; try discriminate Hc.
    exact Hc. }
  pose proof (find_by_id _ e N He) as Fe.
  assert (Hrun : fst (sentiment_report hrUser (employeesID e) w)
                 = Ok (res_json
                         match select_sentiment_report (employeesID e) (db w)
                         with
                         | Some report => SentimentReport report
                         | None =>
                             NoSentimentReport (coalesce_filled (is_filled e))
                         end)).
  { unfold sentiment_report, try_catch. unfold bind at 1. run_ok.
    unfold select_employee at 1. rewrite Ehr.
    unfold bind at 1. run_ok. unfold select_employee at 1.
    change (db (pop w)) with (db w). rewrite Fe, Hsame. cbn [negb].
    unfold bind at 1. run_ok.
    change (db (pop (pop w))) with (db w).
    destruct (select_sentiment_report (employeesID e) (db w)) as [r|].
    - reflexivity.
    - unfold bind at 1. run_ok. unfold select_employee.
      change (db (pop (pop (pop w)))) with (db w). rewrite Fe. reflexivity. }
  cbn [entry_of le_employeesID hasReport hasFilledForm].
  rewrite Hrun. clear Hrun.
  unfold has_langchain_row, select_sentiment_report.
  destruct (existsb (fun r => String.eqb (lc_employeesID r) (employeesID e))
              (responses_langchain_sentiment (db w))) eqn:Ex.
  - destruct (latest lc_created_at
                (filter (fun r => String.eqb (lc_employeesID r) (employeesID e))
                   (responses_langchain_sentiment (db w)))) as [r|] eqn:El.
    + exists r. split; [reflexivity|].
      apply latest_is_max in El. destruct El as [Hr _].
      apply filter_In in Hr. apply String.eqb_eq, Hr.
    + apply latest_none, existsb_filter in El. congruence.
  - apply existsb_filter in Ex. rewrite Ex. reflexivity.
Qed.

Lemma listed_report_flag_matches_report_endpoint_witness :
  exists report,
    fst (sentiment_report (mkToken "hrA" (Some HR)) "e1" (sample_world [] []))
    = Ok (res_json (SentimentReport report))
    /\ lc_employeesID report = "e1".
Proof.
  apply (listed_report_flag_matches_report_endpoint
           (mkToken "hrA" (Some HR)) (sample_world [] [])
           [mkEntry "e1" Employee true true; mkEntry "e2" Manager false true]
           (Some "Acme")
           (mkEntry "e1" Employee true true)).
  - constructor.
  - repeat constructor; simpl; intuition discriminate.
  - reflexivity.
  - left. reflexivity.
Defined.
